(** * PowerVS client: caches and fan-out aggregation

    A shallow embedding of [src/powervs_client.py] (class [PowerVSClient]).

    - Python values that travel through the client (decoded JSON bodies and the
      dictionaries the client builds from them) are values of [pyval].
    - The upstream services are an oracle [upstream]: the [n]-th event of a run
      (a remote call or a reading of the clock) is answered by [respond up n]
      or [clock up n], so that one request may be answered differently at
      different moments.
    - Methods of the client are computations of the monad [M]: they read and
      write the [world] (the attributes of [self], the event counter and the
      list of requests sent so far) and end with a value or a raised
      exception.  State written before a [raise] stays written, as in Python.

    Modelling boundaries: strings are byte strings and [str.upper] folds the
    ASCII letters only; JSON numbers are integers; [time.time()] readings are
    integers (seconds); the texts of interpreter generated exception messages
    follow CPython 3.11; an f-string is kept as the list of its parts; [print]
    and [logger] calls have no counterpart. *)

From Stdlib Require Import ZArith List String Ascii Bool Lia DecimalString.
Import ListNotations.

Open Scope string_scope.
Open Scope Z_scope.

(* ================================================================== *)
(** ** Python values *)

#[local] Set Warnings "-register-all".

Inductive pyval : Type :=
| PNone
| PBool (b : bool)
| PInt (z : Z)
| PStr (s : string)
| PList (l : list pyval)
| PDict (d : list (string * pyval)).

(** Exception classes met in the client.  [HTTPError] and the decode error of
    [requests] are subclasses of [requests.RequestException]; the decode error
    is a [ValueError] as well. *)
Inductive exn_class : Type :=
| RequestException
| HTTPError
| JSONDecodeError
| ValueError
| KeyError
| TypeError
| AttributeError.

(** An exception object: its class and [str(e)]. *)
Record exn : Type := mkExn { exn_cls : exn_class; exn_str : string }.

Definition is_RequestException (e : exn) : bool :=
  match exn_cls e with
  | RequestException | HTTPError | JSONDecodeError => true
  | _ => false
  end.

Definition is_ValueError (e : exn) : bool :=
  match exn_cls e with JSONDecodeError | ValueError => true | _ => false end.

Definition is_KeyError (e : exn) : bool :=
  match exn_cls e with KeyError => true | _ => false end.

(** [except Exception] and a bare [except:] catch every class above. *)
Definition is_Exception (e : exn) : bool := true.

Inductive res (A : Type) : Type :=
| Ret (a : A)
| Raise (e : exn).
Arguments Ret {A} a.
Arguments Raise {A} e.

(* ------------------------------------------------------------------ *)
(** *** Strings *)

Definition upper_ascii (c : ascii) : ascii :=
  let n := nat_of_ascii c in
  if (Nat.leb 97 n && Nat.leb n 122)%bool then ascii_of_nat (n - 32) else c.

Fixpoint upper (s : string) : string :=
  match s with
  | EmptyString => EmptyString
  | String c s' => String (upper_ascii c) (upper s')
  end.

Fixpoint is_substring (k s : string) : bool :=
  (String.prefix k s ||
   match s with
   | EmptyString => false
   | String _ s' => is_substring k s'
   end)%bool.

Fixpoint chars (s : string) : list string :=
  match s with
  | EmptyString => []
  | String c s' => String c EmptyString :: chars s'
  end.

(** [s.split(sep)] for a one character separator. *)
Fixpoint split_on (sep : ascii) (s : string) : list string :=
  match s with
  | EmptyString => [EmptyString]
  | String c s' =>
      if Ascii.eqb c sep then EmptyString :: split_on sep s'
      else match split_on sep s' with
           | [] => [String c EmptyString]
           | p :: ps => String c p :: ps
           end
  end.

Definition str_of_Z (z : Z) : string := NilZero.string_of_int (Z.to_int z).

Definition nonempty (s : string) : bool :=
  match s with EmptyString => false | _ => true end.

(* ------------------------------------------------------------------ *)
(** *** Dictionaries, truth values and the operations that may raise *)

Fixpoint dict_lookup {V : Type} (k : string) (d : list (string * V)) : option V :=
  match d with
  | [] => None
  | (k', v) :: d' => if String.eqb k k' then Some v else dict_lookup k d'
  end.

(** [d[k] = v]: the binding of [k] is replaced where it stands, a new key goes
    to the end. *)
Fixpoint dict_set {V : Type} (k : string) (v : V) (d : list (string * V))
  : list (string * V) :=
  match d with
  | [] => [(k, v)]
  | (k', v') :: d' =>
      if String.eqb k k' then (k', v) :: d' else (k', v') :: dict_set k v d'
  end.

(** [d.update(e)] *)
Definition dict_update {V : Type} (d e : list (string * V)) : list (string * V) :=
  fold_left (fun acc kv => dict_set (fst kv) (snd kv) acc) e d.

Definition truthy (v : pyval) : bool :=
  match v with
  | PNone => false
  | PBool b => b
  | PInt z => negb (z =? 0)
  | PStr s => nonempty s
  | PList l => match l with [] => false | _ => true end
  | PDict d => match d with [] => false | _ => true end
  end.

Definition type_name (v : pyval) : string :=
  match v with
  | PNone => "NoneType"
  | PBool _ => "bool"
  | PInt _ => "int"
  | PStr _ => "str"
  | PList _ => "list"
  | PDict _ => "dict"
  end.

Definition attribute_error (v : pyval) (attr : string) : exn :=
  mkExn AttributeError
    ("'" ++ type_name v ++ "' object has no attribute '" ++ attr ++ "'").

Definition key_error (k : string) : exn := mkExn KeyError ("'" ++ k ++ "'").

(** [v.get(k, dflt)] *)
Definition py_get (v : pyval) (k : string) (dflt : pyval) : res pyval :=
  match v with
  | PDict d => Ret (match dict_lookup k d with Some x => x | None => dflt end)
  | _ => Raise (attribute_error v "get")
  end.

(** [v[k]] for a string [k] *)
Definition py_subscript (v : pyval) (k : string) : res pyval :=
  match v with
  | PDict d =>
      match dict_lookup k d with
      | Some x => Ret x
      | None => Raise (key_error k)
      end
  | PList _ =>
      Raise (mkExn TypeError "list indices must be integers or slices, not str")
  | PStr _ =>
      Raise (mkExn TypeError "string indices must be integers, not 'str'")
  | _ =>
      Raise (mkExn TypeError ("'" ++ type_name v ++ "' object is not subscriptable"))
  end.

(** [v == s] for a string [s] *)
Definition py_eq_str (v : pyval) (s : string) : bool :=
  match v with PStr s' => String.eqb s' s | _ => false end.

(** [k in v] for a string [k] *)
Definition py_contains (k : string) (v : pyval) : res bool :=
  match v with
  | PDict d => Ret (match dict_lookup k d with Some _ => true | None => false end)
  | PList l => Ret (existsb (fun x => py_eq_str x k) l)
  | PStr s => Ret (is_substring k s)
  | _ => Raise (mkExn TypeError
                  ("argument of type '" ++ type_name v ++ "' is not iterable"))
  end.

(** The items a [for] loop over [v] visits. *)
Definition py_iter (v : pyval) : res (list pyval) :=
  match v with
  | PList l => Ret l
  | PDict d => Ret (map (fun kv => PStr (fst kv)) d)
  | PStr s => Ret (map PStr (chars s))
  | _ => Raise (mkExn TypeError ("'" ++ type_name v ++ "' object is not iterable"))
  end.

(** [v.upper()] *)
Definition py_upper (v : pyval) : res string :=
  match v with
  | PStr s => Ret (upper s)
  | _ => Raise (attribute_error v "upper")
  end.

Definition py_len (l : list pyval) : pyval := PInt (Z.of_nat (List.length l)).

(** Keys of the routing dictionary are VM identifiers as they come out of the
    listing: any hashable value.  [True == 1] and [False == 0] in Python. *)
Definition hashable (v : pyval) : bool :=
  match v with PList _ | PDict _ => false | _ => true end.

Definition key_eqb (a b : pyval) : bool :=
  match a, b with
  | PNone, PNone => true
  | PStr s, PStr s' => String.eqb s s'
  | PInt z, PInt z' => z =? z'
  | PBool x, PBool y => Bool.eqb x y
  | PBool x, PInt z | PInt z, PBool x => z =? (if x then 1 else 0)
  | _, _ => false
  end.

Fixpoint route_lookup (k : pyval) (m : list (pyval * pyval)) : option pyval :=
  match m with
  | [] => None
  | (k', v) :: m' => if key_eqb k k' then Some v else route_lookup k m'
  end.

Fixpoint route_set (k v : pyval) (m : list (pyval * pyval)) : list (pyval * pyval) :=
  match m with
  | [] => [(k, v)]
  | (k', v') :: m' =>
      if key_eqb k k' then (k', v) :: m' else (k', v') :: route_set k v m'
  end.

(** [m[k] = v] on the routing dictionary *)
Definition route_assign (k v : pyval) (m : list (pyval * pyval))
  : res (list (pyval * pyval)) :=
  if hashable k then Ret (route_set k v m)
  else Raise (mkExn TypeError ("unhashable type: '" ++ type_name k ++ "'")).

(* ================================================================== *)
(** ** Requests, the upstream oracle and the world *)

(** What [get_iam_token] hands back: the [access_token] member of the decoded
    body, or the pair [("", e)] of its two failure branches. *)
Inductive token : Type :=
| TokVal (v : pyval)
| TokPair (s : string) (e : exn).

(** Truth value of a token: a pair of two components is a non-empty tuple. *)
Definition token_truthy (t : token) : bool :=
  match t with
  | TokVal v => truthy v
  | TokPair _ _ => true
  end.

(** An f-string is kept as its parts, in order. *)
Inductive fpart : Type :=
| FLit (s : string)
| FVal (v : pyval)
| FTok (t : token).

Definition fstring : Type := list fpart.

Definition fpart_nonempty (p : fpart) : bool :=
  match p with
  | FLit s => nonempty s
  | FVal (PStr s) => nonempty s
  | FVal _ => true
  | FTok (TokVal (PStr s)) => nonempty s
  | FTok _ => true
  end.

Definition fstring_truthy (f : fstring) : bool := existsb fpart_nonempty f.

Definition headers : Type := list (string * fstring).

Inductive request : Type :=
| POST (url : fstring) (hdrs : headers) (data : list (string * string)) (timeout : Z)
| GET (url : fstring) (hdrs : headers) (timeout : Z).

Inductive body : Type :=
| BodyJson (j : pyval)
| BodyUndecodable (msg : string).

(** Outcome of one remote call: the transport raises, or a response with a
    status code and a body arrives. *)
Inductive outcome : Type :=
| Transport (msg : string)
| Response (status : Z) (b : body).

Record upstream : Type := mkUpstream {
  clock : nat -> Z;
  respond : nat -> request -> outcome
}.

Record config : Type := mkConfig {
  api_key : string;
  account_id : string;
  base_url : string;
  crn : string
}.

(** The mutable attributes of a [PowerVSClient]. *)
Record client : Type := mkClient {
  _workspaces : option (list pyval);
  _workspaces_time : option Z;
  _vm_workspace : list (pyval * pyval);
  _vm_workspace_time : option Z
}.

Record world : Type := mkWorld {
  self : client;
  tick : nat;
  sent : list request
}.

(** A client as [__init__] leaves it. *)
Definition init_client : client := mkClient None None [] None.
Definition init_world : world := mkWorld init_client 0 [].

Definition WORKSPACE_CACHE_TTL : Z := 1800.
Definition VM_CACHE_TTL : Z := 300.

(** Truth value of a time stamp attribute ([None] or a number). *)
Definition time_truthy (t : option Z) : bool :=
  match t with
  | None => false
  | Some z => negb (z =? 0)
  end.

(* ------------------------------------------------------------------ *)
(** *** The monad *)

Definition M (A : Type) : Type := world -> res A * world.

Definition ret {A} (a : A) : M A := fun w => (Ret a, w).
Definition raise {A} (e : exn) : M A := fun w => (Raise e, w).
Definition lift {A} (r : res A) : M A := fun w => (r, w).

Definition bind {A B} (m : M A) (k : A -> M B) : M B :=
  fun w =>
    match m w with
    | (Ret a, w') => k a w'
    | (Raise e, w') => (Raise e, w')
    end.

Notation "x <- m ;; k" := (bind m (fun x => k))
  (at level 61, m at next level, right associativity).
Notation "' p <- m ;; k" := (bind m (fun x => let p := x in k))
  (at level 61, p pattern, m at next level, right associativity).

(** [try: m  except <classes in handles> as e: h e] *)
Definition try_except {A} (m : M A) (handles : exn -> bool) (h : exn -> M A) : M A :=
  fun w =>
    match m w with
    | (Ret a, w') => (Ret a, w')
    | (Raise e, w') => if handles e then h e w' else (Raise e, w')
    end.

(** [for x in l: s = body s x] *)
Fixpoint for_each {A S} (l : list A) (body : S -> A -> M S) (s : S) : M S :=
  match l with
  | [] => ret s
  | x :: l' => s' <- body s x ;; for_each l' body s'
  end.

Definition get_self : M client := fun w => (Ret (self w), w).

Definition put_self (c : client) : M unit :=
  fun w => (Ret tt, mkWorld c (tick w) (sent w)).

(** One remote call: the oracle answers it, the event counter advances and
    the request is recorded. *)
Definition http (up : upstream) (r : request) : M outcome :=
  fun w =>
    (Ret (respond up (tick w) r), mkWorld (self w) (S (tick w)) (sent w ++ [r])%list).

(** [time.time()] *)
Definition time_time (up : upstream) : M Z :=
  fun w => (Ret (clock up (tick w)), mkWorld (self w) (S (tick w)) (sent w)).

(** A [requests.Response]: status code and body. *)
Definition response : Type := (Z * body)%type.

Definition deliver (o : outcome) : M response :=
  match o with
  | Transport msg => raise (mkExn RequestException msg)
  | Response status b => ret (status, b)
  end.

(** [requests.get(url, headers=hdrs, timeout=t)] *)
Definition requests_get (up : upstream) (url : fstring) (hdrs : headers) (t : Z)
  : M response :=
  o <- http up (GET url hdrs t) ;; deliver o.

(** [requests.post(url, headers=hdrs, data=data, timeout=t)] *)
Definition requests_post (up : upstream) (url : fstring) (hdrs : headers)
  (data : list (string * string)) (t : Z) : M response :=
  o <- http up (POST url hdrs data t) ;; deliver o.

(** [response.raise_for_status()] *)
Definition raise_for_status (r : response) : res unit :=
  let status := fst r in
  if (400 <=? status) && (status <? 600)
  then Raise (mkExn HTTPError (str_of_Z status ++ " Error"))
  else Ret tt.

(** [response.json()] *)
Definition response_json (r : response) : res pyval :=
  match snd r with
  | BodyJson j => Ret j
  | BodyUndecodable msg => Raise (mkExn JSONDecodeError msg)
  end.

(* ------------------------------------------------------------------ *)
(** *** Computations that only raise *)

Definition rbind {A B} (r : res A) (k : A -> res B) : res B :=
  match r with
  | Ret a => k a
  | Raise e => Raise e
  end.

Notation "x <~ r ;; k" := (rbind r (fun x => k))
  (at level 61, r at next level, right associativity).

(** Counter dictionaries of the fan-out: [if k in d: d[k] += 1]. *)
Definition count_in (k : string) (d : list (string * Z)) : list (string * Z) :=
  match dict_lookup k d with
  | Some n => dict_set k (n + 1) d
  | None => d
  end.

Definition counters_py (d : list (string * Z)) : pyval :=
  PDict (map (fun kv => (fst kv, PInt (snd kv))) d).

Definition error_payload (msg : string) : pyval := PDict [("error", PStr msg)].

(** Truth value of the [error] component [_fetch_vms_from_workspace] returns
    ([None] or a string). *)
Definition error_truthy (e : option string) : bool :=
  match e with
  | None => false
  | Some s => nonempty s
  end.

Definition crn_truthy (c : option fstring) : bool :=
  match c with
  | None => false
  | Some f => fstring_truthy f
  end.

Definition set_vm_workspace (m : list (pyval * pyval)) (c : client) : client :=
  mkClient (_workspaces c) (_workspaces_time c) m (_vm_workspace_time c).

Definition set_vm_workspace_time (t : option Z) (c : client) : client :=
  mkClient (_workspaces c) (_workspaces_time c) (_vm_workspace c) t.

Definition set_workspaces (l : option (list pyval)) (c : client) : client :=
  mkClient l (_workspaces_time c) (_vm_workspace c) (_vm_workspace_time c).

Definition set_workspaces_time (t : option Z) (c : client) : client :=
  mkClient (_workspaces c) t (_vm_workspace c) (_vm_workspace_time c).

(** Local variables of [fetch_vms_from_all_workspaces]. *)
Record locals : Type := mkLocals {
  vm_list : list pyval;
  health_summary : list (string * Z);
  status_summary : list (string * Z)
}.

Definition health_summary0 : list (string * Z) :=
  [("OK", 0); ("CRITICAL", 0); ("WARNING", 0); ("ATTENTION", 0)].

Definition status_summary0 : list (string * Z) :=
  [("ACTIVE", 0); ("ERROR", 0); ("SHUTOFF", 0)].

(* ================================================================== *)
(** ** The client *)

Section Client.

Variable cfg : config.
Variable up : upstream.

Definition _extract_cloud_instance_id_from_crn : string :=
  if negb (nonempty (crn cfg)) then ""
  else
    let parts := split_on ":"%char (crn cfg) in
    if (8 <=? List.length parts)%nat then nth 7 parts "" else "".

(** [self.cloud_instance_id], as [__init__] sets it. *)
Definition cloud_instance_id : string :=
  if nonempty (crn cfg) then _extract_cloud_instance_id_from_crn else "".

(** [__init__], once the configuration is read: both keys are required, the
    caches start empty. *)
Definition __init__ : res client :=
  if negb (nonempty (api_key cfg)) || negb (nonempty (account_id cfg))
  then Raise (mkExn ValueError "API_KEY and ACCOUNT_ID are required")
  else Ret init_client.

(** [_extract_workspace_from_crn(crn)]; no method of the client calls it. *)
Definition _extract_workspace_from_crn (crn : string) : pyval :=
  if negb (nonempty crn) then PNone
  else
    let parts := split_on ":"%char crn in
    if (8 <=? List.length parts)%nat
    then PDict [("workspace_id", PStr (nth 7 parts ""));
                ("region", PStr (nth 5 parts ""))]
    else PNone.

(** [self.crn and self.cloud_instance_id] *)
Definition single_workspace : bool :=
  nonempty (crn cfg) && nonempty cloud_instance_id.

Definition token_request : request :=
  POST [FLit "https://iam.cloud.ibm.com/identity/token"]
       [("Content-Type", [FLit "application/x-www-form-urlencoded"]);
        ("Accept", [FLit "application/json"])]
       [("grant_type", "urn:ibm:params:oauth:grant-type:apikey");
        ("apikey", api_key cfg)]
       10.

Definition get_iam_token : M token :=
  r <- try_except
         (o <- http up token_request ;;
          response <- deliver o ;;
          _ <- lift (raise_for_status response) ;;
          ret (inl response))
         is_RequestException
         (fun e => ret (inr (TokPair "" e))) ;;
  match r with
  | inr t => ret t
  | inl response =>
      try_except
        (result <- lift (response_json response) ;;
         v <- lift (py_subscript result "access_token") ;;
         ret (TokVal v))
        (fun e => is_ValueError e || is_KeyError e)
        (fun e => ret (TokPair "" e))
  end.

Definition _get_headers (workspace_crn : option fstring) : M (option headers) :=
  token <- get_iam_token ;;
  if negb (token_truthy token) then ret None
  else
    let hdrs := [("Authorization", [FLit "Bearer "; FTok token]);
                 ("Accept", [FLit "application/json"]);
                 ("Content-Type", [FLit "application/json"])] in
    match workspace_crn with
    | Some c => if fstring_truthy c then ret (Some (dict_set "CRN" c hdrs))
                else ret (Some hdrs)
    | None => ret (Some hdrs)
    end.

(** The scope string of a workspace, recomputed at each use. *)
Definition workspace_crn_of (region workspace_id : pyval) : fstring :=
  [FLit "crn:v1:staging:public:power-iaas:"; FVal region; FLit ":a/";
   FLit (account_id cfg); FLit ":"; FVal workspace_id; FLit "::"].

Definition pvm_instances_url (workspace_url workspace_id : pyval) : fstring :=
  [FVal workspace_url; FLit "/pcloud/v1/cloud-instances/"; FVal workspace_id;
   FLit "/pvm-instances"].

Definition _fetch_vms_from_workspace
  (workspace_id : pyval) (workspace_crn : fstring) (workspace_url : pyval)
  : M (pyval * option string) :=
  hdrs <- _get_headers (Some workspace_crn) ;;
  match hdrs with
  | None => ret (PNone, Some "Failed to get headers")
  | Some h =>
      try_except
        (response <- requests_get up (pvm_instances_url workspace_url workspace_id) h 240 ;;
         if fst response =? 200
         then j <- lift (response_json response) ;; ret (j, None)
         else ret (PNone, Some ("HTTP " ++ str_of_Z (fst response))))
        is_Exception
        (fun e => ret (PNone, Some (exn_str e)))
  end.

Definition _build_vm_detail (pvm workspace_info : pyval) : res pyval :=
  vmName <~ py_get pvm "serverName" PNone ;;
  vmID <~ py_get pvm "pvmInstanceID" PNone ;;
  operatingSystem <~ py_get pvm "osType" PNone ;;
  systemType <~ py_get pvm "sysType" PNone ;;
  vmStatus <~ py_get pvm "status" PNone ;;
  health <~ py_get pvm "health" (PDict [("status", PStr "UNKNOWN")]) ;;
  crn_ <~ py_get pvm "crn" (PStr "") ;;
  let vm_detail :=
    [("vmName", vmName); ("vmID", vmID); ("operatingSystem", operatingSystem);
     ("systemType", systemType); ("vmStatus", vmStatus); ("health", health);
     ("crn", crn_)] in
  if truthy workspace_info then
    workspaceName <~ py_get workspace_info "name" PNone ;;
    workspaceRegion <~ py_get workspace_info "region" PNone ;;
    Ret (PDict (dict_update vm_detail
                  [("workspaceName", workspaceName);
                   ("workspaceRegion", workspaceRegion)]))
  else Ret (PDict vm_detail).

Definition workspaces_url : fstring := [FLit (base_url cfg); FLit "/v1/workspaces"].

Definition workspace_detail_of (workspace : pyval) : res pyval :=
  id <~ py_get workspace "id" PNone ;;
  name <~ py_get workspace "name" PNone ;;
  loc <~ py_get workspace "location" (PDict []) ;;
  region <~ py_get loc "region" PNone ;;
  loc' <~ py_get workspace "location" (PDict []) ;;
  url <~ py_get loc' "url" (PStr (base_url cfg)) ;;
  Ret (PDict [("id", id); ("name", name); ("region", region); ("url", url)]).

Definition get_all_workspaces : M (list pyval) :=
  c <- get_self ;;
  (* cache exists and is not expired *)
  hit <- match _workspaces c, _workspaces_time c with
         | Some ws, Some t =>
             if time_truthy (Some t) then
               now <- time_time up ;;
               let age := now - t in
               if age <=? WORKSPACE_CACHE_TTL then ret (Some ws) else ret None
             else ret None
         | _, _ => ret None
         end ;;
  match hit with
  | Some ws => ret ws
  | None =>
      match _workspaces c, time_truthy (_workspaces_time c) with
      | Some ws, false => ret ws
      | _, _ =>
          hdrs <- _get_headers None ;;
          match hdrs with
          | None => ret []
          | Some h =>
              try_except
                (data <- requests_get up workspaces_url h 120 ;;
                 response <- lift (response_json data) ;;
                 listed <- lift (py_get response "workspaces" (PList [])) ;;
                 items <- lift (py_iter listed) ;;
                 workspace_list <-
                   for_each items
                     (fun acc workspace =>
                        d <- lift (workspace_detail_of workspace) ;;
                        ret (acc ++ [d])%list)
                     [] ;;
                 c1 <- get_self ;;
                 _ <- put_self (set_workspaces (Some workspace_list) c1) ;;
                 now <- time_time up ;;
                 c2 <- get_self ;;
                 _ <- put_self (set_workspaces_time (Some now) c2) ;;
                 ret workspace_list)
                is_Exception
                (fun e =>
                   c' <- get_self ;;
                   match _workspaces c' with
                   | Some ws => ret ws
                   | None => ret []
                   end)
          end
      end
  end.

(** Body of the inner loop of the fan-out: one raw VM of one workspace. *)
Definition process_pvm
  (workspace_id workspace_region workspace_url workspace_info : pyval)
  (loc : locals) (pvm : pyval) : M locals :=
  vm_detail <- lift (_build_vm_detail pvm workspace_info) ;;
  let vm_list' := (vm_list loc ++ [vm_detail])%list in
  (* cache VM to workspace mapping *)
  vm_id <- lift (py_get vm_detail "vmID" PNone) ;;
  _ <- (if truthy vm_id then
          c <- get_self ;;
          m <- lift (route_assign vm_id
                       (PDict [("workspace_id", workspace_id);
                               ("region", workspace_region);
                               ("url", workspace_url)])
                       (_vm_workspace c)) ;;
          put_self (set_vm_workspace m c)
        else ret tt) ;;
  (* health and status based summary *)
  h <- lift (py_get vm_detail "health" (PDict [])) ;;
  hs <- lift (py_get h "status" (PStr "UNKNOWN")) ;;
  health_status <- lift (py_upper hs) ;;
  vs <- lift (py_get vm_detail "vmStatus" (PStr "UNKNOWN")) ;;
  vm_status <- lift (py_upper vs) ;;
  ret (mkLocals vm_list'
         (count_in health_status (health_summary loc))
         (count_in vm_status (status_summary loc))).

(** Body of the outer loop of the fan-out: one workspace.  Each [continue]
    of the source hands the locals back untouched. *)
Definition process_workspace (loc : locals) (workspace : pyval) : M locals :=
  workspace_id <- lift (py_get workspace "id" PNone) ;;
  workspace_name <- lift (py_get workspace "name" PNone) ;;
  workspace_region <- lift (py_get workspace "region" PNone) ;;
  workspace_url <- lift (py_get workspace "url" (PStr (base_url cfg))) ;;
  if negb (truthy workspace_id) then ret loc
  else
    let workspace_crn := workspace_crn_of workspace_region workspace_id in
    fetched <- _fetch_vms_from_workspace workspace_id workspace_crn workspace_url ;;
    let vm_data := fst fetched in
    let error := snd fetched in
    if error_truthy error then ret loc
    else
      has <- lift (py_contains "pvmInstances" vm_data) ;;
      if negb has then ret loc
      else
        let workspace_info :=
          PDict [("name", workspace_name); ("region", workspace_region)] in
        pvms <- lift (py_subscript vm_data "pvmInstances") ;;
        items <- lift (py_iter pvms) ;;
        for_each items
          (process_pvm workspace_id workspace_region workspace_url workspace_info)
          loc.

Definition inventory_result (all_workspaces : list pyval) (loc : locals) : pyval :=
  PDict [("total_vms", py_len (vm_list loc));
         ("total_workspaces", py_len all_workspaces);
         ("health_summary", counters_py (health_summary loc));
         ("status_summary", counters_py (status_summary loc));
         ("vms", PList (vm_list loc))].

Definition fetch_vms_from_all_workspaces : M pyval :=
  all_workspaces <- get_all_workspaces ;;
  match all_workspaces with
  | [] => ret (error_payload "No workspaces found")
  | _ =>
      c <- get_self ;;
      _ <- put_self (set_vm_workspace [] c) ;;
      loc <- for_each all_workspaces process_workspace
               (mkLocals [] health_summary0 status_summary0) ;;
      (* time stamp of the VM to workspace cache *)
      now <- time_time up ;;
      c' <- get_self ;;
      _ <- put_self (set_vm_workspace_time (Some now) c') ;;
      ret (inventory_result all_workspaces loc)
  end.

(** What [_get_workspace_for_vm] returns: workspace id, scope string, URL. *)
Definition resolved : Type := (pyval * option fstring * pyval)%type.

(** The part of [_get_workspace_for_vm] after the refresh: the routing map is
    consulted, then the static scope. *)
Definition consult_routing (vm_id : string) : M resolved :=
  c <- get_self ;;
  match route_lookup (PStr vm_id) (_vm_workspace c) with
  | Some ws =>
      workspace_id <- lift (py_subscript ws "workspace_id") ;;
      region <- lift (py_subscript ws "region") ;;
      workspace_url <- lift (py_get ws "url" (PStr (base_url cfg))) ;;
      ret (workspace_id, Some (workspace_crn_of region workspace_id), workspace_url)
  | None =>
      if single_workspace
      then ret (PStr cloud_instance_id, Some [FLit (crn cfg)], PStr (base_url cfg))
      else ret (PNone, None, PNone)
  end.

Definition _get_workspace_for_vm (vm_id : string) : M resolved :=
  c <- get_self ;;
  (* check if VM cache expired and refresh if needed *)
  _ <- match _vm_workspace_time c with
       | Some t =>
           if time_truthy (Some t) then
             now <- time_time up ;;
             let age := now - t in
             if age >? VM_CACHE_TTL
             then _ <- fetch_vms_from_all_workspaces ;; ret tt
             else ret tt
           else ret tt
       | None => ret tt
       end ;;
  consult_routing vm_id.

Definition append_vm_detail (acc : list pyval) (pvm : pyval) : M (list pyval) :=
  vm_detail <- lift (_build_vm_detail pvm PNone) ;;
  ret (acc ++ [vm_detail])%list.

Definition static_pvm_instances_url : fstring :=
  [FLit (base_url cfg); FLit "/pcloud/v1/cloud-instances/";
   FLit cloud_instance_id; FLit "/pvm-instances"].

Definition fetch_vms_from_specific_workspace : M pyval :=
  hdrs <- _get_headers (Some [FLit (crn cfg)]) ;;
  match hdrs with
  | None => ret (PList [])
  | Some h =>
      try_except
        (response <- requests_get up static_pvm_instances_url h 120 ;;
         responses <- lift (response_json response) ;;
         pvms <- lift (py_subscript responses "pvmInstances") ;;
         items <- lift (py_iter pvms) ;;
         vms <- for_each items append_vm_detail [] ;;
         ret (PList vms))
        (fun e => is_RequestException e || is_ValueError e)
        (fun e => ret (PList []))
  end.

Definition get_all_vms : M pyval :=
  if single_workspace then fetch_vms_from_specific_workspace
  else fetch_vms_from_all_workspaces.

Definition pvm_instance_url (workspace_url workspace_id : pyval) (vm_id : string)
  : fstring :=
  [FVal workspace_url; FLit "/pcloud/v1/cloud-instances/"; FVal workspace_id;
   FLit "/pvm-instances/"; FLit vm_id].

Definition network_interfaces_url (network_id : pyval) : fstring :=
  [FLit (base_url cfg); FLit "/v1/networks/"; FVal network_id;
   FLit "/network-interfaces"].

(** The two lists [get_network_health] fills: active and down interfaces. *)
Definition interfaces : Type := (list pyval * list pyval)%type.

Definition classify_interface (vm_id : string) (acc : interfaces) (interface : pyval)
  : M interfaces :=
  owner <- lift (py_get interface "pvmInstance" (PDict [])) ;;
  owner_id <- lift (py_get owner "pvmInstanceID" PNone) ;;
  if py_eq_str owner_id vm_id then
    status <- lift (py_get interface "status" PNone) ;;
    ip <- lift (py_get interface "ipAddress" PNone) ;;
    if py_eq_str status "ACTIVE"
    then ret (fst acc ++ [ip], snd acc)%list
    else ret (fst acc, snd acc ++ [ip])%list
  else ret acc.

Definition inspect_network (vm_id : string) (h : headers) (acc : interfaces)
  (network : pyval) : M interfaces :=
  network_id <- lift (py_get network "networkID" PNone) ;;
  nw_interface_response <- requests_get up (network_interfaces_url network_id) h 120 ;;
  nw_interface_data <- lift (response_json nw_interface_response) ;;
  listed <- lift (py_get nw_interface_data "networkInterfaces" (PList [])) ;;
  items <- lift (py_iter listed) ;;
  for_each items (classify_interface vm_id) acc.

Definition verdict_of (issues : list pyval) : string :=
  match issues with [] => "OK" | _ => "CRITICAL" end.

(** [get_network_health(vm_id, vm_data)]; the default of [vm_data] is [None]. *)
Definition get_network_health (vm_id : string) (vm_data : pyval) : M pyval :=
  r <- _get_workspace_for_vm vm_id ;;
  let '(workspace_id, workspace_crn, workspace_url) := r in
  if negb (truthy workspace_id) then ret (error_payload "VM not found.")
  else
    hdrs <- _get_headers workspace_crn ;;
    match hdrs with
    | None => ret (error_payload "Failed to get headers")
    | Some h =>
        vm_data' <- match vm_data with
                    | PNone =>
                        vm_response <-
                          requests_get up
                            (pvm_instance_url workspace_url workspace_id vm_id) h 120 ;;
                        lift (response_json vm_response)
                    | _ => ret vm_data
                    end ;;
        vm_networks <- lift (py_get vm_data' "networks" (PList [])) ;;
        items <- lift (py_iter vm_networks) ;;
        found <- for_each items (inspect_network vm_id h) ([], []) ;;
        let down_network_interfaces := snd found in
        ret (PDict [("network_health",
                      PDict [("status", PStr (verdict_of down_network_interfaces))]);
                    ("interfaces_down", PList down_network_interfaces)])
    end.

Definition healthy_volume_states : list string :=
  ["in-use"; "available"; "creating"; "attaching"; "detaching"].

Definition classify_volume (acc : list pyval) (volume : pyval) : M (list pyval) :=
  volume_state <- lift (py_get volume "state" (PStr "")) ;;
  if negb (existsb (py_eq_str volume_state) healthy_volume_states) then
    name <- lift (py_get volume "name" PNone) ;;
    ret (acc ++ [PDict [("name", name); ("state", volume_state)]])%list
  else ret acc.

Definition volumes_url (workspace_url workspace_id : pyval) (vm_id : string) : fstring :=
  [FVal workspace_url; FLit "/pcloud/v1/cloud-instances/"; FVal workspace_id;
   FLit "/pvm-instances/"; FLit vm_id; FLit "/volumes"].

Definition get_storage_health (vm_id : string) : M pyval :=
  r <- _get_workspace_for_vm vm_id ;;
  let '(workspace_id, workspace_crn, workspace_url) := r in
  if negb (truthy workspace_id) then ret (error_payload "VM not found.")
  else
    hdrs <- _get_headers workspace_crn ;;
    match hdrs with
    | None => ret (error_payload "Failed to get headers")
    | Some h =>
        volumes_response <-
          requests_get up (volumes_url workspace_url workspace_id vm_id) h 120 ;;
        volumes_data <- lift (response_json volumes_response) ;;
        listed <- lift (py_get volumes_data "volumes" (PList [])) ;;
        items <- lift (py_iter listed) ;;
        unhealthy_volumes <- for_each items classify_volume [] ;;
        ret (PDict [("storage_health",
                      PDict [("status", PStr (verdict_of unhealthy_volumes))]);
                    ("unhealthy_volumes", PList unhealthy_volumes)])
    end.

(** [r[section]["status"]] *)
Definition status_in (r : pyval) (section : string) : res pyval :=
  s <~ py_subscript r section ;; py_subscript s "status".

(** The tail of the [try] block of [get_vm_health], after the two partial
    results are there: the [or] of the two comparisons, then the members of
    the returned dictionary in the order they are written. *)
Definition compose_health (vm_id : string) (vm_data network_result storage_result : pyval)
  : res pyval :=
  n <~ status_in network_result "network_health" ;;
  critical <~ (if py_eq_str n "CRITICAL" then Ret true
               else s <~ status_in storage_result "storage_health" ;;
                    Ret (py_eq_str s "CRITICAL")) ;;
  let overall_status := if critical : bool then "CRITICAL" else "OK" in
  vmName <~ py_get vm_data "serverName" PNone ;;
  vm_status <~ py_get vm_data "status" PNone ;;
  network_health <~ status_in network_result "network_health" ;;
  storage_health <~ status_in storage_result "storage_health" ;;
  network_issues <~ py_get network_result "interfaces_down" (PList []) ;;
  storage_issues <~ py_get storage_result "unhealthy_volumes" (PList []) ;;
  Ret (PDict [("vmName", vmName);
              ("vmID", PStr vm_id);
              ("overall_health", PStr overall_status);
              ("vm_status", vm_status);
              ("network_health", network_health);
              ("storage_health", storage_health);
              ("network_issues", network_issues);
              ("storage_issues", storage_issues)]).

Definition get_vm_health (vm_id : string) : M pyval :=
  r <- _get_workspace_for_vm vm_id ;;
  let '(workspace_id, workspace_crn, workspace_url) := r in
  if negb (truthy workspace_id) then ret (error_payload "VM not found.")
  else
    hdrs <- _get_headers workspace_crn ;;
    match hdrs with
    | None => ret (error_payload "Failed to get headers")
    | Some h =>
        try_except
          (vm_response <-
             requests_get up (pvm_instance_url workspace_url workspace_id vm_id) h 240 ;;
           vm_data <- lift (response_json vm_response) ;;
           network_result <- get_network_health vm_id vm_data ;;
           storage_result <- get_storage_health vm_id ;;
           lift (compose_health vm_id vm_data network_result storage_result))
          is_Exception
          (fun e =>
             ret (error_payload
                    ("Failed to get health for VM " ++ vm_id ++ ": " ++ exn_str e)))
    end.

(** Body of the filter loop of [fetch_vms_by_health_status]. *)
Definition keep_if_health (health_status : string) (acc : list pyval) (vm : pyval)
  : M (list pyval) :=
  health_dict <- lift (py_get vm "health" (PDict [("status", PStr "UNKNOWN")])) ;;
  vm_health <- match health_dict with
               | PDict _ => lift (py_get health_dict "status" (PStr "UNKNOWN"))
               | _ => ret (PStr "UNKNOWN")
               end ;;
  u <- lift (py_upper vm_health) ;;
  if String.eqb u (upper health_status) then ret (acc ++ [vm])%list else ret acc.

Definition fetch_vms_by_health_status (health_status : string) : M pyval :=
  got <- (if single_workspace then
            hdrs <- _get_headers (Some [FLit (crn cfg)]) ;;
            match hdrs with
            | None => ret (inl (error_payload "Failed to get headers"))
            | Some h =>
                all_vms <-
                  try_except
                    (response <- requests_get up static_pvm_instances_url h 120 ;;
                     responses <- lift (response_json response) ;;
                     pvms <- lift (py_subscript responses "pvmInstances") ;;
                     items <- lift (py_iter pvms) ;;
                     vms <- for_each items append_vm_detail [] ;;
                     ret (PList vms))
                    is_Exception
                    (fun e => ret (PList [])) ;;
                ret (inr all_vms)
            end
          else
            result <- fetch_vms_from_all_workspaces ;;
            all_vms <- lift (py_get result "vms" (PList [])) ;;
            ret (inr all_vms)) ;;
  match got with
  | inl early => ret early
  | inr all_vms =>
      items <- lift (py_iter all_vms) ;;
      filtered_vms <- for_each items (keep_if_health health_status) [] ;;
      ret (PDict [("total_vms", py_len filtered_vms);
                  ("vms", PList filtered_vms)])
  end.

Definition get_critical_vms : M pyval :=
  fetch_vms_by_health_status "CRITICAL".

Definition static_resource_url (tail : list fpart) : fstring :=
  ([FLit (base_url cfg); FLit "/pcloud/v1/cloud-instances/";
    FLit cloud_instance_id] ++ tail)%list.

Definition image_summary (acc : list pyval) (image : pyval) : M (list pyval) :=
  imageID <- lift (py_get image "imageID" PNone) ;;
  name <- lift (py_get image "name" PNone) ;;
  specs <- lift (py_get image "specifications" (PDict [])) ;;
  operatingSystem <- lift (py_get specs "operatingSystem" PNone) ;;
  state <- lift (py_get image "state" PNone) ;;
  ret (acc ++ [PDict [("imageID", imageID); ("name", name);
                      ("operatingSystem", operatingSystem); ("state", state)]])%list.

Definition get_all_images_in_workspace : M pyval :=
  if negb (nonempty (crn cfg)) || negb (nonempty cloud_instance_id) then
    ret (error_payload
           "Configure CRN in config.yaml to list images in a specific workspace.")
  else
    hdrs <- _get_headers (Some [FLit (crn cfg)]) ;;
    match hdrs with
    | None => ret (error_payload "Failed to get headers")
    | Some h =>
        try_except
          (response <- requests_get up (static_resource_url [FLit "/images"]) h 120 ;;
           image_data <- lift (response_json response) ;;
           listed <- lift (py_get image_data "images" (PList [])) ;;
           items <- lift (py_iter listed) ;;
           image_list <- for_each items image_summary [] ;;
           ret (PDict [("total_images", py_len image_list);
                       ("images", PList image_list)]))
          is_Exception
          (fun e => ret (error_payload ("Failed to get images: " ++ exn_str e)))
    end.

Definition image_details_of (image_data : pyval) : res pyval :=
  specs <~ py_get image_data "specifications" (PDict []) ;;
  imageID <~ py_get image_data "imageID" PNone ;;
  name <~ py_get image_data "name" PNone ;;
  description <~ py_get image_data "description" PNone ;;
  state <~ py_get image_data "state" PNone ;;
  size <~ py_get image_data "size" PNone ;;
  storageType <~ py_get image_data "storageType" PNone ;;
  storagePool <~ py_get image_data "storagePool" PNone ;;
  operatingSystem <~ py_get specs "operatingSystem" PNone ;;
  architecture <~ py_get specs "architecture" PNone ;;
  imageType <~ py_get specs "imageType" PNone ;;
  creationDate <~ py_get image_data "creationDate" PNone ;;
  lastUpdateDate <~ py_get image_data "lastUpdateDate" PNone ;;
  servers <~ py_get image_data "servers" (PList []) ;;
  volumes <~ py_get image_data "volumes" (PList []) ;;
  Ret (PDict [("imageID", imageID); ("name", name); ("description", description);
              ("state", state); ("size", size); ("storageType", storageType);
              ("storagePool", storagePool); ("operatingSystem", operatingSystem);
              ("architecture", architecture); ("imageType", imageType);
              ("creationDate", creationDate); ("lastUpdateDate", lastUpdateDate);
              ("servers", servers); ("volumes", volumes)]).

Definition get_image_details (image_id : string) : M pyval :=
  if negb (nonempty (crn cfg)) || negb (nonempty cloud_instance_id) then
    ret (error_payload "Configure CRN in config.yaml to get image details.")
  else
    hdrs <- _get_headers (Some [FLit (crn cfg)]) ;;
    match hdrs with
    | None => ret (error_payload "Failed to get headers")
    | Some h =>
        try_except
          (response <-
             requests_get up (static_resource_url [FLit "/images/"; FLit image_id]) h 120 ;;
           image_data <- lift (response_json response) ;;
           lift (image_details_of image_data))
          is_Exception
          (fun e => ret (error_payload ("Failed to get image details: " ++ exn_str e)))
    end.

Definition network_summary (acc : list pyval) (network : pyval) : M (list pyval) :=
  ip_metrics <- lift (py_get network "ipAddressMetrics" (PDict [])) ;;
  networkID <- lift (py_get network "networkID" PNone) ;;
  name <- lift (py_get network "name" PNone) ;;
  type <- lift (py_get network "type" PNone) ;;
  cidr <- lift (py_get network "cidr" PNone) ;;
  gateway <- lift (py_get network "gateway" PNone) ;;
  dnsServers <- lift (py_get network "dnsServers" (PList [])) ;;
  vlanID <- lift (py_get network "vlanID" PNone) ;;
  total <- lift (py_get ip_metrics "total" (PInt 0)) ;;
  available <- lift (py_get ip_metrics "available" (PInt 0)) ;;
  used <- lift (py_get ip_metrics "used" (PInt 0)) ;;
  utilization <- lift (py_get ip_metrics "utilization" (PInt 0)) ;;
  ret (acc ++ [PDict [("networkID", networkID); ("name", name); ("type", type);
                      ("cidr", cidr); ("gateway", gateway);
                      ("dnsServers", dnsServers); ("vlanID", vlanID);
                      ("ipAddressMetrics",
                        PDict [("total", total); ("available", available);
                               ("used", used); ("utilization", utilization)])]])%list.

Definition get_networks_in_workspace : M pyval :=
  if negb (nonempty (crn cfg)) || negb (nonempty cloud_instance_id) then
    ret (error_payload
           "Configure CRN in config.yaml to list networks in a specific workspace.")
  else
    hdrs <- _get_headers (Some [FLit (crn cfg)]) ;;
    match hdrs with
    | None => ret (error_payload "Failed to get headers")
    | Some h =>
        try_except
          (response <- requests_get up (static_resource_url [FLit "/networks"]) h 120 ;;
           networks_data <- lift (response_json response) ;;
           listed <- lift (py_get networks_data "networks" (PList [])) ;;
           items <- lift (py_iter listed) ;;
           network_list <- for_each items network_summary [] ;;
           ret (PDict [("total_networks", py_len network_list);
                       ("networks", PList network_list)]))
          is_Exception
          (fun e => ret (error_payload ("Failed to get the networks: " ++ exn_str e)))
    end.

Definition snapshot_summary (acc : list pyval) (snapshot : pyval) : M (list pyval) :=
  snapshotID <- lift (py_get snapshot "snapshotID" PNone) ;;
  name <- lift (py_get snapshot "name" PNone) ;;
  description <- lift (py_get snapshot "description" PNone) ;;
  status <- lift (py_get snapshot "status" PNone) ;;
  creationDate <- lift (py_get snapshot "creationDate" PNone) ;;
  lastUpdateDate <- lift (py_get snapshot "lastUpdateDate" PNone) ;;
  pvmInstanceID <- lift (py_get snapshot "pvmInstanceID" PNone) ;;
  volumeSnapshots <- lift (py_get snapshot "volumeSnapshots" (PList [])) ;;
  ret (acc ++ [PDict [("snapshotID", snapshotID); ("name", name);
                      ("description", description); ("status", status);
                      ("creationDate", creationDate);
                      ("lastUpdateDate", lastUpdateDate);
                      ("pvmInstanceID", pvmInstanceID);
                      ("volumeSnapshots", volumeSnapshots)]])%list.

Definition snapshots_url (workspace_url workspace_id : pyval) (vm_id : string) : fstring :=
  [FVal workspace_url; FLit "/pcloud/v1/cloud-instances/"; FVal workspace_id;
   FLit "/pvm-instances/"; FLit vm_id; FLit "/snapshots"].

Definition get_vm_snapshots (vm_id : string) : M pyval :=
  r <- _get_workspace_for_vm vm_id ;;
  let '(workspace_id, workspace_crn, workspace_url) := r in
  if negb (truthy workspace_id) then ret (error_payload "VM not found.")
  else
    hdrs <- _get_headers workspace_crn ;;
    match hdrs with
    | None => ret (error_payload "Failed to get headers")
    | Some h =>
        try_except
          (response <-
             requests_get up (snapshots_url workspace_url workspace_id vm_id) h 120 ;;
           snapshots_data <- lift (response_json response) ;;
           listed <- lift (py_get snapshots_data "snapshots" (PList [])) ;;
           items <- lift (py_iter listed) ;;
           snapshot_list <- for_each items snapshot_summary [] ;;
           ret (PDict [("vmID", PStr vm_id);
                       ("total_snapshots", py_len snapshot_list);
                       ("snapshots", PList snapshot_list)]))
          is_Exception
          (fun e =>
             ret (error_payload ("Failed to get the instance snapshots: " ++ exn_str e)))
    end.

End Client.

(* ================================================================== *)
(** ** Worlds

    The worlds a step leads to, and a client with one attribute changed. *)

(** The world after one more remote call. *)
Definition after_call (r : request) (w : world) : world :=
  mkWorld (self w) (S (tick w)) (sent w ++ [r])%list.

(** The world after one more reading of the clock. *)
Definition after_clock (w : world) : world :=
  mkWorld (self w) (S (tick w)) (sent w).

Definition with_self (c : client) (w : world) : world :=
  mkWorld c (tick w) (sent w).

Definition with_routing (m : list (pyval * pyval)) (w : world) : world :=
  with_self (set_vm_workspace m (self w)) w.

Definition store_directory (l : list pyval) (now : Z) (c : client) : client :=
  set_workspaces_time (Some now) (set_workspaces (Some l) c).

(** A run ends with a value, not with an exception. *)
Definition returns {A : Type} (r : res A * world) : Prop :=
  exists a, fst r = Ret a.

(* ================================================================== *)
(** ** Pure readings of the remote steps

    Each remote step of the client ends in a value that depends on the
    oracle's answer only.  The run lemmas relate the methods to these
    readings. *)

(** What [get_iam_token] makes of the answer to the token request. *)
Definition token_of (o : outcome) : res token :=
  match o with
  | Transport msg => Ret (TokPair "" (mkExn RequestException msg))
  | Response status b =>
      match raise_for_status (status, b) with
      | Raise e => Ret (TokPair "" e)
      | Ret _ =>
          match b with
          | BodyUndecodable msg => Ret (TokPair "" (mkExn JSONDecodeError msg))
          | BodyJson j =>
              match py_subscript j "access_token" with
              | Ret v => Ret (TokVal v)
              | Raise e => if is_KeyError e then Ret (TokPair "" e) else Raise e
              end
          end
      end
  end.

(** The headers [_get_headers] builds from a token. *)
Definition headers_of (t : token) (workspace_crn : option fstring) : option headers :=
  if negb (token_truthy t) then None
  else
    let hdrs := [("Authorization", [FLit "Bearer "; FTok t]);
                 ("Accept", [FLit "application/json"]);
                 ("Content-Type", [FLit "application/json"])] in
    match workspace_crn with
    | Some c => if fstring_truthy c then Some (dict_set "CRN" c hdrs) else Some hdrs
    | None => Some hdrs
    end.

(** What [_fetch_vms_from_workspace] makes of the answer to the listing
    request. *)
Definition listing_of (o : outcome) : pyval * option string :=
  match o with
  | Transport msg => (PNone, Some msg)
  | Response status b =>
      if status =? 200 then
        match b with
        | BodyJson j => (j, None)
        | BodyUndecodable msg => (PNone, Some msg)
        end
      else (PNone, Some ("HTTP " ++ str_of_Z status))
  end.

(** A loop that appends [f x] for each [x], without touching the world. *)
Fixpoint collect {A B : Type} (f : A -> res B) (l : list A) (acc : list B)
  : res (list B) :=
  match l with
  | [] => Ret acc
  | x :: l' => d <~ f x ;; collect f l' (acc ++ [d])%list
  end.

(** What the [try] block of [get_all_workspaces] makes of the answer to the
    workspace request. *)
Definition directory_of (cfg : config) (o : outcome) : res (list pyval) :=
  match o with
  | Transport msg => Raise (mkExn RequestException msg)
  | Response status b =>
      response <~ response_json (status, b) ;;
      listed <~ py_get response "workspaces" (PList []) ;;
      items <~ py_iter listed ;;
      collect (workspace_detail_of cfg) items []
  end.

(** The live part of [get_all_workspaces]: token, workspace request, cache
    update or fallback. *)
Definition refresh (cfg : config) (up : upstream) (w : world)
  : res (list pyval) * world :=
  match token_of (respond up (tick w) (token_request cfg)) with
  | Raise e => (Raise e, after_call (token_request cfg) w)
  | Ret t =>
      match headers_of t None with
      | None => (Ret [], after_call (token_request cfg) w)
      | Some h =>
          let r := GET (workspaces_url cfg) h 120 in
          let w2 := after_call r (after_call (token_request cfg) w) in
          match directory_of cfg (respond up (S (tick w)) r) with
          | Ret l =>
              (Ret l,
               with_self (store_directory l (clock up (S (S (tick w)))) (self w))
                         (after_clock w2))
          | Raise e =>
              (Ret (match _workspaces (self w) with Some ws => ws | None => [] end),
               w2)
          end
      end
  end.

(** The normalised health status the inner loop of the fan-out computes for
    a VM record. *)
Definition normalized_health (vm_detail : pyval) : res string :=
  h <~ py_get vm_detail "health" (PDict []) ;;
  hs <~ py_get h "status" (PStr "UNKNOWN") ;;
  py_upper hs.

(** The two partial results of the health composer, by their issue lists. *)
Definition network_result_of (down : list pyval) : pyval :=
  PDict [("network_health", PDict [("status", PStr (verdict_of down))]);
         ("interfaces_down", PList down)].

Definition storage_result_of (unhealthy : list pyval) : pyval :=
  PDict [("storage_health", PDict [("status", PStr (verdict_of unhealthy))]);
         ("unhealthy_volumes", PList unhealthy)].

(** The token exchange is answered with a usable token: no error status, an
    object whose [access_token] is not empty. *)
Definition token_granted (o : outcome) : bool :=
  match o with
  | Response status (BodyJson (PDict d)) =>
      negb ((400 <=? status) && (status <? 600))
      && match dict_lookup "access_token" d with
         | Some v => truthy v
         | None => false
         end
  | _ => false
  end.

(** The token exchange fails: the transport raises, the status is an error
    status, the body does not decode, or it is an object without
    [access_token]. *)
Definition token_exchange_fails (o : outcome) : bool :=
  match o with
  | Transport _ => true
  | Response status b =>
      ((400 <=? status) && (status <? 600))
      || match b with
         | BodyUndecodable _ => true
         | BodyJson (PDict d) =>
             match dict_lookup "access_token" d with Some _ => false | None => true end
         | BodyJson _ => false
         end
  end.

(* ================================================================== *)
(** ** Reference aggregation

    The inventory as the design describes it (section 4.3): the listings of
    the workspaces that answered are normalised into VM records, merged into
    a routing map and counted.  These definitions follow the words of the
    design; the theorems compare the fan-out of the client with them. *)

(** Member [k] of an object, [dflt] when it is not there. *)
Definition field (v : pyval) (k : string) (dflt : pyval) : pyval :=
  match v with
  | PDict d => match dict_lookup k d with Some x => x | None => dflt end
  | _ => dflt
  end.

Definition is_dict (v : pyval) : bool :=
  match v with PDict _ => true | _ => false end.

Definition unknown_health : pyval := PDict [("status", PStr "UNKNOWN")].

(** The VM record of a raw VM listed by [workspace]. *)
Definition vm_record (workspace pvm : pyval) : pyval :=
  PDict [("vmName", field pvm "serverName" PNone);
         ("vmID", field pvm "pvmInstanceID" PNone);
         ("operatingSystem", field pvm "osType" PNone);
         ("systemType", field pvm "sysType" PNone);
         ("vmStatus", field pvm "status" PNone);
         ("health", field pvm "health" unknown_health);
         ("crn", field pvm "crn" (PStr ""));
         ("workspaceName", field workspace "name" PNone);
         ("workspaceRegion", field workspace "region" PNone)].

Definition upper_of (v : pyval) : string :=
  match v with PStr s => upper s | _ => "" end.

(** Normalised health status and power status of a raw VM. *)
Definition health_key (pvm : pyval) : string :=
  upper_of (field (field pvm "health" unknown_health) "status" (PStr "UNKNOWN")).

Definition status_key (pvm : pyval) : string :=
  upper_of (field pvm "status" PNone).

(** The routing entry of the VMs of [workspace]. *)
Definition routing_entry (cfg : config) (workspace : pyval) : pyval :=
  PDict [("workspace_id", field workspace "id" PNone);
         ("region", field workspace "region" PNone);
         ("url", field workspace "url" (PStr (base_url cfg)))].

(** An inventory under construction: records and counters, routing map. *)
Definition inventory : Type := (locals * list (pyval * pyval))%type.

Definition empty_inventory : inventory :=
  (mkLocals [] health_summary0 status_summary0, []).

Definition add_vm (cfg : config) (workspace : pyval) (acc : inventory) (pvm : pyval)
  : inventory :=
  let vm_id := field pvm "pvmInstanceID" PNone in
  (mkLocals (vm_list (fst acc) ++ [vm_record workspace pvm])%list
            (count_in (health_key pvm) (health_summary (fst acc)))
            (count_in (status_key pvm) (status_summary (fst acc))),
   if truthy vm_id then route_set vm_id (routing_entry cfg workspace) (snd acc)
   else snd acc).

Definition add_workspace (cfg : config) (acc : inventory)
  (part : pyval * list pyval) : inventory :=
  fold_left (add_vm cfg (fst part)) (snd part) acc.

(** Merge of the listings of the answering workspaces, in order. *)
Definition merge (cfg : config) (parts : list (pyval * list pyval)) : inventory :=
  fold_left (add_workspace cfg) parts empty_inventory.


(** A raw VM as the listing endpoint documents it: an object whose [status]
    is a string, whose [health], when present, is an object whose [status],
    when present, is a string, and whose [pvmInstanceID], when present, can
    be a dictionary key (or is empty). *)
Definition wf_pvm (pvm : pyval) : bool :=
  match pvm with
  | PDict d =>
      match dict_lookup "status" d with Some (PStr _) => true | _ => false end
      && match dict_lookup "health" d with
         | None => true
         | Some (PDict h) =>
             match dict_lookup "status" h with
             | None | Some (PStr _) => true
             | _ => false
             end
         | _ => false
         end
      && match dict_lookup "pvmInstanceID" d with
         | None => true
         | Some v => hashable v || negb (truthy v)
         end
  | _ => false
  end.

(** How the listing request of one workspace ends. *)
Inductive listing : Type :=
| Failed
| Listed (pvms : list pyval).

(** The three failures of a workspace: the transport raises, the status is
    not 200, the body carries no [pvmInstances]; and its success: status 200
    and an object whose [pvmInstances] is a list of raw VMs.  Answers
    outside these cases (a 200 whose body is no object, a malformed raw VM,
    an exception without text) are not classified. *)
Definition classify_listing (o : outcome) : option listing :=
  match o with
  | Transport msg => if nonempty msg then Some Failed else None
  | Response status b =>
      if status =? 200 then
        match b with
        | BodyUndecodable msg => if nonempty msg then Some Failed else None
        | BodyJson (PDict d) =>
            match dict_lookup "pvmInstances" d with
            | None => Some Failed
            | Some (PList pvms) =>
                if forallb wf_pvm pvms then Some (Listed pvms) else None
            | Some _ => None
            end
        | BodyJson _ => None
        end
      else Some Failed
  end.

(** The workspaces of [wss] that have an identifier and whose listing
    succeeded, each with its raw VMs. *)
Definition answering (answers : pyval -> outcome) (wss : list pyval)
  : list (pyval * list pyval) :=
  flat_map
    (fun ws =>
       if truthy (field ws "id" PNone) then
         match classify_listing (answers ws) with
         | Some (Listed pvms) => [(ws, pvms)]
         | _ => []
         end
       else [])
    wss.

(** The listing request of [ws] is answered by [answers ws], whenever it is
    sent and whatever headers it carries. *)
Definition stable_listing (cfg : config) (up : upstream) (answers : pyval -> outcome)
  (ws : pyval) : Prop :=
  forall (n : nat) (h : headers),
    respond up n
      (GET (pvm_instances_url (field ws "url" (PStr (base_url cfg)))
              (field ws "id" PNone)) h 240)
    = answers ws.

(** Sum of the values of a counter dictionary. *)
Definition counter_total (d : list (string * Z)) : Z :=
  fold_right (fun kv s => snd kv + s) 0 d.

(** The same sum, read off the returned Python dictionary. *)
Definition py_counter_total (v : pyval) : Z :=
  match v with
  | PDict d =>
      fold_right (fun kv s => match snd kv with PInt z => z + s | _ => s end) 0 d
  | _ => 0
  end.

Definition py_keys (v : pyval) : list string :=
  match v with
  | PDict d => map fst d
  | _ => []
  end.

(** The directory a client holds is a list of workspace objects. *)
Definition directory_ok (c : client) : Prop :=
  forall ws, _workspaces c = Some ws -> forallb is_dict ws = true.

(** The invariant of the two loops of the fan-out: the health counters keep
    their four keys and count no more VMs than were recorded. *)
Definition counted (loc : locals) : Prop :=
  map fst (health_summary loc) = ["OK"; "CRITICAL"; "WARNING"; "ATTENTION"]
  /\ counter_total (health_summary loc) <= Z.of_nat (List.length (vm_list loc)).

(** Worst-wins composition of two verdicts, in the words of the design:
    CRITICAL if either is CRITICAL, else OK. *)
Definition worst_of (network storage : string) : string :=
  if String.eqb network "CRITICAL" || String.eqb storage "CRITICAL"
  then "CRITICAL" else "OK".

(* ================================================================== *)
(** ** Scenarios

    Configurations, upstream behaviours and client states on which the
    theorems are exercised. *)

Definition cfg_account : config := mkConfig "key" "acct" "https://base" "".

Definition cfg_static : config :=
  mkConfig "key" "acct" "https://base"
    "crn:v1:staging:public:power-iaas:dal10:a/acct:ws-1::".

Definition is_post (r : request) : bool :=
  match r with POST _ _ _ _ => true | GET _ _ _ => false end.

(** The last literal part of the URL of a GET request. *)
Definition url_tail (r : request) : string :=
  match r with
  | GET u _ _ => match last u (FLit "") with FLit s => s | _ => "" end
  | POST _ _ _ _ => ""
  end.

(** The workspace a workspace scoped GET request addresses. *)
Definition url_workspace (r : request) : string :=
  match r with
  | GET u _ _ =>
      match nth 2 u (FLit "") with
      | FVal (PStr s) => s
      | FLit s => s
      | _ => ""
      end
  | POST _ _ _ _ => ""
  end.

Definition token_ok : outcome :=
  Response 200 (BodyJson (PDict [("access_token", PStr "tok")])).

(** An upstream that answers the token request with [tok] and a GET request
    by the tail of its URL, at every moment alike. *)
Definition scripted (now : Z) (tok : outcome) (routes : list (string * outcome))
  (otherwise : outcome) : upstream :=
  mkUpstream (fun _ => now)
    (fun _ r =>
       if is_post r then tok
       else match dict_lookup (url_tail r) routes with
            | Some o => o
            | None => otherwise
            end).

Definition workspace_dal10 : pyval :=
  PDict [("id", PStr "ws-1"); ("name", PStr "DAL10_Workspace");
         ("region", PStr "dal10"); ("url", PStr "https://dal.base")].

Definition workspace_dal12 : pyval :=
  PDict [("id", PStr "ws-2"); ("name", PStr "DAL12_Workspace");
         ("region", PStr "dal12"); ("url", PStr "https://dal.base")].

Definition workspace_dal13 : pyval :=
  PDict [("id", PStr "ws-3"); ("name", PStr "DAL13_Workspace");
         ("region", PStr "dal13"); ("url", PStr "https://dal.base")].

Definition three_workspaces : list pyval :=
  [workspace_dal10; workspace_dal12; workspace_dal13].

Definition route_dal10 : pyval :=
  PDict [("workspace_id", PStr "ws-1"); ("region", PStr "dal10");
         ("url", PStr "https://dal.base")].

Definition raw_vm1 : pyval :=
  PDict [("pvmInstanceID", PStr "vm-1"); ("serverName", PStr "db");
         ("osType", PStr "aix"); ("sysType", PStr "s922");
         ("status", PStr "ACTIVE");
         ("health", PDict [("status", PStr "OK")]);
         ("crn", PStr "crn:vm-1")].

(** A VM that is shut off and whose health is written in mixed case. *)
Definition raw_vm3 : pyval :=
  PDict [("pvmInstanceID", PStr "vm-3"); ("serverName", PStr "app");
         ("status", PStr "SHUTOFF");
         ("health", PDict [("status", PStr "Critical")])].

(** A VM without [health], whose status is no key of the status counters. *)
Definition raw_vm4 : pyval :=
  PDict [("pvmInstanceID", PStr "vm-4"); ("serverName", PStr "batch");
         ("status", PStr "BUILD")].

Definition listing_vm1 : pyval := PDict [("pvmInstances", PList [raw_vm1])].

Definition listing_dal13 : pyval :=
  PDict [("pvmInstances", PList [raw_vm3; raw_vm4])].

Definition directory_dal10 : pyval :=
  PDict [("workspaces",
          PList [PDict [("id", PStr "ws-1"); ("name", PStr "DAL10_Workspace");
                        ("location", PDict [("region", PStr "dal10");
                                            ("url", PStr "https://dal.base")])]])].

(** Everything answers: one workspace with one healthy VM. *)
Definition up_inventory : upstream :=
  scripted 5000 token_ok
    [("/v1/workspaces", Response 200 (BodyJson directory_dal10));
     ("/pvm-instances", Response 200 (BodyJson listing_vm1))]
    (Response 404 (BodyJson (PDict []))).

(** The token is granted and every other call fails in the transport. *)
Definition up_unreachable : upstream :=
  scripted 5000 token_ok [] (Transport "Connection refused").

(** The token exchange fails in the transport; the services answer 401 to
    whatever reaches them. *)
Definition up_token_down : upstream :=
  scripted 5000 (Transport "Name or service not known") []
    (Response 401 (BodyJson (PDict [("error", PStr "Unauthorized")]))).

(** The token endpoint answers with an object that has no [access_token]. *)
Definition up_token_missing : upstream :=
  scripted 5000 (Response 200 (BodyJson (PDict [("errorCode", PStr "BXNIM0415E")]))) []
    (Response 401 (BodyJson (PDict [("error", PStr "Unauthorized")]))).

(** The token endpoint answers with a JSON array. *)
Definition up_token_array : upstream :=
  scripted 5000 (Response 200 (BodyJson (PList []))) [] (Transport "Connection refused").

(** The workspace listing answers 503 with a JSON error document. *)
Definition up_directory_503 : upstream :=
  scripted 5000 token_ok
    [("/v1/workspaces",
      Response 503 (BodyJson (PDict [("message", PStr "Service Unavailable")])))]
    (Transport "Connection refused").

(** The token endpoint hands out an empty token. *)
Definition up_empty_token : upstream :=
  scripted 5000 (Response 200 (BodyJson (PDict [("access_token", PStr "")]))) []
    (Transport "Connection refused").

(** The token is granted, the directory answers, every listing times out. *)
Definition up_listings_time_out : upstream :=
  scripted 5000 token_ok
    [("/v1/workspaces", Response 200 (BodyJson directory_dal10))]
    (Transport "Read timed out").

Definition answers_time_out (ws : pyval) : outcome := Transport "Read timed out".

(** Listings by workspace: the first and the third answer, the second times
    out. *)
Definition listing_by_id (id : string) : outcome :=
  if String.eqb id "ws-1" then Response 200 (BodyJson listing_vm1)
  else if String.eqb id "ws-2" then Transport "Read timed out"
  else if String.eqb id "ws-3" then Response 200 (BodyJson listing_dal13)
  else Response 404 (BodyJson (PDict [])).


Definition up_three : upstream :=
  mkUpstream (fun _ => 5000)
    (fun _ r =>
       if is_post r then token_ok
       else if String.eqb (url_tail r) "/pvm-instances"
            then listing_by_id (url_workspace r)
            else Response 404 (BodyJson (PDict []))).

(** A client whose workspace directory was fetched at 1000 and whose routing
    map was built at 1000; it is read at 5000, when both are expired. *)
Definition world_expired : world :=
  mkWorld (mkClient (Some [workspace_dal10]) (Some 1000)
                    [(PStr "vm-1", route_dal10)] (Some 1000)) 0 [].

(** The same client with a workspace directory fetched at 4000, still within
    its TTL at 5000, and a routing map built at 1000. *)
Definition world_routing_expired : world :=
  mkWorld (mkClient (Some [workspace_dal10]) (Some 4000)
                    [(PStr "vm-1", route_dal10)] (Some 1000)) 0 [].

(** A client that knows three workspaces (directory fetched at 4000) and
    still routes a VM that no longer exists (map built at 1000). *)
Definition world_three : world :=
  mkWorld (mkClient (Some three_workspaces) (Some 4000)
                    [(PStr "vm-9", route_dal10)] (Some 1000)) 0 [].

(** The inventory of [up_three]: the VMs of the first and of the third
    workspace. *)
Definition inventory_three : pyval :=
  PDict [("total_vms", PInt 3);
         ("total_workspaces", PInt 3);
         ("health_summary",
           PDict [("OK", PInt 1); ("CRITICAL", PInt 1);
                  ("WARNING", PInt 0); ("ATTENTION", PInt 0)]);
         ("status_summary",
           PDict [("ACTIVE", PInt 1); ("ERROR", PInt 0); ("SHUTOFF", PInt 1)]);
         ("vms",
           PList [vm_record workspace_dal10 raw_vm1;
                  vm_record workspace_dal13 raw_vm3;
                  vm_record workspace_dal13 raw_vm4])].

Definition vm_document : pyval :=
  PDict [("serverName", PStr "db"); ("status", PStr "ACTIVE");
         ("networks", PList [PDict [("networkID", PStr "net-1")]])].

Definition interfaces_document (status : string) : pyval :=
  PDict [("networkInterfaces",
          PList [PDict [("pvmInstance", PDict [("pvmInstanceID", PStr "vm-1")]);
                        ("status", PStr status); ("ipAddress", PStr "10.0.0.5")];
                 PDict [("pvmInstance", PDict [("pvmInstanceID", PStr "vm-2")]);
                        ("status", PStr "DOWN"); ("ipAddress", PStr "10.0.0.6")]])].

Definition volumes_document : pyval :=
  PDict [("volumes", PList [PDict [("name", PStr "boot"); ("state", PStr "in-use")]])].

(** A VM of the static workspace with healthy volumes and one interface of
    its own, whose status is [status]. *)
Definition up_vm_health (status : string) : upstream :=
  scripted 5000 token_ok
    [("vm-1", Response 200 (BodyJson vm_document));
     ("/network-interfaces", Response 200 (BodyJson (interfaces_document status)));
     ("/volumes", Response 200 (BodyJson volumes_document))]
    (Response 404 (BodyJson (PDict []))).

(** The health of [vm-1] when its interface is down. *)
Definition health_network_down : pyval :=
  PDict [("vmName", PStr "db"); ("vmID", PStr "vm-1");
         ("overall_health", PStr "CRITICAL"); ("vm_status", PStr "ACTIVE");
         ("network_health", PStr "CRITICAL"); ("storage_health", PStr "OK");
         ("network_issues", PList [PStr "10.0.0.5"]);
         ("storage_issues", PList [])].

(** The health of [vm-1] when nothing is wrong. *)
Definition health_all_ok : pyval :=
  PDict [("vmName", PStr "db"); ("vmID", PStr "vm-1");
         ("overall_health", PStr "OK"); ("vm_status", PStr "ACTIVE");
         ("network_health", PStr "OK"); ("storage_health", PStr "OK");
         ("network_issues", PList []);
         ("storage_issues", PList [])].

(* ================================================================== *)
(** ** Scope strings as text

    Definitions for the properties of the CRN helpers. *)

(** [sep.join(parts)] for a one character separator. *)
Fixpoint join_on (sep : ascii) (parts : list string) : string :=
  match parts with
  | [] => EmptyString
  | p :: ps =>
      match ps with
      | [] => p
      | _ :: _ => p ++ String sep (join_on sep ps)
      end
  end.

(** Number of occurrences of a character. *)
Fixpoint count_char (c : ascii) (s : string) : nat :=
  match s with
  | EmptyString => O
  | String c' s' => if Ascii.eqb c' c then S (count_char c s') else count_char c s'
  end.

(** The text of an f-string all of whose values are strings. *)
Fixpoint text_of (f : fstring) : option string :=
  match f with
  | [] => Some EmptyString
  | FLit s :: f' => option_map (append s) (text_of f')
  | FVal (PStr s) :: f' => option_map (append s) (text_of f')
  | _ :: _ => None
  end.

(* ================================================================== *)
(** ** The workspace directory as the listing documents it *)

(** The workspace record of one item of the workspace listing. *)
Definition workspace_record (cfg : config) (item : pyval) : pyval :=
  PDict [("id", field item "id" PNone);
         ("name", field item "name" PNone);
         ("region", field (field item "location" (PDict [])) "region" PNone);
         ("url", field (field item "location" (PDict [])) "url" (PStr (base_url cfg)))].

(** An item of the workspace listing: an object whose [location], when
    present, is an object. *)
Definition wf_workspace (item : pyval) : bool :=
  match item with
  | PDict d =>
      match dict_lookup "location" d with
      | None | Some (PDict _) => true
      | Some _ => false
      end
  | _ => false
  end.

(* ================================================================== *)
(** ** Further scenarios *)

(** A client that routes [vm-1] but holds no workspace directory. *)
Definition world_routing_only : world :=
  mkWorld (mkClient None None [(PStr "vm-1", route_dal10)] (Some 1000)) 0 [].

(* ================================================================== *)
(** ** Readings of the summaries and of the filter *)

(** The normalised power status the inner loop of the fan-out computes for
    a VM record. *)
Definition normalized_status (vm_detail : pyval) : res string :=
  vs <~ py_get vm_detail "vmStatus" (PStr "UNKNOWN") ;;
  py_upper vs.

(** The computation [r] ends with the string [k]. *)
Definition res_is (k : string) (r : res string) : bool :=
  match r with
  | Ret s => String.eqb s k
  | Raise _ => false
  end.

(** Number of the records of [l] whose normalised value is [k]. *)
Definition count_where (key : pyval -> res string) (k : string) (l : list pyval) : Z :=
  Z.of_nat (List.length (filter (fun r => res_is k (key r)) l)).

(** The counters tell, key by key, how many of the recorded VMs have that
    normalised value. *)
Definition tallied (key : pyval -> res string) (keys : list string)
  (counters : list (string * Z)) (records : list pyval) : Prop :=
  map fst counters = keys
  /\ forall k, In k keys -> dict_lookup k counters = Some (count_where key k records).

(** The health status [fetch_vms_by_health_status] compares, before the
    comparison. *)
Definition filter_health (vm : pyval) : res string :=
  health_dict <~ py_get vm "health" (PDict [("status", PStr "UNKNOWN")]) ;;
  vm_health <~ match health_dict with
               | PDict _ => py_get health_dict "status" (PStr "UNKNOWN")
               | _ => Ret (PStr "UNKNOWN")
               end ;;
  py_upper vm_health.

(** What the filter returns for the records [kept]. *)
Definition filter_result (kept : list pyval) : pyval :=
  PDict [("total_vms", py_len kept); ("vms", PList kept)].

Definition health_keys : list string := ["OK"; "CRITICAL"; "WARNING"; "ATTENTION"].
Definition status_keys : list string := ["ACTIVE"; "ERROR"; "SHUTOFF"].

Definition both_tallied (loc : locals) : Prop :=
  tallied normalized_health health_keys (health_summary loc) (vm_list loc)
  /\ tallied normalized_status status_keys (status_summary loc) (vm_list loc).

(** The records of an inventory all have a health the fan-out normalised. *)
Definition all_normalized (loc : locals) : Prop :=
  Forall (fun r => exists k, normalized_health r = Ret k) (vm_list loc).

(** The VM record of a raw VM listed by the static workspace. *)
Definition bare_record (pvm : pyval) : pyval :=
  PDict [("vmName", field pvm "serverName" PNone);
         ("vmID", field pvm "pvmInstanceID" PNone);
         ("operatingSystem", field pvm "osType" PNone);
         ("systemType", field pvm "sysType" PNone);
         ("vmStatus", field pvm "status" PNone);
         ("health", field pvm "health" unknown_health);
         ("crn", field pvm "crn" (PStr ""))].

(** What the [try] block shared by [fetch_vms_from_specific_workspace] and
    the single-workspace branch of [fetch_vms_by_health_status] makes of the
    answer to the listing request. *)
Definition static_listing_of (o : outcome) : res (list pyval) :=
  match o with
  | Transport msg => Raise (mkExn RequestException msg)
  | Response status b =>
      responses <~ response_json (status, b) ;;
      pvms <~ py_subscript responses "pvmInstances" ;;
      items <~ py_iter pvms ;;
      collect (fun pvm => _build_vm_detail pvm PNone) items []
  end.

(** The routing map [m] routes exactly the VMs recorded in [records] that
    have a non-empty string identifier, each to an entry with a workspace
    identifier and the region of a record of that VM. *)
Definition routes_records (m : list (pyval * pyval)) (records : list pyval) : Prop :=
  (forall v entry,
     route_lookup (PStr v) m = Some entry ->
     nonempty v = true
     /\ exists workspace_id region url r,
          entry = PDict [("workspace_id", workspace_id); ("region", region); ("url", url)]
          /\ truthy workspace_id = true
          /\ In r records
          /\ py_get r "vmID" PNone = Ret (PStr v)
          /\ py_get r "workspaceRegion" PNone = Ret region)
  /\ (forall v r,
        nonempty v = true -> In r records -> py_get r "vmID" PNone = Ret (PStr v) ->
        route_lookup (PStr v) m <> None).

Definition routed (loc : locals) (w : world) : Prop :=
  routes_records (_vm_workspace (self w)) (vm_list loc).

(** The static scope and the not-found answer of [_get_workspace_for_vm]. *)
Definition static_scope (cfg : config) : resolved :=
  (PStr (cloud_instance_id cfg), Some [FLit (crn cfg)], PStr (base_url cfg)).

Definition not_found : resolved := (PNone, None, PNone).

(** The state of a volume, empty when it has none. *)
Definition volume_state (volume : pyval) : pyval := field volume "state" (PStr "").

(** The volume is in none of the healthy states. *)
Definition unhealthy_volume (volume : pyval) : bool :=
  negb (existsb (py_eq_str (volume_state volume)) healthy_volume_states).

(** The entry of [unhealthy_volumes] for a volume. *)
Definition volume_issue (volume : pyval) : pyval :=
  PDict [("name", field volume "name" PNone); ("state", volume_state volume)].

(** An interface as the interface listing documents it: an object whose
    [pvmInstance], when present, is an object. *)
Definition wf_interface (interface : pyval) : bool :=
  match interface with
  | PDict d =>
      match dict_lookup "pvmInstance" d with
      | None | Some (PDict _) => true
      | Some _ => false
      end
  | _ => false
  end.

(** The interface belongs to the VM. *)
Definition own_interface (vm_id : string) (interface : pyval) : bool :=
  py_eq_str (field (field interface "pvmInstance" (PDict [])) "pvmInstanceID" PNone) vm_id.

(** The interface belongs to the VM and its status is not [ACTIVE]. *)
Definition own_down (vm_id : string) (interface : pyval) : bool :=
  own_interface vm_id interface && negb (py_eq_str (field interface "status" PNone) "ACTIVE").

Definition own_active (vm_id : string) (interface : pyval) : bool :=
  own_interface vm_id interface && py_eq_str (field interface "status" PNone) "ACTIVE".

Definition ip_of (interface : pyval) : pyval := field interface "ipAddress" PNone.

(** The interface listing of [net] is answered with an object whose
    [networkInterfaces] is the list [listed], whenever it is asked for. *)
Definition lists_interfaces (cfg : config) (up : upstream) (net : pyval)
  (listed : list pyval) : Prop :=
  forall (n : nat) (h : headers),
  exists status dn,
    respond up n (GET (network_interfaces_url cfg (field net "networkID" PNone)) h 120)
    = Response status (BodyJson (PDict dn))
    /\ field (PDict dn) "networkInterfaces" (PList []) = PList listed.

(** Three volumes: one in use, one in error, one without state. *)
Definition volumes_mixed : list pyval :=
  [PDict [("name", PStr "boot"); ("state", PStr "in-use")];
   PDict [("name", PStr "data"); ("state", PStr "error")];
   PDict [("name", PStr "scratch")]].

Definition up_volumes_mixed : upstream :=
  scripted 5000 token_ok
    [("/volumes", Response 200 (BodyJson (PDict [("volumes", PList volumes_mixed)])))]
    (Response 404 (BodyJson (PDict []))).

(** The interfaces [interfaces_document] lists. *)
Definition listed_interfaces (status : string) : list pyval :=
  match field (interfaces_document status) "networkInterfaces" PNone with
  | PList l => l
  | _ => []
  end.

(** The health document of a VM for which nothing is wrong. *)
Definition healthy_report (vm_id : string) (vm_data : pyval) : pyval :=
  PDict [("vmName", field vm_data "serverName" PNone);
         ("vmID", PStr vm_id);
         ("overall_health", PStr "OK");
         ("vm_status", field vm_data "status" PNone);
         ("network_health", PStr "OK");
         ("storage_health", PStr "OK");
         ("network_issues", PList []);
         ("storage_issues", PList [])].

(** A VM request and a volume request answered 404 with an error
    document. *)
Definition up_not_found : upstream :=
  scripted 5000 token_ok []
    (Response 404 (BodyJson (PDict [("description", PStr "pvm-instance does not exist");
                                    ("error", PStr "not found")]))).

(** An image the loop of [get_all_images_in_workspace] can read: an object
    whose [specifications], when present, is an object. *)
Definition wf_image (image : pyval) : bool :=
  match image with
  | PDict d =>
      match dict_lookup "specifications" d with
      | Some s => is_dict s
      | None => true
      end
  | _ => false
  end.

(** The row the loop makes of an image. *)
Definition image_row (image : pyval) : pyval :=
  PDict [("imageID", field image "imageID" PNone);
         ("name", field image "name" PNone);
         ("operatingSystem",
           field (field image "specifications" (PDict [])) "operatingSystem" PNone);
         ("state", field image "state" PNone)].

(** The row the loop of [get_vm_snapshots] makes of a snapshot. *)
Definition snapshot_row (snapshot : pyval) : pyval :=
  PDict [("snapshotID", field snapshot "snapshotID" PNone);
         ("name", field snapshot "name" PNone);
         ("description", field snapshot "description" PNone);
         ("status", field snapshot "status" PNone);
         ("creationDate", field snapshot "creationDate" PNone);
         ("lastUpdateDate", field snapshot "lastUpdateDate" PNone);
         ("pvmInstanceID", field snapshot "pvmInstanceID" PNone);
         ("volumeSnapshots", field snapshot "volumeSnapshots" (PList []))].

Definition images_listed : list pyval :=
  [PDict [("imageID", PStr "img-1"); ("name", PStr "aix-7300");
          ("state", PStr "active");
          ("specifications", PDict [("operatingSystem", PStr "aix")])];
   PDict [("imageID", PStr "img-2"); ("name", PStr "custom"); ("state", PStr "queued")]].

Definition up_images (status : Z) (images : list pyval) : upstream :=
  scripted 5000 token_ok
    [("/images", Response status (BodyJson (PDict [("images", PList images)])))]
    (Response 404 (BodyJson (PDict []))).

Definition snapshots_listed : list pyval :=
  [PDict [("snapshotID", PStr "snap-1"); ("name", PStr "before-upgrade");
          ("status", PStr "available"); ("pvmInstanceID", PStr "vm-1")];
   PDict [("snapshotID", PStr "snap-2"); ("name", PStr "nightly");
          ("status", PStr "creating"); ("pvmInstanceID", PStr "vm-1");
          ("volumeSnapshots", PList [PStr "vol-1"])]].

Definition up_snapshots : upstream :=
  scripted 1200 token_ok
    [("/snapshots", Response 200 (BodyJson (PDict [("snapshots", PList snapshots_listed)])))]
    (Response 404 (BodyJson (PDict []))).

(** A listing answer from which [_fetch_vms_from_workspace] returns neither
    an error text nor a list of VMs: an exception whose text is empty, a
    200 whose body is [null], or a 200 object whose [pvmInstances] is
    [null]. *)
Definition no_payload (o : outcome) : bool :=
  match o with
  | Transport msg => negb (nonempty msg)
  | Response status b =>
      (status =? 200)
      && match b with
         | BodyUndecodable msg => negb (nonempty msg)
         | BodyJson PNone => true
         | BodyJson (PDict d) =>
             match dict_lookup "pvmInstances" d with
             | Some PNone => true
             | _ => false
             end
         | BodyJson _ => false
         end
  end.

(** The upstream of [up_three] with the second workspace answering [o]. *)
Definition listing_with (o : outcome) (id : string) : outcome :=
  if String.eqb id "ws-2" then o else listing_by_id id.

Definition answers_with (o : outcome) (ws : pyval) : outcome :=
  match field ws "id" PNone with
  | PStr id => listing_with o id
  | _ => Response 404 (BodyJson (PDict []))
  end.

Definition up_three_with (o : outcome) : upstream :=
  mkUpstream (fun _ => 5000)
    (fun _ r =>
       if is_post r then token_ok
       else if String.eqb (url_tail r) "/pvm-instances"
            then listing_with o (url_workspace r)
            else Response 404 (BodyJson (PDict []))).

(* ================================================================== *)
(** ** Inversion of computations *)

Lemma bind_Ret_inv {A B : Type} (m : M A) (k : A -> M B) (w w' : world) (b : B) :
  bind m k w = (Ret b, w') ->
  exists a w1, m w = (Ret a, w1) /\ k a w1 = (Ret b, w').
Proof.
  unfold bind. destruct (m w) as [[a | e] w1]; intros H.
  - exists a, w1. split; [reflexivity | exact H].
  - discriminate.
Qed.

Lemma lift_Ret_inv {A : Type} (r : res A) (w w' : world) (a : A) :
  lift r w = (Ret a, w') -> r = Ret a /\ w' = w.
Proof. unfold lift. intros H. inversion H. split; reflexivity. Qed.

Lemma ret_inv {A : Type} (a b : A) (w w' : world) :
  ret a w = (Ret b, w') -> a = b /\ w' = w.
Proof. unfold ret. intros H. inversion H. split; reflexivity. Qed.

Lemma try_except_Ret_inv {A : Type} (m : M A) (handles : exn -> bool) (h : exn -> M A)
  (w w' : world) (a : A) :
  try_except m handles h w = (Ret a, w') ->
  m w = (Ret a, w')
  \/ exists e w1, m w = (Raise e, w1) /\ handles e = true /\ h e w1 = (Ret a, w').
Proof.
  unfold try_except. destruct (m w) as [[x | e] w1]; intros H.
  - left. exact H.
  - right. exists e, w1. destruct (handles e); [| discriminate].
    split; [reflexivity |]. split; [reflexivity | exact H].
Qed.

(** [bind_lift H x E]: the computation in [H] starts with a lifted pure step;
    name its value [x] and its equation [E]. *)
Ltac bind_lift H x E :=
  let w1 := fresh "w" in
  let H1 := fresh "H" in
  apply bind_Ret_inv in H; destruct H as (x & w1 & H1 & H);
  apply lift_Ret_inv in H1; destruct H1 as [E ->].

(** [bind_step H x w1 E]: the computation in [H] starts with any step. *)
Ltac bind_step H x w1 E :=
  apply bind_Ret_inv in H; destruct H as (x & w1 & E & H).

Lemma for_each_preserves {A S : Type} (P : S -> Prop) (body : S -> A -> M S) :
  (forall s x w s' w', P s -> body s x w = (Ret s', w') -> P s') ->
  forall l s w s' w', P s -> for_each l body s w = (Ret s', w') -> P s'.
Proof.
  intros Hbody. induction l as [| x l IH]; intros s w s' w' Hs H.
  - apply ret_inv in H. destruct H as [<- _]. exact Hs.
  - cbn [for_each] in H. bind_step H s1 w1 E1.
    apply (IH s1 w1 s' w'); [| exact H].
    apply (Hbody s x w s1 w1 Hs E1).
Qed.

Lemma for_each_collect {A B : Type} (f : A -> res B) (l : list A) :
  forall (acc : list B) (w : world),
  for_each l (fun acc x => bind (lift (f x)) (fun d => ret (acc ++ [d])%list)) acc w
  = (collect f l acc, w).
Proof.
  induction l as [| x l IH]; intros acc w.
  - reflexivity.
  - cbn [for_each collect]. unfold bind at 1. unfold bind at 1. unfold lift at 1.
    destruct (f x) as [d | e]; cbn [rbind].
    + unfold ret at 1. apply IH.
    + reflexivity.
Qed.

(* ================================================================== *)
(** ** Run lemmas *)

Section Runs.

Variable cfg : config.
Variable up : upstream.

Lemma get_iam_token_run (w : world) :
  get_iam_token cfg up w
  = (token_of (respond up (tick w) (token_request cfg)),
     after_call (token_request cfg) w).
Proof.
  unfold get_iam_token, bind, try_except, http, after_call. simpl.
  destruct (respond up (tick w) (token_request cfg)) as [msg | status b]; simpl.
  - reflexivity.
  - unfold lift, raise_for_status. simpl.
    destruct ((400 <=? status) && (status <? 600)); simpl.
    + reflexivity.
    + unfold response_json; simpl. destruct b as [j | msg]; simpl.
      * destruct (py_subscript j "access_token") as [v | e] eqn:E; simpl.
        -- reflexivity.
        -- destruct j; simpl in E; try (inversion E; subst; reflexivity).
           destruct (dict_lookup "access_token" d); inversion E; subst; reflexivity.
      * reflexivity.
Qed.

Lemma _get_headers_run (workspace_crn : option fstring) (w : world) :
  _get_headers cfg up workspace_crn w
  = (t <~ token_of (respond up (tick w) (token_request cfg)) ;;
     Ret (headers_of t workspace_crn),
     after_call (token_request cfg) w).
Proof.
  unfold _get_headers, bind. rewrite get_iam_token_run.
  destruct (token_of _) as [t | e]; simpl; [| reflexivity].
  unfold headers_of.
  destruct (negb (token_truthy t)); [reflexivity |].
  destruct workspace_crn as [c |]; [| reflexivity].
  destruct (fstring_truthy c); reflexivity.
Qed.

Lemma _fetch_vms_from_workspace_run
  (workspace_id : pyval) (workspace_crn : fstring) (workspace_url : pyval) (w : world) :
  _fetch_vms_from_workspace cfg up workspace_id workspace_crn workspace_url w
  = match token_of (respond up (tick w) (token_request cfg)) with
    | Raise e => (Raise e, after_call (token_request cfg) w)
    | Ret t =>
        match headers_of t (Some workspace_crn) with
        | None => (Ret (PNone, Some "Failed to get headers"),
                   after_call (token_request cfg) w)
        | Some h =>
            let r := GET (pvm_instances_url workspace_url workspace_id) h 240 in
            (Ret (listing_of (respond up (S (tick w)) r)),
             after_call r (after_call (token_request cfg) w))
        end
    end.
Proof.
  unfold _fetch_vms_from_workspace, bind. rewrite _get_headers_run.
  destruct (token_of _) as [t | e]; simpl; [| reflexivity].
  destruct (headers_of t (Some workspace_crn)) as [h |]; [| reflexivity].
  unfold try_except, requests_get, bind, http, after_call; simpl.
  destruct (respond up (S (tick w)) _) as [msg | status b]; simpl; [reflexivity |].
  destruct (status =? 200); [| reflexivity].
  destruct b; reflexivity.
Qed.

Lemma live_fetch_run (w : world) :
  (bind (_get_headers cfg up None)
     (fun hdrs =>
      match hdrs with
      | None => ret []
      | Some h =>
          try_except
            (bind (requests_get up (workspaces_url cfg) h 120) (fun data =>
             bind (lift (response_json data)) (fun response =>
             bind (lift (py_get response "workspaces" (PList []))) (fun listed =>
             bind (lift (py_iter listed)) (fun items =>
             bind (for_each items
                     (fun acc workspace =>
                        bind (lift (workspace_detail_of cfg workspace))
                          (fun d => ret (acc ++ [d])%list))
                     []) (fun workspace_list =>
             bind get_self (fun c1 =>
             bind (put_self (set_workspaces (Some workspace_list) c1)) (fun _ =>
             bind (time_time up) (fun now =>
             bind get_self (fun c2 =>
             bind (put_self (set_workspaces_time (Some now) c2)) (fun _ =>
             ret workspace_list)))))))))))
            is_Exception
            (fun e =>
               bind get_self (fun c' =>
               match _workspaces c' with
               | Some ws => ret ws
               | None => ret []
               end))
      end)) w
  = refresh cfg up w.
Proof.
  unfold refresh. unfold bind at 1. rewrite _get_headers_run.
  destruct (token_of _) as [t | e]; cbn [rbind]; [| reflexivity].
  destruct (headers_of t None) as [h |]; [| reflexivity].
  cbv zeta.
  unfold try_except, requests_get. unfold bind at 1. unfold bind at 1.
  unfold http at 1. cbn [tick after_call self sent].
  destruct (respond up (S (tick w)) (GET (workspaces_url cfg) h 120)) as [msg | status b].
  - cbn. destruct (_workspaces (self w)); reflexivity.
  - cbn [deliver directory_of]. unfold ret at 1.
    unfold bind at 1. unfold lift at 1.
    destruct (response_json (status, b)) as [response | e]; cbn [rbind].
    2:{ cbn. destruct (_workspaces (self w)); reflexivity. }
    unfold bind at 1. unfold lift at 1.
    destruct (py_get response "workspaces" (PList [])) as [listed | e]; cbn [rbind].
    2:{ cbn. destruct (_workspaces (self w)); reflexivity. }
    unfold bind at 1. unfold lift at 1.
    destruct (py_iter listed) as [items | e]; cbn [rbind].
    2:{ cbn. destruct (_workspaces (self w)); reflexivity. }
    unfold bind at 1. rewrite for_each_collect.
    destruct (collect (workspace_detail_of cfg) items []) as [l | e].
    2:{ cbn. destruct (_workspaces (self w)); reflexivity. }
    reflexivity.
Qed.

Lemma get_all_workspaces_run (w : world) :
  get_all_workspaces cfg up w
  = match _workspaces (self w), _workspaces_time (self w) with
    | Some ws, Some t =>
        if t =? 0 then (Ret ws, w)
        else if clock up (tick w) - t <=? WORKSPACE_CACHE_TTL
             then (Ret ws, after_clock w)
             else refresh cfg up (after_clock w)
    | Some ws, None => (Ret ws, w)
    | None, _ => refresh cfg up w
    end.
Proof.
  unfold get_all_workspaces. unfold bind at 1. unfold get_self at 1.
  destruct (_workspaces (self w)) as [ws |] eqn:Ews.
  - destruct (_workspaces_time (self w)) as [t |] eqn:Et.
    + cbn [time_truthy]. destruct (t =? 0) eqn:E0; cbn [negb].
      * reflexivity.
      * unfold bind at 1. unfold bind at 1. unfold time_time at 1.
        fold (after_clock w).
        destruct (clock up (tick w) - t <=? WORKSPACE_CACHE_TTL).
        -- reflexivity.
        -- unfold ret at 1. apply (live_fetch_run (after_clock w)).
    + reflexivity.
  - unfold bind at 1.
    unfold ret at 1.
    destruct (time_truthy (_workspaces_time (self w))); apply live_fetch_run.
Qed.

End Runs.

(* ================================================================== *)
(** ** Failures of the token exchange *)

(** A granted token is what [get_iam_token] returns. *)
Lemma token_granted_of (o : outcome) :
  token_granted o = true -> exists v, token_of o = Ret (TokVal v) /\ truthy v = true.
Proof.
  destruct o as [msg | status [[| | | | | d] | msg]]; try discriminate.
  unfold token_granted, token_of, raise_for_status. cbn [fst].
  destruct ((400 <=? status) && (status <? 600)); [discriminate |]. cbn [negb andb].
  cbn [py_subscript].
  destruct (dict_lookup "access_token" d) as [v |]; [| discriminate].
  intros T. exists v. split; [reflexivity | exact T].
Qed.

(** Whenever the token exchange fails, [get_iam_token] hands back a pair. *)
Lemma failed_exchange_gives_pair (o : outcome) :
  token_exchange_fails o = true -> exists e, token_of o = Ret (TokPair "" e).
Proof.
  destruct o as [msg | status b]; simpl.
  - intros _. eexists. reflexivity.
  - unfold raise_for_status. simpl.
    destruct ((400 <=? status) && (status <? 600)); simpl.
    + intros _. eexists. reflexivity.
    + destruct b as [j | msg].
      * destruct j; try discriminate. simpl.
        destruct (dict_lookup "access_token" d); [discriminate |].
        intros _. eexists. reflexivity.
      * intros _. eexists. reflexivity.
Qed.

(** So [_get_headers] builds headers after every failed exchange. *)
Lemma failed_exchange_gives_headers
  (cfg : config) (up : upstream) (workspace_crn : option fstring) (w : world) :
  token_exchange_fails (respond up (tick w) (token_request cfg)) = true ->
  exists h, fst (_get_headers cfg up workspace_crn w) = Ret (Some h).
Proof.
  intros H. rewrite _get_headers_run. simpl.
  destruct (failed_exchange_gives_pair _ H) as [e ->]. simpl.
  unfold headers_of. simpl.
  destruct workspace_crn as [c |]; [destruct (fstring_truthy c) |]; eexists; reflexivity.
Qed.

(** C2, at the failing inputs.  The token exchange fails (the transport
    raises; or the body has no [access_token]), and yet [_get_headers]
    returns headers, built around the pair [get_iam_token] handed back, and
    [get_all_images_in_workspace] goes on to send its GET request instead of
    answering [{"error": "Failed to get headers"}]. *)
Theorem token_failure_does_not_stop_the_request :
  token_exchange_fails (respond up_token_down 0 (token_request cfg_static)) = true /\
  fst (_get_headers cfg_static up_token_down None init_world)
  = Ret (Some [("Authorization",
                 [FLit "Bearer ";
                  FTok (TokPair "" (mkExn RequestException "Name or service not known"))]);
               ("Accept", [FLit "application/json"]);
               ("Content-Type", [FLit "application/json"])]) /\
  fst (get_all_images_in_workspace cfg_static up_token_down init_world)
  = Ret (PDict [("total_images", PInt 0); ("images", PList [])]) /\
  map url_tail (sent (snd (get_all_images_in_workspace cfg_static up_token_down init_world)))
  = [""; "/images"] /\
  token_exchange_fails (respond up_token_missing 0 (token_request cfg_static)) = true /\
  fst (_get_headers cfg_static up_token_missing None init_world)
  = Ret (Some [("Authorization",
                 [FLit "Bearer "; FTok (TokPair "" (key_error "access_token"))]);
               ("Accept", [FLit "application/json"]);
               ("Content-Type", [FLit "application/json"])]) /\
  map url_tail (sent (snd (get_all_images_in_workspace cfg_static up_token_missing init_world)))
  = [""; "/images"].
Proof. vm_compute. repeat split; reflexivity. Qed.

(* ================================================================== *)
(** ** The workspace directory cache *)

Section WorkspaceCache.

Variable cfg : config.
Variable up : upstream.

(** A populated cache whose time stamp is within the TTL (or falsy) is
    returned as it is; the clock is read when the time stamp is truthy and
    nothing else happens. *)
Lemma get_all_workspaces_hit (w : world) (ws : list pyval) (t : Z) :
  _workspaces (self w) = Some ws ->
  _workspaces_time (self w) = Some t ->
  clock up (tick w) - t <= WORKSPACE_CACHE_TTL ->
  get_all_workspaces cfg up w
  = (Ret ws, if t =? 0 then w else after_clock w).
Proof.
  intros Hws Ht Hage.
  unfold get_all_workspaces, bind, get_self. simpl.
  rewrite Hws, Ht. unfold time_truthy.
  destruct (t =? 0) eqn:E; simpl.
  - reflexivity.
  - unfold time_time, ret. simpl.
    destruct (clock up (tick w) - t <=? WORKSPACE_CACHE_TTL) eqn:L.
    + reflexivity.
    + apply Z.leb_gt in L. lia.
Qed.

(** What the refresh of an expired directory does once headers are there:
    the answer is turned into a list, which is stored with a new time stamp
    and returned; or the request (or the reading of its body) raises, and
    the expired list is returned, the client left as it was. *)
Lemma expired_directory_refresh (w : world) (ws : list pyval) (t : Z)
  (tok : token) (h : headers) :
  _workspaces (self w) = Some ws ->
  _workspaces_time (self w) = Some t -> t <> 0 ->
  clock up (tick w) - t > WORKSPACE_CACHE_TTL ->
  token_of (respond up (S (tick w)) (token_request cfg)) = Ret tok ->
  headers_of tok None = Some h ->
  match directory_of cfg (respond up (S (S (tick w))) (GET (workspaces_url cfg) h 120)) with
  | Ret l =>
      fst (get_all_workspaces cfg up w) = Ret l
      /\ self (snd (get_all_workspaces cfg up w))
         = store_directory l (clock up (S (S (S (tick w))))) (self w)
  | Raise _ =>
      fst (get_all_workspaces cfg up w) = Ret ws
      /\ self (snd (get_all_workspaces cfg up w)) = self w
  end.
Proof.
  intros Hws Ht Hnz Hage Htok Hh.
  rewrite get_all_workspaces_run, Hws, Ht.
  destruct (t =? 0) eqn:E0; [apply Z.eqb_eq in E0; contradiction |].
  destruct (clock up (tick w) - t <=? WORKSPACE_CACHE_TTL) eqn:L;
    [apply Z.leb_le in L; lia |].
  unfold refresh. cbn [after_clock tick self].
  rewrite Htok, Hh. cbv zeta.
  destruct (directory_of cfg _) as [l | e].
  - split; reflexivity.
  - rewrite Hws. split; reflexivity.
Qed.

End WorkspaceCache.

Lemma refresh_replaces_after_answer (cfg : config) (up : upstream) (w : world) :
  self (snd (refresh cfg up w)) = self w
  \/ exists n h l now,
       directory_of cfg (respond up n (GET (workspaces_url cfg) h 120)) = Ret l
       /\ In (GET (workspaces_url cfg) h 120) (sent (snd (refresh cfg up w)))
       /\ fst (refresh cfg up w) = Ret l
       /\ self (snd (refresh cfg up w)) = store_directory l now (self w).
Proof.
  unfold refresh.
  destruct (token_of _) as [t | e]; [| left; reflexivity].
  destruct (headers_of t None) as [h |]; [| left; reflexivity].
  cbv zeta.
  destruct (directory_of cfg _) as [l | e] eqn:D; [| left; reflexivity].
  right. exists (S (tick w)), h, l, (clock up (S (S (tick w)))).
  split; [exact D |]. split; [| split; reflexivity].
  cbn [snd with_self after_clock after_call sent].
  apply in_or_app. right. left. reflexivity.
Qed.

Lemma refresh_frame (cfg : config) (up : upstream) (m : list (pyval * pyval)) (w : world) :
  refresh cfg up (with_routing m w)
  = (fst (refresh cfg up w), with_routing m (snd (refresh cfg up w))).
Proof.
  unfold refresh. cbn [with_routing with_self tick].
  destruct (token_of _) as [t | e]; [| reflexivity].
  destruct (headers_of t None) as [h |]; [| reflexivity].
  cbv zeta.
  destruct (directory_of cfg _) as [l | e]; reflexivity.
Qed.

Lemma get_all_workspaces_frame
  (cfg : config) (up : upstream) (m : list (pyval * pyval)) (w : world) :
  get_all_workspaces cfg up (with_routing m w)
  = (fst (get_all_workspaces cfg up w), with_routing m (snd (get_all_workspaces cfg up w))).
Proof.
  rewrite !get_all_workspaces_run.
  cbn [with_routing with_self self set_vm_workspace _workspaces _workspaces_time tick].
  destruct (_workspaces (self w)) as [ws |].
  - destruct (_workspaces_time (self w)) as [t |]; [| reflexivity].
    destruct (t =? 0); [reflexivity |].
    destruct (clock up (tick w) - t <=? WORKSPACE_CACHE_TTL); [reflexivity |].
    apply (refresh_frame cfg up m (after_clock w)).
  - apply refresh_frame.
Qed.

Lemma workspace_detail_of_dict (cfg : config) (workspace d : pyval) :
  workspace_detail_of cfg workspace = Ret d -> is_dict d = true.
Proof.
  unfold workspace_detail_of. intros H.
  destruct (py_get workspace "id" PNone); cbn [rbind] in H; [| discriminate].
  destruct (py_get workspace "name" PNone); cbn [rbind] in H; [| discriminate].
  destruct (py_get workspace "location" (PDict [])) as [loc |]; cbn [rbind] in H;
    [| discriminate].
  destruct (py_get loc "region" PNone); cbn [rbind] in H; [| discriminate].
  destruct (py_get loc "url" (PStr (base_url cfg))); cbn [rbind] in H; [| discriminate].
  inversion H. reflexivity.
Qed.

Lemma collect_dicts (cfg : config) (items : list pyval) :
  forall acc l,
  forallb is_dict acc = true ->
  collect (workspace_detail_of cfg) items acc = Ret l ->
  forallb is_dict l = true.
Proof.
  induction items as [| x items IH]; intros acc l Hacc H; cbn [collect] in H.
  - inversion H; subst. exact Hacc.
  - destruct (workspace_detail_of cfg x) as [d |] eqn:E; cbn [rbind] in H; [| discriminate].
    apply (IH (acc ++ [d])%list l); [| exact H].
    rewrite forallb_app, Hacc. cbn [forallb].
    rewrite (workspace_detail_of_dict cfg x d E). reflexivity.
Qed.

Lemma directory_of_dicts (cfg : config) (o : outcome) (l : list pyval) :
  directory_of cfg o = Ret l -> forallb is_dict l = true.
Proof.
  destruct o as [msg | status b]; cbn [directory_of]; [discriminate |].
  intros H.
  destruct (response_json (status, b)) as [response |]; cbn [rbind] in H; [| discriminate].
  destruct (py_get response "workspaces" (PList [])) as [listed |]; cbn [rbind] in H;
    [| discriminate].
  destruct (py_iter listed) as [items |]; cbn [rbind] in H; [| discriminate].
  apply (collect_dicts cfg items [] l); [reflexivity | exact H].
Qed.

Lemma refresh_dicts (cfg : config) (up : upstream) (w w1 : world) (wss : list pyval) :
  directory_ok (self w) ->
  refresh cfg up w = (Ret wss, w1) ->
  forallb is_dict wss = true /\ directory_ok (self w1).
Proof.
  intros Hok. unfold refresh.
  destruct (token_of _) as [t | e]; [| discriminate].
  destruct (headers_of t None) as [h |].
  - cbv zeta. destruct (directory_of cfg _) as [l | e] eqn:D; intros H; inversion H; subst.
    + pose proof (directory_of_dicts cfg _ _ D) as Hl.
      split; [exact Hl |]. intros ws Hws. cbn in Hws. inversion Hws; subst. exact Hl.
    + split; [| exact Hok].
      destruct (_workspaces (self w)) as [ws |] eqn:E; [apply Hok; exact E | reflexivity].
  - intros H; inversion H; subst. split; [reflexivity | exact Hok].
Qed.

(** The directory a client holds and hands out is a list of workspace
    objects. *)
Lemma get_all_workspaces_dicts (cfg : config) (up : upstream) (w w1 : world)
  (wss : list pyval) :
  directory_ok (self w) ->
  get_all_workspaces cfg up w = (Ret wss, w1) ->
  forallb is_dict wss = true /\ directory_ok (self w1).
Proof.
  intros Hok. rewrite get_all_workspaces_run.
  destruct (_workspaces (self w)) as [ws |] eqn:Ews.
  - destruct (_workspaces_time (self w)) as [t |].
    + destruct (t =? 0).
      * intros H; inversion H; subst. split; [apply Hok; exact Ews | exact Hok].
      * destruct (clock up (tick w) - t <=? WORKSPACE_CACHE_TTL).
        -- intros H; inversion H; subst. split; [apply Hok; exact Ews | exact Hok].
        -- apply (refresh_dicts cfg up (after_clock w)). exact Hok.
    + intros H; inversion H; subst. split; [apply Hok; exact Ews | exact Hok].
  - apply refresh_dicts. exact Hok.
Qed.

(** C8. While the workspace directory cache is within its TTL, two
    consecutive calls of [get_all_workspaces] return the same cached list,
    send no request and leave the attributes of the client as they were. *)
Theorem get_all_workspaces_idempotent_within_ttl
  (cfg : config) (up : upstream) (w : world) (ws : list pyval) (t : Z) :
  _workspaces (self w) = Some ws ->
  _workspaces_time (self w) = Some t ->
  clock up (tick w) - t <= WORKSPACE_CACHE_TTL ->
  clock up (S (tick w)) - t <= WORKSPACE_CACHE_TTL ->
  let (r1, w1) := get_all_workspaces cfg up w in
  let (r2, w2) := get_all_workspaces cfg up w1 in
  r1 = Ret ws /\ r2 = Ret ws /\
  sent w1 = sent w /\ sent w2 = sent w /\
  self w1 = self w /\ self w2 = self w.
Proof.
  intros Hws Ht H1 H2.
  rewrite (get_all_workspaces_hit cfg up w ws t Hws Ht H1).
  destruct (t =? 0) eqn:E.
  - rewrite (get_all_workspaces_hit cfg up w ws t Hws Ht H1). rewrite E.
    repeat split; reflexivity.
  - rewrite (get_all_workspaces_hit cfg up (after_clock w) ws t Hws Ht H2). rewrite E.
    repeat split; reflexivity.
Qed.

Lemma get_all_workspaces_idempotent_within_ttl_witness :
  let w := mkWorld (mkClient (Some [workspace_dal10]) (Some 1000) [] None) 0 [] in
  let up := scripted 1500 (Transport "unreachable") [] (Transport "unreachable") in
  let (r1, w1) := get_all_workspaces cfg_account up w in
  let (r2, w2) := get_all_workspaces cfg_account up w1 in
  r1 = Ret [workspace_dal10] /\ r2 = Ret [workspace_dal10] /\
  sent w1 = sent w /\ sent w2 = sent w /\
  self w1 = self w /\ self w2 = self w.
Proof.
  apply (get_all_workspaces_idempotent_within_ttl cfg_account
           (scripted 1500 (Transport "unreachable") [] (Transport "unreachable"))
           (mkWorld (mkClient (Some [workspace_dal10]) (Some 1000) [] None) 0 [])
           [workspace_dal10] 1000).
  - reflexivity.
  - reflexivity.
  - vm_compute. discriminate.
  - vm_compute. discriminate.
Defined.

(** C4, at the failing inputs.  The directory cache holds one workspace and
    is expired.  (1) The refresh is answered 503 with a JSON document: the
    client returns the empty list and stores it in place of the cached one.
    (2) The token is empty, no headers are built: the client returns the
    empty list although the cached list is still there. *)
Theorem failed_refresh_returns_empty_list :
  _workspaces (self world_expired) = Some [workspace_dal10] /\
  fst (get_all_workspaces cfg_account up_directory_503 world_expired) = Ret [] /\
  _workspaces (self (snd (get_all_workspaces cfg_account up_directory_503 world_expired)))
  = Some [] /\
  fst (get_all_workspaces cfg_account up_empty_token world_expired) = Ret [] /\
  _workspaces (self (snd (get_all_workspaces cfg_account up_empty_token world_expired)))
  = Some [workspace_dal10].
Proof. vm_compute. repeat split; reflexivity. Qed.

(* ================================================================== *)
(** ** The fan-out over workspaces whose answers do not change *)

Lemma with_routing_same (w : world) : with_routing (_vm_workspace (self w)) w = w.
Proof. destruct w as [[a b c d] t s]. reflexivity. Qed.

Lemma py_get_dict (v : pyval) (k : string) (dflt : pyval) :
  is_dict v = true -> py_get v k dflt = Ret (field v k dflt).
Proof. destruct v; try discriminate. reflexivity. Qed.

Lemma answering_cons (answers : pyval -> outcome) (ws : pyval) (wss : list pyval) :
  answering answers (ws :: wss) = (answering answers [ws] ++ answering answers wss)%list.
Proof. unfold answering. cbn [flat_map]. rewrite app_nil_r. reflexivity. Qed.



Lemma answering_all_failed (answers : pyval -> outcome) (wss : list pyval) :
  (forall ws, In ws wss -> truthy (field ws "id" PNone) = true ->
              classify_listing (answers ws) = Some Failed) ->
  answering answers wss = [].
Proof.
  induction wss as [| ws wss IH]; intros H; [reflexivity |].
  rewrite answering_cons, IH by (intros x Hx; apply H; right; exact Hx).
  unfold answering. cbn [flat_map].
  destruct (truthy (field ws "id" PNone)) eqn:T; [| reflexivity].
  rewrite (H ws (or_introl eq_refl) T). reflexivity.
Qed.



Section Fanout.

Variable cfg : config.
Variable up : upstream.

Lemma process_pvm_wf (ws pvm : pyval) (loc : locals) (w : world) :
  wf_pvm pvm = true ->
  process_pvm (field ws "id" PNone) (field ws "region" PNone)
    (field ws "url" (PStr (base_url cfg)))
    (PDict [("name", field ws "name" PNone); ("region", field ws "region" PNone)])
    loc pvm w
  = (Ret (fst (add_vm cfg ws (loc, _vm_workspace (self w)) pvm)),
     with_routing (snd (add_vm cfg ws (loc, _vm_workspace (self w)) pvm)) w).
Proof.
  intros Hwf. destruct pvm as [| | | | | d]; try discriminate.
  unfold wf_pvm in Hwf.
  apply andb_prop in Hwf. destruct Hwf as [Hwf Hid].
  apply andb_prop in Hwf. destruct Hwf as [Hst Hh].
  unfold process_pvm, add_vm, bind, lift, _build_vm_detail, rbind, vm_record,
    health_key, status_key, field, unknown_health. simpl.
  destruct (dict_lookup "status" d) as [[| | | s | |] |] eqn:Es; try discriminate.
  destruct (dict_lookup "pvmInstanceID" d) as [v |] eqn:Ei.
  - destruct (truthy v) eqn:Tv.
    + rewrite orb_false_r in Hid. unfold get_self, route_assign. rewrite Hid. simpl.
      destruct (dict_lookup "health" d) as [[| | | | | h] |] eqn:Eh; try discriminate; simpl.
      * destruct (dict_lookup "status" h) as [[| | | hs | |] |] eqn:Ehs; try discriminate; simpl;
          reflexivity.
      * reflexivity.
    + simpl.
      destruct (dict_lookup "health" d) as [[| | | | | h] |] eqn:Eh; try discriminate; simpl.
      * destruct (dict_lookup "status" h) as [[| | | hs | |] |] eqn:Ehs; try discriminate; simpl;
          rewrite with_routing_same; reflexivity.
      * rewrite with_routing_same; reflexivity.
  - simpl.
    destruct (dict_lookup "health" d) as [[| | | | | h] |] eqn:Eh; try discriminate; simpl.
    + destruct (dict_lookup "status" h) as [[| | | hs | |] |] eqn:Ehs; try discriminate; simpl;
        rewrite with_routing_same; reflexivity.
    + rewrite with_routing_same; reflexivity.
Qed.

Lemma for_each_process_pvm (ws : pyval) (pvms : list pyval) :
  forall (loc : locals) (w : world),
  forallb wf_pvm pvms = true ->
  for_each pvms
    (process_pvm (field ws "id" PNone) (field ws "region" PNone)
       (field ws "url" (PStr (base_url cfg)))
       (PDict [("name", field ws "name" PNone); ("region", field ws "region" PNone)]))
    loc w
  = (Ret (fst (fold_left (add_vm cfg ws) pvms (loc, _vm_workspace (self w)))),
     with_routing (snd (fold_left (add_vm cfg ws) pvms (loc, _vm_workspace (self w)))) w).
Proof.
  induction pvms as [| pvm pvms IH]; intros loc w Hwf.
  - simpl. unfold ret. rewrite with_routing_same. reflexivity.
  - simpl in Hwf. apply andb_prop in Hwf. destruct Hwf as [Hp Hwf].
    cbn [for_each fold_left]. unfold bind at 1.
    rewrite (process_pvm_wf ws pvm loc w Hp).
    rewrite (IH _ _ Hwf). cbn [with_routing with_self set_vm_workspace self _vm_workspace].
    rewrite <- surjective_pairing. reflexivity.
Qed.

Variable answers : pyval -> outcome.

Hypothesis Htok : forall n, token_granted (respond up n (token_request cfg)) = true.

Lemma process_workspace_stable (ws : pyval) (loc : locals) (w : world) :
  is_dict ws = true ->
  stable_listing cfg up answers ws ->
  (truthy (field ws "id" PNone) = true -> classify_listing (answers ws) <> None) ->
  exists w',
    process_workspace cfg up loc ws w
    = (Ret (fst (fold_left (add_workspace cfg) (answering answers [ws])
                   (loc, _vm_workspace (self w)))), w')
    /\ self w'
       = set_vm_workspace
           (snd (fold_left (add_workspace cfg) (answering answers [ws])
                   (loc, _vm_workspace (self w))))
           (self w).
Proof.
  intros Hd Hst Hcl.
  assert (Hsame : forall w0 : world,
             self w0 = set_vm_workspace (_vm_workspace (self w0)) (self w0)).
  { intros [[a b c d] t s]. reflexivity. }
  unfold process_workspace, answering. cbn [flat_map].
  unfold bind at 1. unfold lift at 1. rewrite (py_get_dict ws "id" PNone Hd).
  unfold bind at 1. unfold lift at 1. rewrite (py_get_dict ws "name" PNone Hd).
  unfold bind at 1. unfold lift at 1. rewrite (py_get_dict ws "region" PNone Hd).
  unfold bind at 1. unfold lift at 1. rewrite (py_get_dict ws "url" _ Hd).
  destruct (truthy (field ws "id" PNone)) eqn:Tid; cbn [negb].
  2:{ exists w. split; [reflexivity | exact (Hsame w)]. }
  specialize (Hcl eq_refl).
  unfold bind at 1. rewrite _fetch_vms_from_workspace_run.
  destruct (token_granted_of _ (Htok (tick w))) as [v [-> Tv]].
  unfold headers_of. cbn [token_truthy]. rewrite Tv.
  cbn [negb fstring_truthy workspace_crn_of existsb fpart_nonempty nonempty orb].
  cbv zeta. rewrite Hst.
  destruct (answers ws) as [msg | status b] eqn:Ea; cbn [classify_listing] in Hcl |- *.
  - cbn [listing_of fst snd error_truthy].
    destruct (nonempty msg) eqn:Em; [| congruence].
    eexists. split; [reflexivity | exact (Hsame w)].
  - cbn [listing_of].
    destruct (status =? 200) eqn:E200.
    + destruct b as [j | msg].
      * cbn [fst snd error_truthy].
        destruct j as [| | | | | d]; try congruence.
        unfold bind at 1. unfold lift at 1. cbn [py_contains].
        destruct (dict_lookup "pvmInstances" d) as [pv |] eqn:Ep; cbn [negb].
        -- destruct pv as [| | | | pvms |]; try congruence.
           destruct (forallb wf_pvm pvms) eqn:Ewf; [| congruence].
           unfold bind at 1. unfold lift at 1. cbn [py_subscript]. rewrite Ep.
           unfold bind at 1. unfold lift at 1. cbn [py_iter].
           rewrite (for_each_process_pvm ws pvms _ _ Ewf).
           cbn [app fold_left add_workspace fst snd].
           eexists. split; [reflexivity | reflexivity].
        -- eexists. split; [reflexivity | exact (Hsame w)].
      * cbn [fst snd error_truthy].
        destruct (nonempty msg) eqn:Em; [| congruence].
        eexists. split; [reflexivity | exact (Hsame w)].
    + cbn [fst snd error_truthy]. 
      eexists. split; [reflexivity | exact (Hsame w)].
Qed.

Lemma for_each_process_workspace (wss : list pyval) :
  forall (loc : locals) (w : world),
  forallb is_dict wss = true ->
  (forall ws, In ws wss -> stable_listing cfg up answers ws) ->
  (forall ws, In ws wss -> truthy (field ws "id" PNone) = true ->
              classify_listing (answers ws) <> None) ->
  exists w',
    for_each wss (process_workspace cfg up) loc w
    = (Ret (fst (fold_left (add_workspace cfg) (answering answers wss)
                   (loc, _vm_workspace (self w)))), w')
    /\ self w'
       = set_vm_workspace
           (snd (fold_left (add_workspace cfg) (answering answers wss)
                   (loc, _vm_workspace (self w))))
           (self w).
Proof.
  induction wss as [| ws wss IH]; intros loc w Hd Hst Hcl.
  - exists w. split; [reflexivity |]. destruct w as [[a b c d] t s]. reflexivity.
  - cbn [forallb] in Hd. apply andb_prop in Hd. destruct Hd as [Hd1 Hd].
    destruct (process_workspace_stable ws loc w Hd1
                (Hst ws (or_introl eq_refl)) (Hcl ws (or_introl eq_refl)))
      as [w1 [E1 S1]].
    destruct (IH (fst (fold_left (add_workspace cfg) (answering answers [ws])
                         (loc, _vm_workspace (self w)))) w1 Hd
                (fun x Hx => Hst x (or_intror Hx))
                (fun x Hx => Hcl x (or_intror Hx)))
      as [w2 [E2 S2]].
    exists w2.
    rewrite answering_cons, fold_left_app.
    assert (R1 : _vm_workspace (self w1)
                 = snd (fold_left (add_workspace cfg) (answering answers [ws])
                          (loc, _vm_workspace (self w)))).
    { rewrite S1. reflexivity. }
    rewrite R1 in E2, S2. rewrite <- surjective_pairing in E2, S2.
    split.
    + cbn [for_each]. unfold bind at 1. rewrite E1. exact E2.
    + rewrite S2, S1. reflexivity.
Qed.

(** The fan-out over a non-empty directory whose workspaces answer the same
    way throughout the run. *)
Lemma fan_out_run (w w1 : world) (wss : list pyval) :
  get_all_workspaces cfg up w = (Ret wss, w1) ->
  wss <> [] ->
  forallb is_dict wss = true ->
  (forall ws, In ws wss -> stable_listing cfg up answers ws) ->
  (forall ws, In ws wss -> truthy (field ws "id" PNone) = true ->
              classify_listing (answers ws) <> None) ->
  exists w',
    fetch_vms_from_all_workspaces cfg up w
    = (Ret (inventory_result wss (fst (merge cfg (answering answers wss)))), w')
    /\ _vm_workspace (self w') = snd (merge cfg (answering answers wss))
    /\ _vm_workspace_time (self w') = Some (clock up (pred (tick w')))
    /\ _workspaces (self w') = _workspaces (self w1)
    /\ _workspaces_time (self w') = _workspaces_time (self w1).
Proof.
  intros Hget Hne Hd Hst Hcl.
  unfold fetch_vms_from_all_workspaces. unfold bind at 1. rewrite Hget.
  destruct wss as [| ws0 wss0]; [congruence |].
  set (wss := ws0 :: wss0) in *.
  unfold bind at 1. unfold get_self at 1.
  unfold bind at 1. unfold put_self at 1.
  destruct (for_each_process_workspace wss
              (mkLocals [] health_summary0 status_summary0)
              (mkWorld (set_vm_workspace [] (self w1)) (tick w1) (sent w1))
              Hd Hst Hcl) as [w2 [E2 S2]].
  unfold bind at 1. rewrite E2.
  cbn [self set_vm_workspace _vm_workspace] in S2.
  eexists. split; [| split; [| split; [| split]]].
  - unfold bind, time_time, get_self, put_self, ret. cbn [self tick sent]. reflexivity.
  - cbn [self set_vm_workspace_time _vm_workspace]. rewrite S2. reflexivity.
  - reflexivity.
  - cbn [self set_vm_workspace_time _workspaces]. rewrite S2. reflexivity.
  - cbn [self set_vm_workspace_time _workspaces_time]. rewrite S2. reflexivity.
Qed.

End Fanout.






(** The record of a raw VM without [osType], [sysType], [health] and [crn]. *)
Example vm_record_of_raw_vm4 :
  _build_vm_detail raw_vm4
    (PDict [("name", PStr "DAL13_Workspace"); ("region", PStr "dal13")])
  = Ret (vm_record workspace_dal13 raw_vm4)
  /\ vm_record workspace_dal13 raw_vm4
     = PDict [("vmName", PStr "batch"); ("vmID", PStr "vm-4");
              ("operatingSystem", PNone); ("systemType", PNone);
              ("vmStatus", PStr "BUILD");
              ("health", PDict [("status", PStr "UNKNOWN")]);
              ("crn", PStr "");
              ("workspaceName", PStr "DAL13_Workspace");
              ("workspaceRegion", PStr "dal13")].
Proof. split; reflexivity. Qed.

(** The run of the witness, evaluated: three VMs from the first and the third
    workspace, none from the second, which timed out; the VM without health
    and with status [BUILD] is in [vms] and in no counter; the routing entry
    the client held before is gone. *)
Example fan_out_three_workspaces :
  fst (fetch_vms_from_all_workspaces cfg_account up_three world_three)
  = Ret inventory_three
  /\ map fst (_vm_workspace
                (self (snd (fetch_vms_from_all_workspaces cfg_account up_three world_three))))
     = [PStr "vm-1"; PStr "vm-3"; PStr "vm-4"].
Proof. vm_compute. split; reflexivity. Qed.

(* ================================================================== *)
(** ** The health counters *)

Lemma dict_set_keys {V : Type} (k : string) (v : V) (d : list (string * V)) :
  dict_lookup k d <> None -> map fst (dict_set k v d) = map fst d.
Proof.
  induction d as [| [k' v'] d IH]; cbn [dict_lookup dict_set map fst]; intros H.
  - congruence.
  - destruct (String.eqb k k'); cbn [map fst]; [reflexivity |].
    rewrite (IH H). reflexivity.
Qed.

Lemma count_in_keys (k : string) (d : list (string * Z)) :
  map fst (count_in k d) = map fst d.
Proof.
  unfold count_in. destruct (dict_lookup k d) as [n |] eqn:E; [| reflexivity].
  apply dict_set_keys. congruence.
Qed.

Lemma dict_set_total (k : string) (n : Z) (d : list (string * Z)) :
  dict_lookup k d = Some n ->
  counter_total (dict_set k (n + 1) d) = counter_total d + 1.
Proof.
  induction d as [| [k' v'] d IH]; cbn [dict_lookup dict_set]; intros H.
  - discriminate.
  - destruct (String.eqb k k').
    + inversion H; subst. cbn [counter_total fold_right snd]. lia.
    + cbn [counter_total fold_right snd]. fold (counter_total (dict_set k (n + 1) d)).
      fold (counter_total d). rewrite (IH H). lia.
Qed.

(** A status outside the key set leaves the counters as they are; a status
    of the key set adds one. *)
Lemma count_in_total (k : string) (d : list (string * Z)) :
  match dict_lookup k d with
  | None => count_in k d = d
  | Some _ => counter_total (count_in k d) = counter_total d + 1
  end.
Proof.
  unfold count_in. destruct (dict_lookup k d) as [n |] eqn:E; [| reflexivity].
  apply dict_set_total. exact E.
Qed.

Lemma counters_py_total (d : list (string * Z)) :
  py_counter_total (counters_py d) = counter_total d.
Proof.
  unfold counters_py, py_counter_total, counter_total.
  induction d as [| [k v] d IH]; cbn [map fold_right fst snd]; [reflexivity |].
  rewrite IH. reflexivity.
Qed.

Lemma counters_py_keys (d : list (string * Z)) : py_keys (counters_py d) = map fst d.
Proof.
  unfold counters_py, py_keys. rewrite map_map. reflexivity.
Qed.

Section Counting.

Variable cfg : config.
Variable up : upstream.

(** Every completed turn of the inner loop records the VM and counts its
    normalised health status at most once. *)
Lemma process_pvm_Ret
  (workspace_id workspace_region workspace_url workspace_info : pyval)
  (loc loc' : locals) (pvm : pyval) (w w' : world) :
  process_pvm workspace_id workspace_region workspace_url workspace_info loc pvm w
  = (Ret loc', w') ->
  exists vm_detail key skey,
    _build_vm_detail pvm workspace_info = Ret vm_detail
    /\ normalized_health vm_detail = Ret key
    /\ loc' = mkLocals (vm_list loc ++ [vm_detail])%list
                       (count_in key (health_summary loc))
                       (count_in skey (status_summary loc)).
Proof.
  intros H. unfold process_pvm in H.
  bind_lift H vm_detail Ed.
  bind_lift H vm_id Ei.
  bind_step H u w1 Eu.
  bind_lift H h Eh.
  bind_lift H hs Ehs.
  bind_lift H health_status Ehu.
  bind_lift H vs Evs.
  bind_lift H vm_status Evu.
  apply ret_inv in H. destruct H as [<- _].
  exists vm_detail, health_status, vm_status.
  split; [exact Ed |]. split; [| reflexivity].
  unfold normalized_health. rewrite Eh. cbn [rbind]. rewrite Ehs. cbn [rbind]. exact Ehu.
Qed.

Lemma process_pvm_counted
  (workspace_id workspace_region workspace_url workspace_info : pyval)
  (loc loc' : locals) (pvm : pyval) (w w' : world) :
  counted loc ->
  process_pvm workspace_id workspace_region workspace_url workspace_info loc pvm w
  = (Ret loc', w') ->
  counted loc'.
Proof.
  intros [Hk Ht] H.
  destruct (process_pvm_Ret _ _ _ _ _ _ _ _ _ H) as (d & key & skey & _ & _ & ->).
  unfold counted. cbn [health_summary vm_list]. split.
  - rewrite count_in_keys. exact Hk.
  - rewrite length_app. cbn [List.length].
    pose proof (count_in_total key (health_summary loc)) as T.
    destruct (dict_lookup key (health_summary loc)).
    + rewrite T. lia.
    + rewrite T. lia.
Qed.

Lemma process_workspace_counted (loc loc' : locals) (ws : pyval) (w w' : world) :
  counted loc ->
  process_workspace cfg up loc ws w = (Ret loc', w') ->
  counted loc'.
Proof.
  intros Hc H. unfold process_workspace in H.
  bind_lift H workspace_id Ei.
  bind_lift H workspace_name En.
  bind_lift H workspace_region Er.
  bind_lift H workspace_url Eu.
  destruct (negb (truthy workspace_id)).
  { apply ret_inv in H. destruct H as [<- _]. exact Hc. }
  bind_step H fetched w1 Ef.
  cbv zeta in H.
  destruct (error_truthy (snd fetched)).
  { apply ret_inv in H. destruct H as [<- _]. exact Hc. }
  bind_lift H has Eh.
  destruct (negb has).
  { apply ret_inv in H. destruct H as [<- _]. exact Hc. }
  bind_lift H pvms Ep.
  bind_lift H items Ei'.
  refine (for_each_preserves counted _ _ items loc _ loc' w' Hc H).
  intros s x w0 s' w0' Hs Hb. exact (process_pvm_counted _ _ _ _ _ _ _ _ _ Hs Hb).
Qed.

(** What a fan-out returns, when it returns: the error payload of the empty
    directory, or an inventory whose locals satisfy the invariant. *)
Lemma fetch_vms_from_all_workspaces_Ret (w w' : world) (d : pyval) :
  fetch_vms_from_all_workspaces cfg up w = (Ret d, w') ->
  d = error_payload "No workspaces found"
  \/ exists wss loc, d = inventory_result wss loc /\ counted loc.
Proof.
  intros H. unfold fetch_vms_from_all_workspaces in H.
  bind_step H wss w1 Ew.
  destruct wss as [| ws0 wss0].
  { apply ret_inv in H. destruct H as [<- _]. left. reflexivity. }
  right.
  bind_step H c w2 Ec.
  bind_step H u w3 Eu.
  bind_step H loc w4 El.
  bind_step H now w5 En.
  bind_step H c' w6 Ec'.
  bind_step H u' w7 Eu'.
  apply ret_inv in H. destruct H as [<- _].
  exists (ws0 :: wss0), loc. split; [reflexivity |].
  refine (for_each_preserves counted _ _ (ws0 :: wss0) _ _ loc w4 _ El).
  - intros s x w0 s' w0' Hs Hb. exact (process_workspace_counted _ _ _ _ _ Hs Hb).
  - split; [reflexivity | cbn; lia].
Qed.

End Counting.

(** C9. Whenever the fan-out returns an inventory, the values of
    [health_summary] (over its four fixed keys) sum to at most [total_vms],
    which is the length of [vms] (1).  In each completed turn of the inner
    loop the VM record is appended to [vms]; when its normalised health
    status is none of the keys the health counters stay as they are, and
    otherwise their sum grows by one (2). *)
Theorem health_summary_counts_at_most_total_vms (cfg : config) (up : upstream) :
  (forall w d total summary,
     fst (fetch_vms_from_all_workspaces cfg up w) = Ret d ->
     py_subscript d "total_vms" = Ret (PInt total) ->
     py_subscript d "health_summary" = Ret summary ->
     py_counter_total summary <= total
     /\ py_keys summary = ["OK"; "CRITICAL"; "WARNING"; "ATTENTION"]
     /\ exists vms, py_subscript d "vms" = Ret (PList vms)
                    /\ total = Z.of_nat (List.length vms))
  /\ (forall workspace_id workspace_region workspace_url workspace_info
             loc pvm w loc',
        fst (process_pvm workspace_id workspace_region workspace_url workspace_info
               loc pvm w) = Ret loc' ->
        exists vm_detail key,
          normalized_health vm_detail = Ret key
          /\ vm_list loc' = (vm_list loc ++ [vm_detail])%list
          /\ match dict_lookup key (health_summary loc) with
             | None => health_summary loc' = health_summary loc
             | Some _ => counter_total (health_summary loc')
                         = counter_total (health_summary loc) + 1
             end).
Proof.
  split.
  - intros w d total summary H Ht Hs.
    destruct (fetch_vms_from_all_workspaces cfg up w) as [r w'] eqn:E.
    cbn [fst] in H. subst r.
    destruct (fetch_vms_from_all_workspaces_Ret cfg up w w' d E)
      as [-> | (wss & loc & -> & Hk & Hc)].
    + discriminate.
    + cbn in Ht, Hs. inversion Ht; subst total. inversion Hs; subst summary.
      rewrite counters_py_total, counters_py_keys.
      split; [exact Hc |]. split; [exact Hk |].
      exists (vm_list loc). split; reflexivity.
  - intros workspace_id workspace_region workspace_url workspace_info loc pvm w loc' H.
    destruct (process_pvm _ _ _ _ loc pvm w) as [r w'] eqn:E.
    cbn [fst] in H. subst r.
    destruct (process_pvm_Ret _ _ _ _ _ _ _ _ _ E) as (d & key & skey & _ & Hn & ->).
    exists d, key. split; [exact Hn |]. split; [reflexivity |].
    cbn [health_summary]. apply count_in_total.
Qed.

Lemma health_summary_counts_at_most_total_vms_witness :
  py_counter_total
    (PDict [("OK", PInt 1); ("CRITICAL", PInt 1); ("WARNING", PInt 0);
            ("ATTENTION", PInt 0)]) <= 3
  /\ py_keys
       (PDict [("OK", PInt 1); ("CRITICAL", PInt 1); ("WARNING", PInt 0);
               ("ATTENTION", PInt 0)])
     = ["OK"; "CRITICAL"; "WARNING"; "ATTENTION"]
  /\ exists vms,
       py_subscript inventory_three "vms" = Ret (PList vms)
       /\ 3 = Z.of_nat (List.length vms).
Proof.
  apply (proj1 (health_summary_counts_at_most_total_vms cfg_account up_three)
           world_three inventory_three 3
           (PDict [("OK", PInt 1); ("CRITICAL", PInt 1); ("WARNING", PInt 0);
                   ("ATTENTION", PInt 0)])).
  - vm_compute. reflexivity.
  - reflexivity.
  - reflexivity.
Defined.

(* ================================================================== *)
(** ** The VM routing cache *)

Lemma consult_routing_world (cfg : config) (vm_id : string) (w : world) :
  snd (consult_routing cfg vm_id w) = w.
Proof.
  unfold consult_routing, bind, get_self, lift. cbn [fst snd].
  destruct (route_lookup (PStr vm_id) (_vm_workspace (self w))) as [ws |].
  - destruct (py_subscript ws "workspace_id"); [| reflexivity].
    destruct (py_subscript ws "region"); [| reflexivity].
    destruct (py_get ws "url" (PStr (base_url cfg))); reflexivity.
  - destruct (single_workspace cfg); reflexivity.
Qed.

(** C5, as the code has it.  When the routing cache carries a time stamp and
    is older than its TTL, [_get_workspace_for_vm] reads the clock, runs the
    full fan-out and only then consults the routing map.  When the cache was
    never populated (no time stamp), no fan-out runs: the map is consulted
    at once and the world is left as it was. *)
Theorem routing_refresh_needs_a_time_stamp
  (cfg : config) (up : upstream) (vm_id : string) (w : world) :
  (forall t,
     _vm_workspace_time (self w) = Some t -> t <> 0 ->
     clock up (tick w) - t > VM_CACHE_TTL ->
     _get_workspace_for_vm cfg up vm_id w
     = (_ <- fetch_vms_from_all_workspaces cfg up ;; consult_routing cfg vm_id)
         (after_clock w))
  /\ (_vm_workspace_time (self w) = None ->
      _get_workspace_for_vm cfg up vm_id w = consult_routing cfg vm_id w
      /\ snd (_get_workspace_for_vm cfg up vm_id w) = w).
Proof.
  split.
  - intros t Ht Hnz Hage.
    unfold _get_workspace_for_vm. unfold bind at 1. unfold get_self at 1.
    rewrite Ht. cbn [time_truthy].
    destruct (t =? 0) eqn:E0; [apply Z.eqb_eq in E0; contradiction |]. cbn [negb].
    unfold bind at 1. unfold bind at 1. unfold time_time at 1. fold (after_clock w).
    destruct (clock up (tick w) - t >? VM_CACHE_TTL) eqn:G.
    + unfold bind. destruct (fetch_vms_from_all_workspaces cfg up (after_clock w)) as [[d | e] w'];
        reflexivity.
    + rewrite Z.gtb_ltb in G. apply Z.ltb_ge in G. lia.
  - intros Ht.
    assert (E : _get_workspace_for_vm cfg up vm_id w = consult_routing cfg vm_id w).
    { unfold _get_workspace_for_vm. unfold bind at 1. unfold get_self at 1.
      rewrite Ht. reflexivity. }
    split; [exact E |]. rewrite E. apply consult_routing_world.
Qed.

Lemma routing_refresh_needs_a_time_stamp_witness :
  _get_workspace_for_vm cfg_account up_inventory "vm-1" world_routing_expired
  = (_ <- fetch_vms_from_all_workspaces cfg_account up_inventory ;;
     consult_routing cfg_account "vm-1") (after_clock world_routing_expired)
  /\ (_get_workspace_for_vm cfg_account up_inventory "vm-1" init_world
      = consult_routing cfg_account "vm-1" init_world
      /\ snd (_get_workspace_for_vm cfg_account up_inventory "vm-1" init_world)
         = init_world).
Proof.
  split.
  - apply (proj1 (routing_refresh_needs_a_time_stamp cfg_account up_inventory "vm-1"
                    world_routing_expired) 1000).
    + reflexivity.
    + discriminate.
    + reflexivity.
  - apply (proj2 (routing_refresh_needs_a_time_stamp cfg_account up_inventory "vm-1"
                    init_world)).
    reflexivity.
Defined.

(** C5 as stated fails on a client that has not run a fan-out yet: resolving
    [vm-1] sends nothing, leaves the world untouched and answers not-found,
    although a fan-out from the same world would have put [vm-1] in the
    routing map. *)
Lemma unpopulated_routing_cache_is_not_refreshed :
  _vm_workspace_time (self init_world) = None
  /\ _get_workspace_for_vm cfg_account up_inventory "vm-1" init_world
     = (Ret (PNone, None, PNone), init_world)
  /\ route_lookup (PStr "vm-1")
       (_vm_workspace
          (self (snd (fetch_vms_from_all_workspaces cfg_account up_inventory init_world))))
     = Some route_dal10.
Proof. vm_compute. repeat split; reflexivity. Qed.

(** The fan-out over a non-empty directory does not depend on the routing
    map it finds. *)
Lemma fan_out_forgets_routing
  (cfg : config) (up : upstream) (m : list (pyval * pyval)) (w : world)
  (ws : pyval) (wss : list pyval) :
  fst (get_all_workspaces cfg up w) = Ret (ws :: wss) ->
  fetch_vms_from_all_workspaces cfg up (with_routing m w)
  = fetch_vms_from_all_workspaces cfg up w.
Proof.
  intros H. unfold fetch_vms_from_all_workspaces.
  match goal with |- bind _ ?k _ = _ => set (K := k) end.
  unfold bind. rewrite get_all_workspaces_frame.
  destruct (get_all_workspaces cfg up w) as [r w1]. cbn [fst snd] in *. subst r.
  reflexivity.
Qed.

(* ================================================================== *)
(** ** What a refresh keeps and what it discards *)

(** C6, as the code has it.  Workspace directory: the cached list is
    replaced only after the workspace request was answered and its body
    turned into a list without an exception (1); when that request raises,
    the expired list and its time stamp stay and the list is returned (2).
    VM routing: a fan-out over a non-empty directory starts from an empty
    map, so what it leaves does not depend on the map it found (3); when the
    listing of every workspace fails, it leaves the map empty and stamps it
    (4). *)
Theorem caches_replaced_or_rebuilt (cfg : config) (up : upstream) :
  (forall w,
     self (snd (get_all_workspaces cfg up w)) = self w
     \/ exists n h l now,
          directory_of cfg (respond up n (GET (workspaces_url cfg) h 120)) = Ret l
          /\ In (GET (workspaces_url cfg) h 120) (sent (snd (get_all_workspaces cfg up w)))
          /\ fst (get_all_workspaces cfg up w) = Ret l
          /\ self (snd (get_all_workspaces cfg up w)) = store_directory l now (self w))
  /\ (forall w ws t tok h e,
        _workspaces (self w) = Some ws ->
        _workspaces_time (self w) = Some t -> t <> 0 ->
        clock up (tick w) - t > WORKSPACE_CACHE_TTL ->
        token_of (respond up (S (tick w)) (token_request cfg)) = Ret tok ->
        headers_of tok None = Some h ->
        directory_of cfg (respond up (S (S (tick w))) (GET (workspaces_url cfg) h 120))
        = Raise e ->
        fst (get_all_workspaces cfg up w) = Ret ws
        /\ self (snd (get_all_workspaces cfg up w)) = self w)
  /\ (forall m w ws wss,
        fst (get_all_workspaces cfg up w) = Ret (ws :: wss) ->
        fetch_vms_from_all_workspaces cfg up (with_routing m w)
        = fetch_vms_from_all_workspaces cfg up w)
  /\ (forall answers w w1 wss,
        (forall n, token_granted (respond up n (token_request cfg)) = true) ->
        directory_ok (self w) ->
        get_all_workspaces cfg up w = (Ret wss, w1) ->
        wss <> [] ->
        (forall ws, In ws wss -> stable_listing cfg up answers ws) ->
        (forall ws, In ws wss -> truthy (field ws "id" PNone) = true ->
                    classify_listing (answers ws) = Some Failed) ->
        exists w',
          fetch_vms_from_all_workspaces cfg up w
          = (Ret (inventory_result wss (mkLocals [] health_summary0 status_summary0)), w')
          /\ _vm_workspace (self w') = []
          /\ _vm_workspace_time (self w') = Some (clock up (pred (tick w')))).
Proof.
  split; [| split; [| split]].
  - intros w. rewrite get_all_workspaces_run.
    destruct (_workspaces (self w)) as [ws |].
    + destruct (_workspaces_time (self w)) as [t |]; [| left; reflexivity].
      destruct (t =? 0); [left; reflexivity |].
      destruct (clock up (tick w) - t <=? WORKSPACE_CACHE_TTL); [left; reflexivity |].
      exact (refresh_replaces_after_answer cfg up (after_clock w)).
    + exact (refresh_replaces_after_answer cfg up w).
  - intros w ws t tok h e Hws Ht Hnz Hage Htok Hh Hdir.
    pose proof (expired_directory_refresh cfg up w ws t tok h Hws Ht Hnz Hage Htok Hh) as R.
    rewrite Hdir in R. exact R.
  - intros m w ws wss H. exact (fan_out_forgets_routing cfg up m w ws wss H).
  - intros answers w w1 wss Htok Hok Hget Hne Hst Hfail.
    destruct (get_all_workspaces_dicts cfg up w w1 wss Hok Hget) as [Hd _].
    assert (Hcl : forall ws, In ws wss -> truthy (field ws "id" PNone) = true ->
                             classify_listing (answers ws) <> None).
    { intros ws Hin T. rewrite (Hfail ws Hin T). discriminate. }
    destruct (fan_out_run cfg up answers Htok w w1 wss Hget Hne Hd Hst Hcl)
      as [w' [E [R [S _]]]].
    rewrite (answering_all_failed answers wss Hfail) in E, R.
    exists w'. split; [exact E |]. split; [exact R | exact S].
Qed.

Lemma world_routing_expired_directory_ok : directory_ok (self world_routing_expired).
Proof. intros ws H. inversion H. reflexivity. Qed.

Lemma caches_replaced_or_rebuilt_witness :
  (fst (get_all_workspaces cfg_account up_unreachable world_expired) = Ret [workspace_dal10]
   /\ self (snd (get_all_workspaces cfg_account up_unreachable world_expired))
      = self world_expired)
  /\ exists w',
       fetch_vms_from_all_workspaces cfg_account up_listings_time_out world_routing_expired
       = (Ret (inventory_result [workspace_dal10]
                 (mkLocals [] health_summary0 status_summary0)), w')
       /\ _vm_workspace (self w') = []
       /\ _vm_workspace_time (self w') = Some (clock up_listings_time_out (pred (tick w'))).
Proof.
  split.
  - apply (proj1 (proj2 (caches_replaced_or_rebuilt cfg_account up_unreachable))
             world_expired [workspace_dal10] 1000 (TokVal (PStr "tok"))
             [("Authorization", [FLit "Bearer "; FTok (TokVal (PStr "tok"))]);
              ("Accept", [FLit "application/json"]);
              ("Content-Type", [FLit "application/json"])]
             (mkExn RequestException "Connection refused")).
    + reflexivity.
    + reflexivity.
    + discriminate.
    + reflexivity.
    + reflexivity.
    + reflexivity.
    + reflexivity.
  - apply (proj2 (proj2 (proj2 (caches_replaced_or_rebuilt cfg_account up_listings_time_out)))
             answers_time_out world_routing_expired (after_clock world_routing_expired)
             [workspace_dal10]).
    + intros n. reflexivity.
    + exact world_routing_expired_directory_ok.
    + reflexivity.
    + discriminate.
    + intros ws [<- | []] n h. reflexivity.
    + intros ws [<- | []] _. reflexivity.
Defined.

(** C6 as stated fails for the routing cache: the map routes [vm-1]; the one
    known workspace times out; the fan-out returns an inventory without VMs
    and leaves the routing map empty. *)
Lemma failed_fan_out_empties_routing :
  route_lookup (PStr "vm-1") (_vm_workspace (self world_routing_expired))
  = Some route_dal10
  /\ fst (fetch_vms_from_all_workspaces cfg_account up_listings_time_out
            world_routing_expired)
     = Ret (PDict [("total_vms", PInt 0);
                   ("total_workspaces", PInt 1);
                   ("health_summary",
                     PDict [("OK", PInt 0); ("CRITICAL", PInt 0);
                            ("WARNING", PInt 0); ("ATTENTION", PInt 0)]);
                   ("status_summary",
                     PDict [("ACTIVE", PInt 0); ("ERROR", PInt 0); ("SHUTOFF", PInt 0)]);
                   ("vms", PList [])])
  /\ _vm_workspace
       (self (snd (fetch_vms_from_all_workspaces cfg_account up_listings_time_out
                     world_routing_expired)))
     = [].
Proof. vm_compute. repeat split; reflexivity. Qed.

(* ================================================================== *)
(** ** The health composer *)

Section HealthComposer.

Variable cfg : config.
Variable up : upstream.

Lemma get_network_health_Ret (vm_id : string) (vm_data r : pyval) (w w' : world) :
  get_network_health cfg up vm_id vm_data w = (Ret r, w') ->
  (exists msg, r = error_payload msg) \/ (exists down, r = network_result_of down).
Proof.
  intros H. unfold get_network_health in H.
  bind_step H rv w1 E1. destruct rv as [[workspace_id workspace_crn] workspace_url].
  destruct (negb (truthy workspace_id)).
  { apply ret_inv in H. destruct H as [<- _]. left. eexists. reflexivity. }
  bind_step H hdrs w2 E2. destruct hdrs as [h |].
  2:{ apply ret_inv in H. destruct H as [<- _]. left. eexists. reflexivity. }
  bind_step H vm_data' w3 E3.
  bind_lift H vm_networks En.
  bind_lift H items Ei.
  bind_step H found w4 Ef.
  apply ret_inv in H. destruct H as [<- _].
  right. exists (snd found). reflexivity.
Qed.

Lemma get_storage_health_Ret (vm_id : string) (r : pyval) (w w' : world) :
  get_storage_health cfg up vm_id w = (Ret r, w') ->
  (exists msg, r = error_payload msg) \/ (exists unhealthy, r = storage_result_of unhealthy).
Proof.
  intros H. unfold get_storage_health in H.
  bind_step H rv w1 E1. destruct rv as [[workspace_id workspace_crn] workspace_url].
  destruct (negb (truthy workspace_id)).
  { apply ret_inv in H. destruct H as [<- _]. left. eexists. reflexivity. }
  bind_step H hdrs w2 E2. destruct hdrs as [h |].
  2:{ apply ret_inv in H. destruct H as [<- _]. left. eexists. reflexivity. }
  bind_step H volumes_response w3 E3.
  bind_lift H volumes_data Ed.
  bind_lift H listed El.
  bind_lift H items Ei.
  bind_step H unhealthy w4 Eu.
  apply ret_inv in H. destruct H as [<- _].
  right. exists unhealthy. reflexivity.
Qed.

Lemma verdict_of_cases (issues : list pyval) :
  verdict_of issues = "OK" \/ verdict_of issues = "CRITICAL".
Proof. destruct issues; [left | right]; reflexivity. Qed.

End HealthComposer.

(** The composition on two partial results that carry a verdict. *)
Lemma compose_health_of_verdicts (vm_id : string) (vm_data : pyval)
  (down unhealthy : list pyval) :
  compose_health vm_id vm_data (network_result_of down) (storage_result_of unhealthy)
  = (vmName <~ py_get vm_data "serverName" PNone ;;
     vm_status <~ py_get vm_data "status" PNone ;;
     Ret (PDict [("vmName", vmName);
                 ("vmID", PStr vm_id);
                 ("overall_health",
                   PStr (worst_of (verdict_of down) (verdict_of unhealthy)));
                 ("vm_status", vm_status);
                 ("network_health", PStr (verdict_of down));
                 ("storage_health", PStr (verdict_of unhealthy));
                 ("network_issues", PList down);
                 ("storage_issues", PList unhealthy)])).
Proof.
  unfold compose_health.
  destruct (verdict_of_cases down) as [V | V];
    destruct (verdict_of_cases unhealthy) as [U | U];
    cbn; rewrite ?V, ?U; cbn;
    destruct (py_get vm_data "serverName" PNone); cbn; try reflexivity;
    destruct (py_get vm_data "status" PNone); cbn; try reflexivity;
    rewrite ?V, ?U; reflexivity.
Qed.

(** A partial result that carries a verdict is no error payload. *)
Lemma status_in_network_result (r : pyval) (v : pyval) :
  (exists msg, r = error_payload msg) \/ (exists down, r = network_result_of down) ->
  status_in r "network_health" = Ret v ->
  exists down, r = network_result_of down /\ v = PStr (verdict_of down).
Proof.
  intros [[msg ->] | [down ->]] H; [discriminate |].
  exists down. split; [reflexivity |]. cbn in H. inversion H. reflexivity.
Qed.

Lemma status_in_storage_result (r : pyval) (v : pyval) :
  (exists msg, r = error_payload msg) \/ (exists unhealthy, r = storage_result_of unhealthy) ->
  status_in r "storage_health" = Ret v ->
  exists unhealthy, r = storage_result_of unhealthy /\ v = PStr (verdict_of unhealthy).
Proof.
  intros [[msg ->] | [unhealthy ->]] H; [discriminate |].
  exists unhealthy. split; [reflexivity |]. cbn in H. inversion H. reflexivity.
Qed.

(** A composition that returns had two partial results with a verdict. *)
Lemma compose_health_Ret_verdicts (vm_id : string)
  (vm_data network_result storage_result d : pyval) :
  (exists msg, network_result = error_payload msg)
  \/ (exists down, network_result = network_result_of down) ->
  (exists msg, storage_result = error_payload msg)
  \/ (exists unhealthy, storage_result = storage_result_of unhealthy) ->
  compose_health vm_id vm_data network_result storage_result = Ret d ->
  exists down unhealthy,
    network_result = network_result_of down
    /\ storage_result = storage_result_of unhealthy.
Proof.
  intros [[msg ->] | [down ->]] Hs H.
  { discriminate. }
  destruct Hs as [[msg ->] | [unhealthy ->]].
  { unfold compose_health in H. cbn in H.
    destruct (verdict_of_cases down) as [V | V]; rewrite V in H; cbn in H.
    - discriminate.
    - destruct (py_get vm_data "serverName" PNone); cbn in H; [| discriminate].
      destruct (py_get vm_data "status" PNone); cbn in H; discriminate. }
  exists down, unhealthy. split; reflexivity.
Qed.

(** C7. [overall_health] is the worst of the two verdicts the partial
    operations computed.  (1) When [get_vm_health] has resolved the VM,
    obtained headers and read the VM document, and [get_network_health] (on
    that document) and [get_storage_health] return results that carry the
    verdicts [network] and [storage], then both are OK or CRITICAL and
    [get_vm_health] returns a document whose [network_health] and
    [storage_health] are these two and whose [overall_health] is CRITICAL if
    one of them is CRITICAL and OK otherwise.  (2) Conversely, a result of
    [get_vm_health] that carries [overall_health] comes from such a run: the
    two partial operations returned verdicts, and [overall_health] is their
    worst; no third value occurs. *)
Theorem overall_health_is_worst_of_two
  (cfg : config) (up : upstream) (vm_id : string) (w : world) :
  (forall (w1 w2 w3 w4 w5 : world) (workspace_id workspace_url : pyval)
          (workspace_crn : option fstring) (h : headers) (vm_response : response)
          (vm_data network_result storage_result network storage : pyval),
     _get_workspace_for_vm cfg up vm_id w
     = (Ret (workspace_id, workspace_crn, workspace_url), w1) ->
     truthy workspace_id = true ->
     _get_headers cfg up workspace_crn w1 = (Ret (Some h), w2) ->
     requests_get up (pvm_instance_url workspace_url workspace_id vm_id) h 240 w2
     = (Ret vm_response, w3) ->
     response_json vm_response = Ret vm_data ->
     is_dict vm_data = true ->
     get_network_health cfg up vm_id vm_data w3 = (Ret network_result, w4) ->
     get_storage_health cfg up vm_id w4 = (Ret storage_result, w5) ->
     status_in network_result "network_health" = Ret network ->
     status_in storage_result "storage_health" = Ret storage ->
     exists n s d,
       network = PStr n /\ storage = PStr s
       /\ (n = "OK" \/ n = "CRITICAL")
       /\ (s = "OK" \/ s = "CRITICAL")
       /\ get_vm_health cfg up vm_id w = (Ret d, w5)
       /\ py_subscript d "overall_health" = Ret (PStr (worst_of n s))
       /\ py_subscript d "network_health" = Ret (PStr n)
       /\ py_subscript d "storage_health" = Ret (PStr s))
  /\ (forall (d overall : pyval) (w5 : world),
        get_vm_health cfg up vm_id w = (Ret d, w5) ->
        py_subscript d "overall_health" = Ret overall ->
        exists (w1 w2 w3 w4 : world) (workspace_id workspace_url : pyval)
               (workspace_crn : option fstring) (h : headers) (vm_response : response)
               (vm_data network_result storage_result : pyval) (n s : string),
          _get_workspace_for_vm cfg up vm_id w
          = (Ret (workspace_id, workspace_crn, workspace_url), w1)
          /\ _get_headers cfg up workspace_crn w1 = (Ret (Some h), w2)
          /\ requests_get up (pvm_instance_url workspace_url workspace_id vm_id) h 240 w2
             = (Ret vm_response, w3)
          /\ response_json vm_response = Ret vm_data
          /\ get_network_health cfg up vm_id vm_data w3 = (Ret network_result, w4)
          /\ get_storage_health cfg up vm_id w4 = (Ret storage_result, w5)
          /\ status_in network_result "network_health" = Ret (PStr n)
          /\ status_in storage_result "storage_health" = Ret (PStr s)
          /\ (n = "OK" \/ n = "CRITICAL")
          /\ (s = "OK" \/ s = "CRITICAL")
          /\ overall = PStr (worst_of n s)
          /\ py_subscript d "network_health" = Ret (PStr n)
          /\ py_subscript d "storage_health" = Ret (PStr s)).
Proof.
  split.
  - intros w1 w2 w3 w4 w5 workspace_id workspace_url workspace_crn h vm_response
      vm_data network_result storage_result network storage
      E1 Hid E2 E3 Ed Hdict En Es Hn Hs.
    destruct (status_in_network_result _ _ (get_network_health_Ret _ _ _ _ _ _ _ En) Hn)
      as (down & -> & ->).
    destruct (status_in_storage_result _ _ (get_storage_health_Ret _ _ _ _ _ _ Es) Hs)
      as (unhealthy & -> & ->).
    destruct vm_data as [| | | | | dv]; try discriminate.
    exists (verdict_of down), (verdict_of unhealthy).
    eexists.
    split; [reflexivity |]. split; [reflexivity |].
    split; [apply verdict_of_cases |]. split; [apply verdict_of_cases |].
    split; [| split; [| split]].
    + unfold get_vm_health. unfold bind at 1. rewrite E1. cbv beta iota.
      rewrite Hid. cbn [negb]. unfold bind at 1. rewrite E2.
      unfold try_except. unfold bind at 1. rewrite E3.
      unfold bind at 1. unfold lift at 1. rewrite Ed.
      unfold bind at 1. rewrite En.
      unfold bind at 1. rewrite Es.
      unfold lift. rewrite compose_health_of_verdicts. cbn [py_get rbind].
      reflexivity.
    + reflexivity.
    + reflexivity.
    + reflexivity.
  - intros d overall w5 H Ho. unfold get_vm_health in H.
    bind_step H rv w1 E1. destruct rv as [[workspace_id workspace_crn] workspace_url].
    destruct (negb (truthy workspace_id)).
    { apply ret_inv in H. destruct H as [<- _]. discriminate. }
    bind_step H hdrs w2 E2. destruct hdrs as [h |].
    2:{ apply ret_inv in H. destruct H as [<- _]. discriminate. }
    apply try_except_Ret_inv in H. destruct H as [H | (e & w3 & _ & _ & H)].
    2:{ apply ret_inv in H. destruct H as [<- _]. discriminate. }
    bind_step H vm_response w3 E3.
    bind_lift H vm_data Ed.
    bind_step H network_result w4 En.
    bind_step H storage_result w5' Es.
    apply lift_Ret_inv in H. destruct H as [H <-].
    destruct (compose_health_Ret_verdicts vm_id vm_data network_result storage_result d
                (get_network_health_Ret _ _ _ _ _ _ _ En)
                (get_storage_health_Ret _ _ _ _ _ _ Es) H)
      as (down & unhealthy & Hn & Hs).
    subst network_result storage_result.
    rewrite compose_health_of_verdicts in H.
    destruct (py_get vm_data "serverName" PNone) as [vmName |]; [| discriminate].
    destruct (py_get vm_data "status" PNone) as [vm_status |]; [| discriminate].
    cbn [rbind] in H. inversion H; subst d. cbn in Ho. inversion Ho; subst overall.
    exists w1, w2, w3, w4, workspace_id, workspace_url, workspace_crn, h, vm_response,
      vm_data, (network_result_of down), (storage_result_of unhealthy),
      (verdict_of down), (verdict_of unhealthy).
    repeat (split; [first [assumption | reflexivity | apply verdict_of_cases] |]).
    reflexivity.
Qed.

Lemma overall_health_is_worst_of_two_witness :
  exists n s d,
    PStr "CRITICAL" = PStr n /\ PStr "OK" = PStr s
    /\ (n = "OK" \/ n = "CRITICAL")
    /\ (s = "OK" \/ s = "CRITICAL")
    /\ get_vm_health cfg_static (up_vm_health "DOWN") "vm-1" init_world
       = (Ret d, snd (get_vm_health cfg_static (up_vm_health "DOWN") "vm-1" init_world))
    /\ py_subscript d "overall_health" = Ret (PStr (worst_of n s))
    /\ py_subscript d "network_health" = Ret (PStr n)
    /\ py_subscript d "storage_health" = Ret (PStr s).
Proof.
  apply (proj1 (overall_health_is_worst_of_two cfg_static (up_vm_health "DOWN") "vm-1"
                  init_world)
           init_world
           (snd (_get_headers cfg_static (up_vm_health "DOWN")
                   (Some [FLit (crn cfg_static)]) init_world))
           (after_call
              (GET (pvm_instance_url (PStr "https://base") (PStr "ws-1") "vm-1")
                 (dict_set "CRN" [FLit (crn cfg_static)]
                    [("Authorization", [FLit "Bearer "; FTok (TokVal (PStr "tok"))]);
                     ("Accept", [FLit "application/json"]);
                     ("Content-Type", [FLit "application/json"])]) 240)
              (after_call (token_request cfg_static) init_world))
           (snd (get_network_health cfg_static (up_vm_health "DOWN") "vm-1" vm_document
                   (after_call
                      (GET (pvm_instance_url (PStr "https://base") (PStr "ws-1") "vm-1")
                         (dict_set "CRN" [FLit (crn cfg_static)]
                            [("Authorization",
                               [FLit "Bearer "; FTok (TokVal (PStr "tok"))]);
                             ("Accept", [FLit "application/json"]);
                             ("Content-Type", [FLit "application/json"])]) 240)
                      (after_call (token_request cfg_static) init_world))))
           (snd (get_vm_health cfg_static (up_vm_health "DOWN") "vm-1" init_world))
           (PStr "ws-1") (PStr "https://base") (Some [FLit (crn cfg_static)])
           (dict_set "CRN" [FLit (crn cfg_static)]
              [("Authorization", [FLit "Bearer "; FTok (TokVal (PStr "tok"))]);
               ("Accept", [FLit "application/json"]);
               ("Content-Type", [FLit "application/json"])])
           (200, BodyJson vm_document)
           vm_document
           (network_result_of [PStr "10.0.0.5"])
           (storage_result_of [])
           (PStr "CRITICAL") (PStr "OK")).
  - reflexivity.
  - reflexivity.
  - vm_compute. reflexivity.
  - vm_compute. reflexivity.
  - reflexivity.
  - reflexivity.
  - vm_compute. reflexivity.
  - vm_compute. reflexivity.
  - reflexivity.
  - reflexivity.
Defined.

(** The two runs the design names: network CRITICAL with storage OK gives
    CRITICAL, both OK give OK. *)
Example vm_health_runs :
  fst (get_vm_health cfg_static (up_vm_health "DOWN") "vm-1" init_world)
  = Ret health_network_down
  /\ fst (get_vm_health cfg_static (up_vm_health "ACTIVE") "vm-1" init_world)
     = Ret health_all_ok.
Proof. vm_compute. split; reflexivity. Qed.

(* ================================================================== *)
(** ** Exceptions that reach the caller *)

Lemma try_except_returns {A : Type} (m : M A) (h : exn -> M A) (w : world) :
  (forall e w1, returns (h e w1)) ->
  returns (try_except m is_Exception h w).
Proof.
  intros Hh. unfold try_except, returns.
  destruct (m w) as [[a | e] w1].
  - exists a. reflexivity.
  - cbn [is_Exception]. apply Hh.
Qed.

(** The operations on the static workspace keep their request in a [try]:
    they return a value unless the token exchange itself raises. *)
Lemma static_operations_return
  (cfg : config) (up : upstream) (w : world) (image_id : string) :
  (forall e, token_of (respond up (tick w) (token_request cfg)) <> Raise e) ->
  returns (get_all_images_in_workspace cfg up w)
  /\ returns (get_image_details cfg up image_id w)
  /\ returns (get_networks_in_workspace cfg up w).
Proof.
  intros Htok.
  assert (G : forall (k : option headers -> M pyval),
             (forall o w1, returns (k o w1)) ->
             returns (bind (_get_headers cfg up (Some [FLit (crn cfg)])) k w)).
  { intros k Hk. unfold bind. rewrite _get_headers_run.
    destruct (token_of _) as [t | e]; [| exfalso; exact (Htok e eq_refl)].
    cbn [rbind]. apply Hk. }
  unfold get_all_images_in_workspace, get_image_details, get_networks_in_workspace.
  destruct (negb (nonempty (crn cfg)) || negb (nonempty (cloud_instance_id cfg))).
  - repeat split; eexists; reflexivity.
  - repeat split; apply G; intros [h |] w1;
      try (eexists; reflexivity);
      apply try_except_returns; intros e w2; eexists; reflexivity.
Qed.

(** The side condition is needed: [get_iam_token] catches [ValueError] and
    [KeyError] only, and subscripting a body that is no object raises
    [TypeError]. *)
Example token_body_not_an_object :
  fst (get_all_images_in_workspace cfg_static up_token_array init_world)
  = Raise (mkExn TypeError "list indices must be integers or slices, not str").
Proof. reflexivity. Qed.

(** C1, at the failing input.  With a static scope and a granted token, the
    volume request (resp. the VM detail request) fails in the transport: the
    exception leaves [get_storage_health] (resp. [get_network_health]),
    whereas [get_vm_snapshots], whose request sits in a [try], answers with
    an error payload. *)
Theorem health_fetch_failure_reaches_the_caller :
  fst (get_storage_health cfg_static up_unreachable "vm-1" init_world)
  = Raise (mkExn RequestException "Connection refused") /\
  fst (get_network_health cfg_static up_unreachable "vm-1" PNone init_world)
  = Raise (mkExn RequestException "Connection refused") /\
  fst (get_vm_snapshots cfg_static up_unreachable "vm-1" init_world)
  = Ret (error_payload "Failed to get the instance snapshots: Connection refused").
Proof. vm_compute. repeat split; reflexivity. Qed.

(* ================================================================== *)
(** ** The health filter *)

(** C10. [get_critical_vms] and [fetch_vms_by_health_status "CRITICAL"] are
    the same computation: same result and same final world from every
    world, under every upstream. *)
Theorem get_critical_vms_is_filter_critical
  (cfg : config) (up : upstream) (w : world) :
  get_critical_vms cfg up w = fetch_vms_by_health_status cfg up "CRITICAL" w.
Proof. reflexivity. Qed.

(* ================================================================== *)
(** ** The CRN helpers *)

Lemma split_on_no_sep (sep : ascii) (p : string) :
  count_char sep p = O -> split_on sep p = [p].
Proof.
  induction p as [| c p IH]; cbn [count_char split_on]; [reflexivity |].
  destruct (Ascii.eqb c sep); [discriminate |].
  intros H. rewrite (IH H). reflexivity.
Qed.

Lemma split_on_field (sep : ascii) (p rest : string) :
  count_char sep p = O ->
  split_on sep (p ++ String sep rest) = p :: split_on sep rest.
Proof.
  induction p as [| c p IH]; cbn [count_char split_on append].
  - intros _. rewrite Ascii.eqb_refl. reflexivity.
  - destruct (Ascii.eqb c sep); [discriminate |].
    intros H. rewrite (IH H). reflexivity.
Qed.

(** Splitting undoes joining, for fields free of the separator. *)
Lemma split_on_join_on (sep : ascii) (parts : list string) :
  parts <> [] ->
  Forall (fun p => count_char sep p = O) parts ->
  split_on sep (join_on sep parts) = parts.
Proof.
  induction parts as [| p ps IH]; [congruence |].
  intros _ H. inversion H as [| x l Hp Hps]; subst.
  destruct ps as [| q qs].
  - cbn [join_on]. apply split_on_no_sep. exact Hp.
  - change (join_on sep (p :: q :: qs)) with (p ++ String sep (join_on sep (q :: qs))).
    rewrite (split_on_field sep p _ Hp). rewrite IH; [reflexivity | discriminate | exact Hps].
Qed.

(** A string splits into one field more than it has separators. *)
Lemma split_on_length (sep : ascii) (s : string) :
  List.length (split_on sep s) = S (count_char sep s).
Proof.
  induction s as [| c s IH]; cbn [split_on count_char]; [reflexivity |].
  destruct (Ascii.eqb c sep).
  - cbn [List.length]. rewrite IH. reflexivity.
  - destruct (split_on sep s) as [| p ps]; [discriminate |].
    cbn [List.length] in *. exact IH.
Qed.

Lemma crn_text (region account id : string) :
  ("crn:v1:staging:public:power-iaas:" ++ region ++ ":a/" ++ account ++ ":" ++ id ++ "::")
  = join_on ":"%char
      ["crn"; "v1"; "staging"; "public"; "power-iaas"; region; "a/" ++ account; id; ""; ""].
Proof.
  cbn [join_on append]. repeat f_equal.
Qed.

(** X1. The scope string the fan-out synthesises for a workspace parses
    back: for a region, an account and a workspace identifier free of
    colons, [_extract_workspace_from_crn] returns that identifier and that
    region, and a client configured with the string has the identifier as
    its [cloud_instance_id]. *)
Theorem synthesized_crn_parses_back (cfg : config) (region id : string) :
  count_char ":"%char region = O ->
  count_char ":"%char (account_id cfg) = O ->
  count_char ":"%char id = O ->
  exists c,
    text_of (workspace_crn_of cfg (PStr region) (PStr id)) = Some c
    /\ _extract_workspace_from_crn c
       = PDict [("workspace_id", PStr id); ("region", PStr region)]
    /\ cloud_instance_id (mkConfig (api_key cfg) (account_id cfg) (base_url cfg) c) = id.
Proof.
  intros Hr Ha Hi.
  exists ("crn:v1:staging:public:power-iaas:" ++ region ++ ":a/" ++ account_id cfg
          ++ ":" ++ id ++ "::").
  split.
  - reflexivity.
  - assert (S : split_on ":"%char
                  ("crn:v1:staging:public:power-iaas:" ++ region ++ ":a/"
                   ++ account_id cfg ++ ":" ++ id ++ "::")
                = ["crn"; "v1"; "staging"; "public"; "power-iaas"; region;
                   "a/" ++ account_id cfg; id; ""; ""]).
    { rewrite crn_text. apply split_on_join_on; [discriminate |].
      repeat (constructor; try reflexivity); assumption. }
    unfold cloud_instance_id, _extract_cloud_instance_id_from_crn,
      _extract_workspace_from_crn.
    cbn [crn]. rewrite S. split; reflexivity.
Qed.

Lemma synthesized_crn_parses_back_witness :
  exists c,
    text_of (workspace_crn_of cfg_account (PStr "dal10") (PStr "ws-1")) = Some c
    /\ _extract_workspace_from_crn c
       = PDict [("workspace_id", PStr "ws-1"); ("region", PStr "dal10")]
    /\ cloud_instance_id
         (mkConfig (api_key cfg_account) (account_id cfg_account) (base_url cfg_account) c)
       = "ws-1".
Proof.
  apply (synthesized_crn_parses_back cfg_account "dal10" "ws-1"); reflexivity.
Defined.

(** X2. A configured CRN with fewer than seven colons has fewer than eight
    fields: the client has no [cloud_instance_id] and behaves as an
    account-wide client.  [get_all_vms] is the fan-out, and the image and
    network operations answer with their configuration error without
    sending a request. *)
Theorem short_crn_is_no_scope (cfg : config) (up : upstream) :
  (count_char ":"%char (crn cfg) < 7)%nat ->
  cloud_instance_id cfg = ""
  /\ single_workspace cfg = false
  /\ (forall w, get_all_vms cfg up w = fetch_vms_from_all_workspaces cfg up w)
  /\ (forall w image_id,
        get_all_images_in_workspace cfg up w
        = (Ret (error_payload
                  "Configure CRN in config.yaml to list images in a specific workspace."),
           w)
        /\ get_image_details cfg up image_id w
           = (Ret (error_payload "Configure CRN in config.yaml to get image details."), w)
        /\ get_networks_in_workspace cfg up w
           = (Ret (error_payload
                     "Configure CRN in config.yaml to list networks in a specific workspace."),
              w)).
Proof.
  intros H.
  assert (E : cloud_instance_id cfg = "").
  { unfold cloud_instance_id, _extract_cloud_instance_id_from_crn.
    destruct (nonempty (crn cfg)); [| reflexivity]. cbn [negb].
    rewrite split_on_length.
    destruct (8 <=? S (count_char ":"%char (crn cfg)))%nat eqn:L; [| reflexivity].
    apply Nat.leb_le in L. lia. }
  assert (Sg : single_workspace cfg = false).
  { unfold single_workspace. rewrite E. apply andb_false_r. }
  split; [exact E |]. split; [exact Sg |]. split.
  - intros w. unfold get_all_vms. rewrite Sg. reflexivity.
  - intros w image_id.
    unfold get_all_images_in_workspace, get_image_details, get_networks_in_workspace.
    rewrite E. cbn [nonempty negb]. rewrite orb_true_r. repeat split.
Qed.

Lemma short_crn_is_no_scope_witness :
  cloud_instance_id (mkConfig "key" "acct" "https://base" "crn:v1:staging:ws-1") = ""
  /\ single_workspace (mkConfig "key" "acct" "https://base" "crn:v1:staging:ws-1") = false
  /\ (forall w,
        get_all_vms (mkConfig "key" "acct" "https://base" "crn:v1:staging:ws-1")
          up_inventory w
        = fetch_vms_from_all_workspaces
            (mkConfig "key" "acct" "https://base" "crn:v1:staging:ws-1") up_inventory w)
  /\ (forall w image_id,
        get_all_images_in_workspace
          (mkConfig "key" "acct" "https://base" "crn:v1:staging:ws-1") up_inventory w
        = (Ret (error_payload
                  "Configure CRN in config.yaml to list images in a specific workspace."),
           w)
        /\ get_image_details
             (mkConfig "key" "acct" "https://base" "crn:v1:staging:ws-1") up_inventory
             image_id w
           = (Ret (error_payload "Configure CRN in config.yaml to get image details."), w)
        /\ get_networks_in_workspace
             (mkConfig "key" "acct" "https://base" "crn:v1:staging:ws-1") up_inventory w
           = (Ret (error_payload
                     "Configure CRN in config.yaml to list networks in a specific workspace."),
              w)).
Proof.
  apply (short_crn_is_no_scope
           (mkConfig "key" "acct" "https://base" "crn:v1:staging:ws-1") up_inventory).
  cbn. lia.
Defined.

(* ================================================================== *)
(** ** The no-headers signal *)

(** X3. [_get_headers] returns [None] in one situation only: the token
    endpoint answered with a status that is no error status and a JSON
    object whose [access_token] is present and falsy (empty, null, zero).
    After every other answer it returns headers or the exchange raises. *)
Theorem no_headers_iff_falsy_token
  (cfg : config) (up : upstream) (workspace_crn : option fstring) (w : world) :
  fst (_get_headers cfg up workspace_crn w) = Ret None
  <-> exists status d v,
        respond up (tick w) (token_request cfg) = Response status (BodyJson (PDict d))
        /\ (400 <=? status) && (status <? 600) = false
        /\ dict_lookup "access_token" d = Some v
        /\ truthy v = false.
Proof.
  rewrite _get_headers_run. cbn [fst].
  assert (P : forall e, (t <~ Ret (TokPair "" e) ;; Ret (headers_of t workspace_crn))
                        <> Ret None).
  { intros e. cbn [rbind]. unfold headers_of. cbn [token_truthy negb].
    destruct workspace_crn as [c |]; [destruct (fstring_truthy c) |]; discriminate. }
  destruct (respond up (tick w) (token_request cfg)) as [msg | status b].
  - split.
    + intros H. exfalso. exact (P _ H).
    + intros (status & d & v & H & _). discriminate.
  - cbn [token_of]. unfold raise_for_status. cbn [fst].
    destruct ((400 <=? status) && (status <? 600)) eqn:Es.
    + split.
      * intros H. exfalso. exact (P _ H).
      * intros (s' & d & v & H & Hs & _). inversion H; subst. congruence.
    + destruct b as [j | msg].
      * destruct j as [| | | | | d];
          try (split; [intros H; discriminate
                      | intros (s' & d' & v & H & _); discriminate]).
        cbn [py_subscript].
        destruct (dict_lookup "access_token" d) as [v |] eqn:Ed.
        -- cbn [rbind]. unfold headers_of. cbn [token_truthy].
           destruct (truthy v) eqn:Tv; cbn [negb].
           ++ split.
              ** destruct workspace_crn as [c |]; [destruct (fstring_truthy c) |];
                   discriminate.
              ** intros (s' & d' & v' & H & _ & Hd & Hv). inversion H; subst.
                 rewrite Ed in Hd. inversion Hd; subst. congruence.
           ++ split; [| reflexivity].
              intros _. exists status, d, v. repeat split; assumption.
        -- cbn [is_KeyError key_error exn_cls]. split.
           ++ intros H. exfalso. exact (P _ H).
           ++ intros (s' & d' & v' & H & _ & Hd & _). inversion H; subst. congruence.
      * split.
        -- intros H. exfalso. exact (P _ H).
        -- intros (s' & d' & v' & H & _). discriminate.
Qed.

(* ================================================================== *)
(** ** First use and content of the workspace directory *)

(** X4. First use of the workspace directory (nothing cached).  When the
    workspace request or the reading of its body raises, the empty list is
    returned and the cache stays empty.  When a list comes out, it is
    returned and stored with the time of the clock, and a next call that
    finds the clock within the TTL returns the same list without sending
    anything. *)
Theorem first_use_of_directory
  (cfg : config) (up : upstream) (w : world) (tok : token) (h : headers) :
  _workspaces (self w) = None ->
  token_of (respond up (tick w) (token_request cfg)) = Ret tok ->
  headers_of tok None = Some h ->
  (forall e,
     directory_of cfg (respond up (S (tick w)) (GET (workspaces_url cfg) h 120)) = Raise e ->
     fst (get_all_workspaces cfg up w) = Ret []
     /\ self (snd (get_all_workspaces cfg up w)) = self w)
  /\ (forall l,
        directory_of cfg (respond up (S (tick w)) (GET (workspaces_url cfg) h 120)) = Ret l ->
        let w' := snd (get_all_workspaces cfg up w) in
        fst (get_all_workspaces cfg up w) = Ret l
        /\ _workspaces (self w') = Some l
        /\ _workspaces_time (self w') = Some (clock up (S (S (tick w))))
        /\ (clock up (tick w') - clock up (S (S (tick w))) <= WORKSPACE_CACHE_TTL ->
            fst (get_all_workspaces cfg up w') = Ret l
            /\ sent (snd (get_all_workspaces cfg up w')) = sent w'
            /\ self (snd (get_all_workspaces cfg up w')) = self w')).
Proof.
  intros Hnone Htok Hh.
  assert (R : get_all_workspaces cfg up w = refresh cfg up w).
  { rewrite get_all_workspaces_run, Hnone. reflexivity. }
  split.
  - intros e He. rewrite R. unfold refresh. rewrite Htok, Hh. cbv zeta.
    rewrite He, Hnone. split; reflexivity.
  - intros l Hl w'. subst w'. rewrite R. unfold refresh. rewrite Htok, Hh. cbv zeta.
    rewrite Hl. cbn [fst snd].
    split; [reflexivity |]. split; [reflexivity |]. split; [reflexivity |].
    intros Hage.
    set (w' := with_self _ _) in *.
    rewrite (get_all_workspaces_hit cfg up w' l (clock up (S (S (tick w))))
               eq_refl eq_refl Hage).
    destruct (clock up (S (S (tick w))) =? 0); repeat split; reflexivity.
Qed.

Lemma first_use_of_directory_witness :
  (forall e,
     directory_of cfg_account
       (respond up_inventory 1
          (GET (workspaces_url cfg_account)
             [("Authorization", [FLit "Bearer "; FTok (TokVal (PStr "tok"))]);
              ("Accept", [FLit "application/json"]);
              ("Content-Type", [FLit "application/json"])] 120)) = Raise e ->
     fst (get_all_workspaces cfg_account up_inventory init_world) = Ret []
     /\ self (snd (get_all_workspaces cfg_account up_inventory init_world))
        = self init_world)
  /\ (forall l,
        directory_of cfg_account
          (respond up_inventory 1
             (GET (workspaces_url cfg_account)
                [("Authorization", [FLit "Bearer "; FTok (TokVal (PStr "tok"))]);
                 ("Accept", [FLit "application/json"]);
                 ("Content-Type", [FLit "application/json"])] 120)) = Ret l ->
        let w' := snd (get_all_workspaces cfg_account up_inventory init_world) in
        fst (get_all_workspaces cfg_account up_inventory init_world) = Ret l
        /\ _workspaces (self w') = Some l
        /\ _workspaces_time (self w') = Some (clock up_inventory 2)
        /\ (clock up_inventory (tick w') - clock up_inventory 2 <= WORKSPACE_CACHE_TTL ->
            fst (get_all_workspaces cfg_account up_inventory w') = Ret l
            /\ sent (snd (get_all_workspaces cfg_account up_inventory w')) = sent w'
            /\ self (snd (get_all_workspaces cfg_account up_inventory w')) = self w')).
Proof.
  apply (first_use_of_directory cfg_account up_inventory init_world (TokVal (PStr "tok"))).
  - reflexivity.
  - reflexivity.
  - reflexivity.
Defined.

Lemma workspace_detail_of_wf (cfg : config) (item : pyval) :
  wf_workspace item = true ->
  workspace_detail_of cfg item = Ret (workspace_record cfg item).
Proof.
  destruct item as [| | | | | d]; try discriminate.
  unfold wf_workspace, workspace_detail_of, workspace_record, field. cbn [py_get rbind].
  destruct (dict_lookup "location" d) as [[| | | | | loc] |]; try discriminate;
    intros _; reflexivity.
Qed.

Lemma workspace_detail_of_not_wf (cfg : config) (item : pyval) :
  wf_workspace item = false -> exists e, workspace_detail_of cfg item = Raise e.
Proof.
  unfold wf_workspace, workspace_detail_of.
  destruct item as [| | | | | d]; try (intros _; eexists; reflexivity).
  cbn [py_get rbind].
  destruct (dict_lookup "location" d) as [[| | | | | loc] |]; try discriminate;
    intros _; eexists; reflexivity.
Qed.

Lemma collect_wf (cfg : config) (items : list pyval) :
  forall acc,
  forallb wf_workspace items = true ->
  collect (workspace_detail_of cfg) items acc
  = Ret (acc ++ map (workspace_record cfg) items)%list.
Proof.
  induction items as [| x items IH]; intros acc H; cbn [collect map].
  - rewrite app_nil_r. reflexivity.
  - cbn [forallb] in H. apply andb_prop in H. destruct H as [Hx H].
    rewrite (workspace_detail_of_wf cfg x Hx). cbn [rbind].
    rewrite (IH _ H), <- app_assoc. reflexivity.
Qed.

Lemma collect_not_wf (cfg : config) (items : list pyval) :
  forall acc,
  forallb wf_workspace items = false ->
  exists e, collect (workspace_detail_of cfg) items acc = Raise e.
Proof.
  induction items as [| x items IH]; intros acc H; cbn [collect forallb] in *.
  - discriminate.
  - destruct (wf_workspace x) eqn:Hx.
    + rewrite (workspace_detail_of_wf cfg x Hx). cbn [rbind]. apply IH. exact H.
    + destruct (workspace_detail_of_not_wf cfg x Hx) as [e ->]. exists e. reflexivity.
Qed.

(** X5. Content of a freshly fetched directory.  The status code of the
    answer is not looked at.  When the body is an object whose [workspaces]
    is a list of workspace items, the directory is the list of their
    records, in order: [region] and [url] come from [location], and [url] is
    the base URL when [location] has none.  One item that is no object, or
    whose [location] is no object, makes the whole fetch fall back: from an
    empty cache the result is the empty list and nothing is stored. *)
Theorem fresh_directory_content
  (cfg : config) (up : upstream) (w : world) (status : Z)
  (d : list (string * pyval)) (items : list pyval) :
  _workspaces (self w) = None ->
  token_granted (respond up (tick w) (token_request cfg)) = true ->
  (forall h, respond up (S (tick w)) (GET (workspaces_url cfg) h 120)
             = Response status (BodyJson (PDict d))) ->
  dict_lookup "workspaces" d = Some (PList items) ->
  (forallb wf_workspace items = true ->
   fst (get_all_workspaces cfg up w) = Ret (map (workspace_record cfg) items)
   /\ _workspaces (self (snd (get_all_workspaces cfg up w)))
      = Some (map (workspace_record cfg) items))
  /\ (forallb wf_workspace items = false ->
      fst (get_all_workspaces cfg up w) = Ret []
      /\ _workspaces (self (snd (get_all_workspaces cfg up w))) = None).
Proof.
  intros Hnone Htok Hresp Hd.
  assert (R : get_all_workspaces cfg up w = refresh cfg up w).
  { rewrite get_all_workspaces_run, Hnone. reflexivity. }
  destruct (token_granted_of _ Htok) as [v [Hv Tv]].
  rewrite R. unfold refresh. rewrite Hv. unfold headers_of. cbn [token_truthy].
  rewrite Tv. cbn [negb]. cbv zeta. rewrite Hresp.
  cbn [directory_of response_json snd rbind py_get]. rewrite Hd. cbn [py_iter rbind].
  split; intros Hwf.
  - rewrite (collect_wf cfg items [] Hwf). split; reflexivity.
  - destruct (collect_not_wf cfg items [] Hwf) as [e ->]. rewrite Hnone.
    split; [reflexivity | exact Hnone].
Qed.

Lemma fresh_directory_content_witness :
  (forallb wf_workspace
     [PDict [("id", PStr "ws-1"); ("name", PStr "DAL10_Workspace");
             ("location", PDict [("region", PStr "dal10");
                                 ("url", PStr "https://dal.base")])]] = true ->
   fst (get_all_workspaces cfg_account up_inventory init_world)
   = Ret (map (workspace_record cfg_account)
            [PDict [("id", PStr "ws-1"); ("name", PStr "DAL10_Workspace");
                    ("location", PDict [("region", PStr "dal10");
                                        ("url", PStr "https://dal.base")])]])
   /\ _workspaces (self (snd (get_all_workspaces cfg_account up_inventory init_world)))
      = Some (map (workspace_record cfg_account)
                [PDict [("id", PStr "ws-1"); ("name", PStr "DAL10_Workspace");
                        ("location", PDict [("region", PStr "dal10");
                                            ("url", PStr "https://dal.base")])]]))
  /\ (forallb wf_workspace
        [PDict [("id", PStr "ws-1"); ("name", PStr "DAL10_Workspace");
                ("location", PDict [("region", PStr "dal10");
                                    ("url", PStr "https://dal.base")])]] = false ->
      fst (get_all_workspaces cfg_account up_inventory init_world) = Ret []
      /\ _workspaces (self (snd (get_all_workspaces cfg_account up_inventory init_world)))
         = None).
Proof.
  apply (fresh_directory_content cfg_account up_inventory init_world 200
           [("workspaces",
             PList [PDict [("id", PStr "ws-1"); ("name", PStr "DAL10_Workspace");
                           ("location", PDict [("region", PStr "dal10");
                                               ("url", PStr "https://dal.base")])]])]).
  - reflexivity.
  - reflexivity.
  - intros h. reflexivity.
  - reflexivity.
Defined.

(** [get_all_workspaces] leaves the routing map and its time stamp alone. *)
Lemma get_all_workspaces_keeps_routing (cfg : config) (up : upstream) (w : world) :
  _vm_workspace (self (snd (get_all_workspaces cfg up w))) = _vm_workspace (self w)
  /\ _vm_workspace_time (self (snd (get_all_workspaces cfg up w)))
     = _vm_workspace_time (self w).
Proof.
  assert (R : forall w0,
             _vm_workspace (self (snd (refresh cfg up w0))) = _vm_workspace (self w0)
             /\ _vm_workspace_time (self (snd (refresh cfg up w0)))
                = _vm_workspace_time (self w0)).
  { intros w0. destruct (refresh_replaces_after_answer cfg up w0)
      as [-> | (n & h & l & now & _ & _ & _ & ->)]; split; reflexivity. }
  rewrite get_all_workspaces_run.
  destruct (_workspaces (self w)) as [ws |].
  - destruct (_workspaces_time (self w)) as [t |]; [| split; reflexivity].
    destruct (t =? 0); [split; reflexivity |].
    destruct (clock up (tick w) - t <=? WORKSPACE_CACHE_TTL); [split; reflexivity |].
    exact (R (after_clock w)).
  - exact (R w).
Qed.

(** X6. A fan-out that finds no workspace (the directory is empty, or its
    fetch failed with nothing cached) answers [{"error": "No workspaces
    found"}] and touches neither the routing map nor its time stamp. *)
Theorem fan_out_over_empty_directory (cfg : config) (up : upstream) (w : world) :
  fst (get_all_workspaces cfg up w) = Ret [] ->
  fst (fetch_vms_from_all_workspaces cfg up w) = Ret (error_payload "No workspaces found")
  /\ _vm_workspace (self (snd (fetch_vms_from_all_workspaces cfg up w)))
     = _vm_workspace (self w)
  /\ _vm_workspace_time (self (snd (fetch_vms_from_all_workspaces cfg up w)))
     = _vm_workspace_time (self w)
  /\ sent (snd (fetch_vms_from_all_workspaces cfg up w))
     = sent (snd (get_all_workspaces cfg up w)).
Proof.
  intros H. pose proof (get_all_workspaces_keeps_routing cfg up w) as [K1 K2].
  unfold fetch_vms_from_all_workspaces.
  match goal with |- context [bind _ ?k] => set (K := k) end.
  unfold bind. destruct (get_all_workspaces cfg up w) as [r w1]. cbn [fst snd] in *.
  subst r. subst K. cbv beta. cbn [ret fst snd].
  repeat split; assumption || reflexivity.
Qed.

Lemma fan_out_over_empty_directory_witness :
  fst (fetch_vms_from_all_workspaces cfg_account up_unreachable world_routing_only)
  = Ret (error_payload "No workspaces found")
  /\ _vm_workspace
       (self (snd (fetch_vms_from_all_workspaces cfg_account up_unreachable
                     world_routing_only)))
     = _vm_workspace (self world_routing_only)
  /\ _vm_workspace_time
       (self (snd (fetch_vms_from_all_workspaces cfg_account up_unreachable
                     world_routing_only)))
     = _vm_workspace_time (self world_routing_only)
  /\ sent (snd (fetch_vms_from_all_workspaces cfg_account up_unreachable world_routing_only))
     = sent (snd (get_all_workspaces cfg_account up_unreachable world_routing_only)).
Proof.
  apply (fan_out_over_empty_directory cfg_account up_unreachable world_routing_only).
  reflexivity.
Defined.

(* ================================================================== *)
(** ** The summaries, key by key *)

Lemma dict_lookup_set {V : Type} (k k' : string) (v : V) (d : list (string * V)) :
  dict_lookup k (dict_set k' v d)
  = if String.eqb k k' then Some v else dict_lookup k d.
Proof.
  induction d as [| [k0 v0] d IH]; cbn [dict_set dict_lookup].
  - destruct (String.eqb k k'); reflexivity.
  - destruct (String.eqb k' k0) eqn:E0; cbn [dict_lookup].
    + apply String.eqb_eq in E0. subst k0.
      destruct (String.eqb k k'); reflexivity.
    + destruct (String.eqb k k0) eqn:E1.
      * apply String.eqb_eq in E1. subst k0.
        rewrite String.eqb_sym in E0. rewrite E0. reflexivity.
      * exact IH.
Qed.

Lemma dict_lookup_count_in (k k' : string) (d : list (string * Z)) :
  dict_lookup k (count_in k' d)
  = if String.eqb k k' then option_map (fun n => n + 1) (dict_lookup k d)
    else dict_lookup k d.
Proof.
  unfold count_in. destruct (dict_lookup k' d) as [n |] eqn:E.
  - rewrite dict_lookup_set. destruct (String.eqb k k') eqn:Ek; [| reflexivity].
    apply String.eqb_eq in Ek. subst k'. rewrite E. reflexivity.
  - destruct (String.eqb k k') eqn:Ek; [| reflexivity].
    apply String.eqb_eq in Ek. subst k'. rewrite E. reflexivity.
Qed.

Lemma count_where_snoc (key : pyval -> res string) (k : string) (l : list pyval)
  (r : pyval) :
  count_where key k (l ++ [r])
  = count_where key k l + (if res_is k (key r) then 1 else 0).
Proof.
  unfold count_where. rewrite filter_app, length_app. cbn [filter].
  destruct (res_is k (key r)); cbn [List.length]; lia.
Qed.

Lemma tallied_snoc (key : pyval -> res string) (keys : list string)
  (counters : list (string * Z)) (records : list pyval) (r : pyval) (s : string) :
  key r = Ret s ->
  tallied key keys counters records ->
  tallied key keys (count_in s counters) (records ++ [r]).
Proof.
  intros Hr [Hk Hc]. split.
  - rewrite count_in_keys. exact Hk.
  - intros k Hin. rewrite dict_lookup_count_in, (Hc k Hin), count_where_snoc, Hr.
    cbn [res_is option_map]. rewrite (String.eqb_sym s k).
    destruct (String.eqb k s); [reflexivity | f_equal; lia].
Qed.

Section FanoutInduction.

Variable cfg : config.
Variable up : upstream.

(** A property of the locals of the fan-out that holds at the start and is
    kept by the recording of one VM holds of every inventory returned. *)
Variable P : locals -> Prop.

Hypothesis P_record :
  forall loc vm_detail hk sk,
    P loc ->
    normalized_health vm_detail = Ret hk ->
    normalized_status vm_detail = Ret sk ->
    P (mkLocals (vm_list loc ++ [vm_detail])%list
                (count_in hk (health_summary loc))
                (count_in sk (status_summary loc))).

Lemma process_pvm_keeps
  (workspace_id workspace_region workspace_url workspace_info : pyval)
  (loc loc' : locals) (pvm : pyval) (w w' : world) :
  P loc ->
  process_pvm workspace_id workspace_region workspace_url workspace_info loc pvm w
  = (Ret loc', w') ->
  P loc'.
Proof.
  intros HP H. unfold process_pvm in H.
  bind_lift H vm_detail Ed.
  bind_lift H vm_id Ei.
  bind_step H u w1 Eu.
  bind_lift H h Eh.
  bind_lift H hs Ehs.
  bind_lift H health_status Ehu.
  bind_lift H vs Evs.
  bind_lift H vm_status Evu.
  apply ret_inv in H. destruct H as [<- _].
  apply P_record; [exact HP | |].
  - unfold normalized_health. rewrite Eh. cbn [rbind]. rewrite Ehs. exact Ehu.
  - unfold normalized_status. rewrite Evs. exact Evu.
Qed.

Lemma process_workspace_keeps (loc loc' : locals) (ws : pyval) (w w' : world) :
  P loc ->
  process_workspace cfg up loc ws w = (Ret loc', w') ->
  P loc'.
Proof.
  intros Hc H. unfold process_workspace in H.
  bind_lift H workspace_id Ei.
  bind_lift H workspace_name En.
  bind_lift H workspace_region Er.
  bind_lift H workspace_url Eu.
  destruct (negb (truthy workspace_id)).
  { apply ret_inv in H. destruct H as [<- _]. exact Hc. }
  bind_step H fetched w1 Ef.
  cbv zeta in H.
  destruct (error_truthy (snd fetched)).
  { apply ret_inv in H. destruct H as [<- _]. exact Hc. }
  bind_lift H has Eh.
  destruct (negb has).
  { apply ret_inv in H. destruct H as [<- _]. exact Hc. }
  bind_lift H pvms Ep.
  bind_lift H items Ei'.
  refine (for_each_preserves P _ _ items loc _ loc' w' Hc H).
  intros s x w0 s' w0' Hs Hb. exact (process_pvm_keeps _ _ _ _ _ _ _ _ _ Hs Hb).
Qed.

Lemma fan_out_induction (w w' : world) (d : pyval) :
  P (mkLocals [] health_summary0 status_summary0) ->
  fetch_vms_from_all_workspaces cfg up w = (Ret d, w') ->
  d = error_payload "No workspaces found"
  \/ exists wss loc, d = inventory_result wss loc /\ P loc.
Proof.
  intros P0 H. unfold fetch_vms_from_all_workspaces in H.
  bind_step H wss w1 Ew.
  destruct wss as [| ws0 wss0].
  { apply ret_inv in H. destruct H as [<- _]. left. reflexivity. }
  right.
  bind_step H c w2 Ec.
  bind_step H u w3 Eu.
  bind_step H loc w4 El.
  bind_step H now w5 En.
  bind_step H c' w6 Ec'.
  bind_step H u' w7 Eu'.
  apply ret_inv in H. destruct H as [<- _].
  exists (ws0 :: wss0), loc. split; [reflexivity |].
  refine (for_each_preserves P _ _ (ws0 :: wss0) _ _ loc w4 P0 El).
  intros s x w0 s' w0' Hs Hb. exact (process_workspace_keeps _ _ _ _ _ Hs Hb).
Qed.

End FanoutInduction.

Lemma both_tallied_record (loc : locals) (vm_detail : pyval) (hk sk : string) :
  both_tallied loc ->
  normalized_health vm_detail = Ret hk ->
  normalized_status vm_detail = Ret sk ->
  both_tallied (mkLocals (vm_list loc ++ [vm_detail])%list
                         (count_in hk (health_summary loc))
                         (count_in sk (status_summary loc))).
Proof.
  intros [Hh Hs] Eh Es. split; cbn [health_summary status_summary vm_list];
    apply tallied_snoc; assumption.
Qed.

Lemma both_tallied_start : both_tallied (mkLocals [] health_summary0 status_summary0).
Proof.
  split; split; try reflexivity;
    intros k Hin; cbn in Hin;
    repeat (destruct Hin as [<- | Hin]; [reflexivity |]); contradiction.
Qed.

Lemma counters_py_lookup (k : string) (d : list (string * Z)) :
  py_subscript (counters_py d) k
  = match dict_lookup k d with
    | Some n => Ret (PInt n)
    | None => Raise (key_error k)
    end.
Proof.
  unfold counters_py. cbn [py_subscript].
  induction d as [| [k0 v0] d IH]; cbn [map dict_lookup fst snd]; [reflexivity |].
  destruct (String.eqb k k0); [reflexivity | exact IH].
Qed.

(** X7. Whenever the fan-out returns an inventory, each counter of
    [health_summary] is the number of records of [vms] whose normalised
    health status is its key, and each counter of [status_summary] is the
    number of records whose normalised power status is its key. *)
Theorem summaries_count_the_records
  (cfg : config) (up : upstream) (w : world) (d : pyval) (vms : list pyval) :
  fst (fetch_vms_from_all_workspaces cfg up w) = Ret d ->
  py_subscript d "vms" = Ret (PList vms) ->
  (forall k, In k ["OK"; "CRITICAL"; "WARNING"; "ATTENTION"] ->
     (h <~ py_subscript d "health_summary" ;; py_subscript h k)
     = Ret (PInt (count_where normalized_health k vms)))
  /\ (forall k, In k ["ACTIVE"; "ERROR"; "SHUTOFF"] ->
        (s <~ py_subscript d "status_summary" ;; py_subscript s k)
        = Ret (PInt (count_where normalized_status k vms))).
Proof.
  intros H Hv.
  destruct (fetch_vms_from_all_workspaces cfg up w) as [r w'] eqn:E.
  cbn [fst] in H. subst r.
  destruct (fan_out_induction cfg up both_tallied both_tallied_record w w' d
              both_tallied_start E)
    as [-> | (wss & loc & -> & [_ Hh] & [_ Hs])].
  - discriminate.
  - cbn in Hv. inversion Hv; subst vms.
    split; intros k Hin.
    + change (py_subscript (inventory_result wss loc) "health_summary")
        with (@Ret pyval (counters_py (health_summary loc))).
      cbn [rbind]. rewrite counters_py_lookup, (Hh k Hin). reflexivity.
    + change (py_subscript (inventory_result wss loc) "status_summary")
        with (@Ret pyval (counters_py (status_summary loc))).
      cbn [rbind]. rewrite counters_py_lookup, (Hs k Hin). reflexivity.
Qed.

Lemma summaries_count_the_records_witness :
  (forall k, In k ["OK"; "CRITICAL"; "WARNING"; "ATTENTION"] ->
     (h <~ py_subscript inventory_three "health_summary" ;; py_subscript h k)
     = Ret (PInt (count_where normalized_health k
                    [vm_record workspace_dal10 raw_vm1;
                     vm_record workspace_dal13 raw_vm3;
                     vm_record workspace_dal13 raw_vm4])))
  /\ (forall k, In k ["ACTIVE"; "ERROR"; "SHUTOFF"] ->
        (s <~ py_subscript inventory_three "status_summary" ;; py_subscript s k)
        = Ret (PInt (count_where normalized_status k
                       [vm_record workspace_dal10 raw_vm1;
                        vm_record workspace_dal13 raw_vm3;
                        vm_record workspace_dal13 raw_vm4]))).
Proof.
  apply (summaries_count_the_records cfg_account up_three world_three).
  - vm_compute. reflexivity.
  - reflexivity.
Defined.

(* ================================================================== *)
(** ** The health filter, record by record *)

Lemma keep_if_health_run (health_status : string) (acc : list pyval) (vm : pyval)
  (w : world) :
  keep_if_health health_status acc vm w
  = (u <~ filter_health vm ;;
     Ret (if String.eqb u (upper health_status) then (acc ++ [vm])%list else acc),
     w).
Proof.
  unfold keep_if_health, filter_health, bind, lift.
  destruct (py_get vm "health" (PDict [("status", PStr "UNKNOWN")])) as [hd | e];
    cbn [rbind]; [| reflexivity].
  assert (G : forall r : res pyval,
             match r with
             | Ret a =>
                 match lift (py_upper a) w with
                 | (Ret a0, w') =>
                     (if String.eqb a0 (upper health_status)
                      then ret (acc ++ [vm])%list else ret acc) w'
                 | (Raise e, w') => (Raise e, w')
                 end
             | Raise e => (Raise e, w)
             end
             = (vm_health <~ r ;; u <~ py_upper vm_health ;;
                Ret (if String.eqb u (upper health_status)
                     then (acc ++ [vm])%list else acc), w)).
  { intros [a | e]; cbn [rbind]; [| reflexivity]. unfold lift.
    destruct (py_upper a) as [u | e]; cbn [rbind]; [| reflexivity].
    destruct (String.eqb u (upper health_status)); reflexivity. }
  destruct hd; cbn [ret]; try exact (G (Ret (PStr "UNKNOWN"))).
  exact (G (py_get (PDict d) "status" (PStr "UNKNOWN"))).
Qed.

(** The filter loop over records whose health can be read keeps, in order,
    the records whose health is the requested one. *)
Lemma for_each_keep_if_health (health_status : string) (l : list pyval) :
  forall (acc : list pyval) (w : world),
  Forall (fun r => exists k, filter_health r = Ret k) l ->
  for_each l (keep_if_health health_status) acc w
  = (Ret (acc ++ filter (fun r => res_is (upper health_status) (filter_health r)) l)%list,
     w).
Proof.
  induction l as [| r l IH]; intros acc w H; cbn [for_each filter].
  - unfold ret. rewrite app_nil_r. reflexivity.
  - inversion H as [| x l0 [k Hk] Hl]; subst.
    unfold bind at 1. rewrite keep_if_health_run, Hk. cbn [rbind res_is].
    rewrite (IH _ w Hl).
    destruct (String.eqb k (upper health_status)).
    + rewrite <- app_assoc. reflexivity.
    + reflexivity.
Qed.

(** A record whose health the fan-out could normalise reads the same in the
    filter. *)
Lemma filter_health_of_normalized (r : pyval) (k : string) :
  normalized_health r = Ret k -> filter_health r = Ret k.
Proof.
  unfold normalized_health, filter_health.
  destruct r as [| | | | | d]; try discriminate. cbn [py_get rbind].
  destruct (dict_lookup "health" d) as [h |]; cbn [rbind].
  - destruct h; try discriminate. intros H. exact H.
  - intros H. exact H.
Qed.

(** X8. The filter compares without regard to case: two requested
    statuses with the same upper-case form give the same run, result and
    final world alike. *)
Theorem filter_ignores_case
  (cfg : config) (up : upstream) (s1 s2 : string) (w : world) :
  upper s1 = upper s2 ->
  fetch_vms_by_health_status cfg up s1 w = fetch_vms_by_health_status cfg up s2 w.
Proof.
  intros H. unfold fetch_vms_by_health_status, keep_if_health. rewrite H. reflexivity.
Qed.

Lemma filter_ignores_case_witness :
  fetch_vms_by_health_status cfg_account up_three "critical" world_three
  = fetch_vms_by_health_status cfg_account up_three "CRITICAL" world_three.
Proof.
  apply (filter_ignores_case cfg_account up_three "critical" "CRITICAL" world_three).
  reflexivity.
Defined.

Lemma fetch_vms_by_health_status_Ret
  (cfg : config) (up : upstream) (health_status : string) (w w' : world) (d : pyval) :
  fetch_vms_by_health_status cfg up health_status w = (Ret d, w') ->
  d = error_payload "Failed to get headers"
  \/ exists kept,
       d = filter_result kept
       /\ Forall (fun r => filter_health r = Ret (upper health_status)) kept.
Proof.
  intros H. unfold fetch_vms_by_health_status in H.
  bind_step H got w1 Eg.
  destruct got as [early | all_vms].
  { apply ret_inv in H. destruct H as [<- _].
    destruct (single_workspace cfg); [| bind_step Eg x w2 E1; bind_lift Eg y E2;
                                        apply ret_inv in Eg; destruct Eg; discriminate].
    bind_step Eg hdrs w2 E1. destruct hdrs as [h |].
    - bind_step Eg x w3 E2. apply ret_inv in Eg. destruct Eg; discriminate.
    - apply ret_inv in Eg. destruct Eg as [Eg _]. inversion Eg. left. reflexivity. }
  right.
  bind_lift H items Ei.
  bind_step H kept w2 Ek.
  apply ret_inv in H. destruct H as [<- _].
  exists kept. split; [reflexivity |].
  refine (for_each_preserves
            (fun acc => Forall (fun r => filter_health r = Ret (upper health_status)) acc)
            _ _ items [] w1 kept w2 (Forall_nil _) Ek).
  intros acc vm w0 acc' w0' Hacc Hb.
  rewrite keep_if_health_run in Hb.
  destruct (filter_health vm) as [u |] eqn:Eu; cbn [rbind] in Hb; [| discriminate].
  destruct (String.eqb u (upper health_status)) eqn:Euu; inversion Hb; subst.
  - apply Forall_app. split; [exact Hacc |]. constructor; [| constructor].
    apply String.eqb_eq in Euu. subst u. exact Eu.
  - exact Hacc.
Qed.

(** X9. Whatever the mode and the upstream, when the filter returns a list
    of VMs, every one of them has the requested health status (read with
    [UNKNOWN] for a missing or malformed health), and [total_vms] is the
    length of the list. *)
Theorem filter_returns_only_matches
  (cfg : config) (up : upstream) (health_status : string) (w : world)
  (d : pyval) (kept : list pyval) :
  fst (fetch_vms_by_health_status cfg up health_status w) = Ret d ->
  py_subscript d "vms" = Ret (PList kept) ->
  Forall (fun r => filter_health r = Ret (upper health_status)) kept
  /\ py_subscript d "total_vms" = Ret (PInt (Z.of_nat (List.length kept))).
Proof.
  intros H Hv.
  destruct (fetch_vms_by_health_status cfg up health_status w) as [r w'] eqn:E.
  cbn [fst] in H. subst r.
  destruct (fetch_vms_by_health_status_Ret cfg up health_status w w' d E)
    as [-> | (k & -> & Hk)].
  - discriminate.
  - cbn in Hv. inversion Hv; subst. split; [exact Hk | reflexivity].
Qed.

Lemma filter_returns_only_matches_witness :
  Forall (fun r => filter_health r = Ret (upper "critical"))
    [vm_record workspace_dal13 raw_vm3]
  /\ py_subscript (filter_result [vm_record workspace_dal13 raw_vm3]) "total_vms"
     = Ret (PInt (Z.of_nat (List.length [vm_record workspace_dal13 raw_vm3]))).
Proof.
  apply (filter_returns_only_matches cfg_account up_three "critical" world_three).
  - vm_compute. reflexivity.
  - reflexivity.
Defined.

Lemma tallied_and_normalized_record (loc : locals) (vm_detail : pyval) (hk sk : string) :
  both_tallied loc /\ all_normalized loc ->
  normalized_health vm_detail = Ret hk ->
  normalized_status vm_detail = Ret sk ->
  both_tallied (mkLocals (vm_list loc ++ [vm_detail])%list
                         (count_in hk (health_summary loc))
                         (count_in sk (status_summary loc)))
  /\ all_normalized (mkLocals (vm_list loc ++ [vm_detail])%list
                              (count_in hk (health_summary loc))
                              (count_in sk (status_summary loc))).
Proof.
  intros [Ht Hn] Eh Es. split.
  - apply both_tallied_record; assumption.
  - unfold all_normalized. cbn [vm_list]. apply Forall_app. split; [exact Hn |].
    constructor; [exists hk; exact Eh | constructor].
Qed.

(** X10. In account-wide mode the filter is the fan-out followed by a
    selection.  When the fan-out answers with its error payload, the filter
    answers with an empty result, not with the error.  When the fan-out
    returns an inventory, the filter returns, in order, the records of
    [vms] whose normalised health status is the requested one, leaves the
    same world, and for a requested status that is a key of
    [health_summary] its [total_vms] is that counter. *)
Theorem filter_agrees_with_fan_out
  (cfg : config) (up : upstream) (health_status : string) (w w' : world) (d : pyval) :
  single_workspace cfg = false ->
  fetch_vms_from_all_workspaces cfg up w = (Ret d, w') ->
  (d = error_payload "No workspaces found" ->
   fetch_vms_by_health_status cfg up health_status w = (Ret (filter_result []), w'))
  /\ (forall vms,
        py_subscript d "vms" = Ret (PList vms) ->
        fetch_vms_by_health_status cfg up health_status w
        = (Ret (filter_result
                  (filter (fun r => res_is (upper health_status) (normalized_health r))
                     vms)), w')
        /\ (In (upper health_status) ["OK"; "CRITICAL"; "WARNING"; "ATTENTION"] ->
            (h <~ py_subscript d "health_summary" ;; py_subscript h (upper health_status))
            = py_subscript
                (filter_result
                   (filter (fun r => res_is (upper health_status) (normalized_health r))
                      vms)) "total_vms")).
Proof.
  intros Hs E.
  assert (U : fetch_vms_by_health_status cfg up health_status w
              = (items <- lift (all_vms <~ py_get d "vms" (PList []) ;; py_iter all_vms) ;;
                 filtered_vms <- for_each items (keep_if_health health_status) [] ;;
                 ret (filter_result filtered_vms)) w').
  { unfold fetch_vms_by_health_status. rewrite Hs.
    unfold bind at 1. unfold bind at 1. rewrite E.
    unfold bind at 1. unfold lift at 1.
    unfold bind at 2. unfold lift at 2.
    destruct (py_get d "vms" (PList [])) as [all_vms | e]; cbn [rbind ret]; [| reflexivity].
    unfold bind at 1. unfold lift at 1. reflexivity. }
  split.
  - intros ->. rewrite U. reflexivity.
  - intros vms Hv.
    destruct (fan_out_induction cfg up (fun loc => both_tallied loc /\ all_normalized loc)
                tallied_and_normalized_record w w' d
                (conj both_tallied_start (Forall_nil _)) E)
      as [-> | (wss & loc & -> & [[_ Hh] _] & Hn)]; [discriminate |].
    cbn in Hv. inversion Hv; subst vms. unfold all_normalized in Hn.
    assert (F : Forall (fun r => exists k, filter_health r = Ret k) (vm_list loc)).
    { refine (Forall_impl _ _ Hn). intros r [k Hk]. exists k.
      apply filter_health_of_normalized. exact Hk. }
    assert (S : filter (fun r => res_is (upper health_status) (filter_health r)) (vm_list loc)
                = filter (fun r => res_is (upper health_status) (normalized_health r))
                    (vm_list loc)).
    { apply filter_ext_in. intros r Hr.
      rewrite Forall_forall in Hn. destruct (Hn r Hr) as [k Hk].
      rewrite (filter_health_of_normalized r k Hk), Hk. reflexivity. }
    split.
    + rewrite U. cbn [inventory_result py_get dict_lookup String.eqb Ascii.eqb Bool.eqb
                      rbind py_iter].
      unfold bind at 1. unfold lift at 1.
      unfold bind at 1. rewrite (for_each_keep_if_health health_status _ [] w' F).
      cbn [app]. rewrite S. reflexivity.
    + intros Hin.
      change (py_subscript (inventory_result wss loc) "health_summary")
        with (@Ret pyval (counters_py (health_summary loc))).
      cbn [rbind]. rewrite counters_py_lookup, (Hh _ Hin). reflexivity.
Qed.

Lemma filter_agrees_with_fan_out_witness :
  (inventory_three = error_payload "No workspaces found" ->
   fetch_vms_by_health_status cfg_account up_three "critical" world_three
   = (Ret (filter_result []),
      snd (fetch_vms_from_all_workspaces cfg_account up_three world_three)))
  /\ (forall vms,
        py_subscript inventory_three "vms" = Ret (PList vms) ->
        fetch_vms_by_health_status cfg_account up_three "critical" world_three
        = (Ret (filter_result
                  (filter (fun r => res_is (upper "critical") (normalized_health r)) vms)),
           snd (fetch_vms_from_all_workspaces cfg_account up_three world_three))
        /\ (In (upper "critical") ["OK"; "CRITICAL"; "WARNING"; "ATTENTION"] ->
            (h <~ py_subscript inventory_three "health_summary" ;;
             py_subscript h (upper "critical"))
            = py_subscript
                (filter_result
                   (filter (fun r => res_is (upper "critical") (normalized_health r)) vms))
                "total_vms")).
Proof.
  apply (filter_agrees_with_fan_out cfg_account up_three "critical" world_three).
  - reflexivity.
  - vm_compute. reflexivity.
Defined.

(* ================================================================== *)
(** ** The listing of the static workspace *)

Lemma for_each_append_vm_detail (items : list pyval) (acc : list pyval) (w : world) :
  for_each items append_vm_detail acc w
  = (collect (fun pvm => _build_vm_detail pvm PNone) items acc, w).
Proof. unfold append_vm_detail. apply for_each_collect. Qed.

Lemma static_try_run (up : upstream) (cfg : config) (h : headers) (w : world) :
  (response <- requests_get up (static_pvm_instances_url cfg) h 120 ;;
   responses <- lift (response_json response) ;;
   pvms <- lift (py_subscript responses "pvmInstances") ;;
   items <- lift (py_iter pvms) ;;
   vms <- for_each items append_vm_detail [] ;;
   ret (PList vms)) w
  = (l <~ static_listing_of
            (respond up (tick w) (GET (static_pvm_instances_url cfg) h 120)) ;;
     Ret (PList l),
     after_call (GET (static_pvm_instances_url cfg) h 120) w).
Proof.
  unfold requests_get. unfold bind at 1. unfold bind at 1. unfold http at 1.
  fold (after_call (GET (static_pvm_instances_url cfg) h 120) w).
  destruct (respond up (tick w) (GET (static_pvm_instances_url cfg) h 120))
    as [msg | status b]; [reflexivity |].
  cbn [deliver static_listing_of]. unfold ret at 1.
  unfold bind at 1. unfold lift at 1.
  destruct (response_json (status, b)) as [responses | e]; cbn [rbind]; [| reflexivity].
  unfold bind at 1. unfold lift at 1.
  destruct (py_subscript responses "pvmInstances") as [pvms | e]; cbn [rbind];
    [| reflexivity].
  unfold bind at 1. unfold lift at 1.
  destruct (py_iter pvms) as [items | e]; cbn [rbind]; [| reflexivity].
  unfold bind at 1. rewrite for_each_append_vm_detail.
  destruct (collect _ items []) as [l | e]; reflexivity.
Qed.

Lemma for_each_keep_if_health_world (health_status : string) (l : list pyval) :
  forall (acc : list pyval) (w : world),
  snd (for_each l (keep_if_health health_status) acc w) = w.
Proof.
  induction l as [| r l IH]; intros acc w; cbn [for_each]; [reflexivity |].
  unfold bind. rewrite keep_if_health_run.
  destruct (filter_health r) as [u |]; cbn [rbind]; [apply IH | reflexivity].
Qed.

Section StaticListing.

Variable cfg : config.
Variable up : upstream.

Lemma fetch_vms_from_specific_workspace_run (w : world) (v : pyval) :
  token_of (respond up (tick w) (token_request cfg)) = Ret (TokVal v) ->
  truthy v = true ->
  exists h,
    headers_of (TokVal v) (Some [FLit (crn cfg)]) = Some h
    /\ fetch_vms_from_specific_workspace cfg up w
       = (match static_listing_of
                  (respond up (S (tick w)) (GET (static_pvm_instances_url cfg) h 120)) with
          | Ret l => Ret (PList l)
          | Raise e =>
              if is_RequestException e || is_ValueError e then Ret (PList [])
              else Raise e
          end,
          after_call (GET (static_pvm_instances_url cfg) h 120)
            (after_call (token_request cfg) w)).
Proof.
  intros Ht Tv.
  assert (Hh : exists h, headers_of (TokVal v) (Some [FLit (crn cfg)]) = Some h).
  { unfold headers_of. cbn [token_truthy]. rewrite Tv. cbn [negb].
    destruct (fstring_truthy [FLit (crn cfg)]); eexists; reflexivity. }
  destruct Hh as [h Hh]. exists h. split; [exact Hh |].
  unfold fetch_vms_from_specific_workspace. unfold bind at 1.
  rewrite _get_headers_run, Ht. cbn [rbind]. rewrite Hh.
  unfold try_except. rewrite static_try_run. cbn [tick after_call].
  destruct (static_listing_of _) as [l | e]; cbn [rbind]; [reflexivity |].
  destruct (is_RequestException e || is_ValueError e); reflexivity.
Qed.

Lemma single_filter_run (health_status : string) (w : world) (v : pyval) :
  single_workspace cfg = true ->
  token_of (respond up (tick w) (token_request cfg)) = Ret (TokVal v) ->
  truthy v = true ->
  exists h,
    headers_of (TokVal v) (Some [FLit (crn cfg)]) = Some h
    /\ fetch_vms_by_health_status cfg up health_status w
       = (filtered_vms <-
            for_each
              (match static_listing_of
                       (respond up (S (tick w))
                          (GET (static_pvm_instances_url cfg) h 120)) with
               | Ret l => l
               | Raise _ => []
               end)
              (keep_if_health health_status) [] ;;
          ret (filter_result filtered_vms))
           (after_call (GET (static_pvm_instances_url cfg) h 120)
              (after_call (token_request cfg) w)).
Proof.
  intros Hs Ht Tv.
  assert (Hh : exists h, headers_of (TokVal v) (Some [FLit (crn cfg)]) = Some h).
  { unfold headers_of. cbn [token_truthy]. rewrite Tv. cbn [negb].
    destruct (fstring_truthy [FLit (crn cfg)]); eexists; reflexivity. }
  destruct Hh as [h Hh]. exists h. split; [exact Hh |].
  unfold fetch_vms_by_health_status. rewrite Hs.
  unfold bind at 1. unfold bind at 1.
  rewrite _get_headers_run, Ht. cbn [rbind]. rewrite Hh.
  unfold bind at 1. unfold try_except. rewrite static_try_run. cbn [tick after_call].
  destruct (static_listing_of _) as [l | e]; cbn [rbind is_Exception ret];
    unfold bind at 1; unfold lift at 1; reflexivity.
Qed.

End StaticListing.

Lemma _build_vm_detail_bare (pvm : pyval) :
  is_dict pvm = true -> _build_vm_detail pvm PNone = Ret (bare_record pvm).
Proof. destruct pvm; try discriminate. intros _. reflexivity. Qed.

Lemma _build_vm_detail_not_dict (pvm info : pyval) :
  is_dict pvm = false -> _build_vm_detail pvm info = Raise (attribute_error pvm "get").
Proof. destruct pvm; try discriminate; intros _; reflexivity. Qed.

Lemma collect_bare (items : list pyval) :
  forall acc,
  forallb is_dict items = true ->
  collect (fun pvm => _build_vm_detail pvm PNone) items acc
  = Ret (acc ++ map bare_record items)%list.
Proof.
  induction items as [| x items IH]; intros acc H; cbn [collect map].
  - rewrite app_nil_r. reflexivity.
  - cbn [forallb] in H. apply andb_prop in H. destruct H as [Hx H].
    rewrite (_build_vm_detail_bare x Hx). cbn [rbind].
    rewrite (IH _ H), <- app_assoc. reflexivity.
Qed.

Lemma collect_not_dict (items : list pyval) :
  forall acc,
  forallb is_dict items = false ->
  exists e, collect (fun pvm => _build_vm_detail pvm PNone) items acc = Raise e
            /\ exn_cls e = AttributeError.
Proof.
  induction items as [| x items IH]; intros acc H; cbn [collect forallb] in *.
  - discriminate.
  - destruct (is_dict x) eqn:Hx.
    + rewrite (_build_vm_detail_bare x Hx). cbn [rbind]. apply IH. exact H.
    + rewrite (_build_vm_detail_not_dict x PNone Hx). eexists. split; reflexivity.
Qed.

(** X11. Failures of the listing of the static workspace (single-workspace
    mode, token granted).  A transport error or an undecodable body makes
    [get_all_vms] return the empty list and the filter an empty result.  A
    JSON object without [pvmInstances] makes [get_all_vms] raise [KeyError],
    which its handlers do not catch, while the filter still answers with an
    empty result.  Neither operation writes to the client. *)
Theorem static_listing_failures
  (cfg : config) (up : upstream) (health_status : string) (w : world) (o : outcome) :
  single_workspace cfg = true ->
  token_granted (respond up (tick w) (token_request cfg)) = true ->
  (forall h, respond up (S (tick w)) (GET (static_pvm_instances_url cfg) h 120) = o) ->
  ((exists msg, o = Transport msg)
   \/ (exists status msg, o = Response status (BodyUndecodable msg)) ->
   fst (get_all_vms cfg up w) = Ret (PList [])
   /\ fst (fetch_vms_by_health_status cfg up health_status w) = Ret (filter_result []))
  /\ (forall status d,
        o = Response status (BodyJson (PDict d)) ->
        dict_lookup "pvmInstances" d = None ->
        fst (get_all_vms cfg up w) = Raise (key_error "pvmInstances")
        /\ fst (fetch_vms_by_health_status cfg up health_status w)
           = Ret (filter_result []))
  /\ self (snd (get_all_vms cfg up w)) = self w
  /\ self (snd (fetch_vms_by_health_status cfg up health_status w)) = self w.
Proof.
  intros Hs Htok Ho.
  destruct (token_granted_of _ Htok) as [v [Hv Tv]].
  destruct (fetch_vms_from_specific_workspace_run cfg up w v Hv Tv) as [h [_ R1]].
  destruct (single_filter_run cfg up health_status w v Hs Hv Tv) as [h' [_ R2]].
  unfold get_all_vms. rewrite Hs, R1, R2, !Ho. clear R1 R2.
  split; [| split; [| split]].
  - intros [[msg ->] | [status [msg ->]]]; split; reflexivity.
  - intros status d -> Hd. cbn [static_listing_of response_json snd rbind py_subscript].
    rewrite Hd. split; reflexivity.
  - reflexivity.
  - unfold bind.
    match goal with
    | |- context [for_each ?l ?f ?a ?x] =>
        pose proof (for_each_keep_if_health_world health_status l a x) as K;
        destruct (for_each l f a x) as [[kept | e] w2]
    end; cbn [snd] in K; subst w2; reflexivity.
Qed.

Lemma static_listing_failures_witness :
  ((exists msg, Transport "Connection refused" = Transport msg)
   \/ (exists status msg,
         Transport "Connection refused" = Response status (BodyUndecodable msg)) ->
   fst (get_all_vms cfg_static up_unreachable init_world) = Ret (PList [])
   /\ fst (fetch_vms_by_health_status cfg_static up_unreachable "OK" init_world)
      = Ret (filter_result []))
  /\ (forall status d,
        Transport "Connection refused" = Response status (BodyJson (PDict d)) ->
        dict_lookup "pvmInstances" d = None ->
        fst (get_all_vms cfg_static up_unreachable init_world)
        = Raise (key_error "pvmInstances")
        /\ fst (fetch_vms_by_health_status cfg_static up_unreachable "OK" init_world)
           = Ret (filter_result []))
  /\ self (snd (get_all_vms cfg_static up_unreachable init_world)) = self init_world
  /\ self (snd (fetch_vms_by_health_status cfg_static up_unreachable "OK" init_world))
     = self init_world.
Proof.
  apply (static_listing_failures cfg_static up_unreachable "OK" init_world
           (Transport "Connection refused")).
  - reflexivity.
  - reflexivity.
  - intros h. reflexivity.
Defined.

(** X12. A listing of the static workspace that arrives (single-workspace
    mode, token granted, any status code).  When [pvmInstances] is a list of
    objects, [get_all_vms] returns one record per raw VM, in order, with
    [None] for a missing name, identifier, type or status, [{"status":
    "UNKNOWN"}] for a missing health and the empty string for a missing CRN.
    When one item is no object, [get_all_vms] raises [AttributeError] and
    the filter answers with an empty result. *)
Theorem static_listing_content
  (cfg : config) (up : upstream) (health_status : string) (w : world)
  (status : Z) (d : list (string * pyval)) (pvms : list pyval) :
  single_workspace cfg = true ->
  token_granted (respond up (tick w) (token_request cfg)) = true ->
  (forall h, respond up (S (tick w)) (GET (static_pvm_instances_url cfg) h 120)
             = Response status (BodyJson (PDict d))) ->
  dict_lookup "pvmInstances" d = Some (PList pvms) ->
  (forallb is_dict pvms = true ->
   fst (get_all_vms cfg up w) = Ret (PList (map bare_record pvms)))
  /\ (forallb is_dict pvms = false ->
      (exists e, fst (get_all_vms cfg up w) = Raise e /\ exn_cls e = AttributeError)
      /\ fst (fetch_vms_by_health_status cfg up health_status w) = Ret (filter_result [])).
Proof.
  intros Hs Htok Ho Hd.
  destruct (token_granted_of _ Htok) as [v [Hv Tv]].
  destruct (fetch_vms_from_specific_workspace_run cfg up w v Hv Tv) as [h [_ R1]].
  destruct (single_filter_run cfg up health_status w v Hs Hv Tv) as [h' [_ R2]].
  unfold get_all_vms. rewrite Hs, R1, R2, !Ho. clear R1 R2.
  cbn [static_listing_of response_json snd rbind py_subscript]. rewrite Hd.
  cbn [rbind py_iter].
  split; intros Hwf.
  - rewrite (collect_bare pvms [] Hwf). reflexivity.
  - destruct (collect_not_dict pvms [] Hwf) as [e [-> He]]. split.
    + exists e. unfold is_RequestException, is_ValueError. rewrite He.
      split; reflexivity.
    + reflexivity.
Qed.

Lemma static_listing_content_witness :
  (forallb is_dict [raw_vm1] = true ->
   fst (get_all_vms cfg_static up_inventory init_world)
   = Ret (PList (map bare_record [raw_vm1])))
  /\ (forallb is_dict [raw_vm1] = false ->
      (exists e, fst (get_all_vms cfg_static up_inventory init_world) = Raise e
                 /\ exn_cls e = AttributeError)
      /\ fst (fetch_vms_by_health_status cfg_static up_inventory "OK" init_world)
         = Ret (filter_result [])).
Proof.
  apply (static_listing_content cfg_static up_inventory "OK" init_world 200
           [("pvmInstances", PList [raw_vm1])]).
  - reflexivity.
  - reflexivity.
  - intros h. reflexivity.
  - reflexivity.
Defined.

(* ================================================================== *)
(** ** The routing map a fan-out leaves *)

Lemma key_eqb_str (v : string) (k : pyval) :
  key_eqb (PStr v) k = true -> k = PStr v.
Proof.
  destruct k; cbn [key_eqb]; try discriminate.
  intros H. apply String.eqb_eq in H. subst. reflexivity.
Qed.

Lemma key_eqb_str_r (v : string) (k : pyval) :
  key_eqb k (PStr v) = true -> k = PStr v.
Proof.
  destruct k; cbn [key_eqb]; try discriminate.
  intros H. apply String.eqb_eq in H. subst. reflexivity.
Qed.

(** Lookup after assignment, for a string key. *)
Lemma route_lookup_set_str (v : string) (k e : pyval) (m : list (pyval * pyval)) :
  route_lookup (PStr v) (route_set k e m)
  = if key_eqb (PStr v) k then Some e else route_lookup (PStr v) m.
Proof.
  induction m as [| [k0 e0] m IH]; cbn [route_set route_lookup].
  - destruct (key_eqb (PStr v) k); reflexivity.
  - destruct (key_eqb k k0) eqn:E0; cbn [route_lookup].
    + destruct (key_eqb (PStr v) k) eqn:E1.
      * apply key_eqb_str in E1. subst k. rewrite E0. reflexivity.
      * destruct (key_eqb (PStr v) k0) eqn:E2; [| reflexivity].
        apply key_eqb_str in E2. subst k0. apply key_eqb_str_r in E0. subst k.
        cbn [key_eqb] in E1. rewrite String.eqb_refl in E1. discriminate.
    + destruct (key_eqb (PStr v) k0) eqn:E2.
      * destruct (key_eqb (PStr v) k) eqn:E1; [| reflexivity].
        apply key_eqb_str in E1. apply key_eqb_str in E2. subst. 
        cbn [key_eqb] in E0. rewrite String.eqb_refl in E0. discriminate.
      * exact IH.
Qed.

Lemma for_each_preserves_world {A S : Type} (P : S -> world -> Prop)
  (body : S -> A -> M S) :
  (forall s x w s' w', P s w -> body s x w = (Ret s', w') -> P s' w') ->
  forall l s w s' w', P s w -> for_each l body s w = (Ret s', w') -> P s' w'.
Proof.
  intros Hbody. induction l as [| x l IH]; intros s w s' w' Hs H.
  - apply ret_inv in H. destruct H as [<- ->]. exact Hs.
  - cbn [for_each] in H. bind_step H s1 w1 E1.
    apply (IH s1 w1 s' w'); [| exact H].
    apply (Hbody s x w s1 w1 Hs E1).
Qed.

(** One completed turn of the inner loop, with what it does to the world. *)
Lemma process_pvm_world
  (workspace_id workspace_region workspace_url workspace_info : pyval)
  (loc loc' : locals) (pvm : pyval) (w w' : world) :
  process_pvm workspace_id workspace_region workspace_url workspace_info loc pvm w
  = (Ret loc', w') ->
  exists vm_detail vm_id,
    _build_vm_detail pvm workspace_info = Ret vm_detail
    /\ py_get vm_detail "vmID" PNone = Ret vm_id
    /\ vm_list loc' = (vm_list loc ++ [vm_detail])%list
    /\ w' = if truthy vm_id
            then with_routing
                   (route_set vm_id
                      (PDict [("workspace_id", workspace_id);
                              ("region", workspace_region);
                              ("url", workspace_url)])
                      (_vm_workspace (self w))) w
            else w.
Proof.
  intros H. unfold process_pvm in H.
  bind_lift H vm_detail Ed.
  bind_lift H vm_id Ei.
  bind_step H u w1 Eu.
  bind_lift H h Eh.
  bind_lift H hs Ehs.
  bind_lift H health_status Ehu.
  bind_lift H vs Evs.
  bind_lift H vm_status Evu.
  apply ret_inv in H. destruct H as [<- ->].
  exists vm_detail, vm_id. split; [exact Ed |]. split; [exact Ei |].
  split; [reflexivity |].
  destruct (truthy vm_id).
  - bind_step Eu c w2 Ec. unfold get_self in Ec. inversion Ec; subst c w2.
    bind_lift Eu m Em.
    unfold put_self in Eu. inversion Eu; subst.
    unfold route_assign in Em. destruct (hashable vm_id); inversion Em; subst.
    reflexivity.
  - apply ret_inv in Eu. destruct Eu as [_ ->]. reflexivity.
Qed.

Lemma _build_vm_detail_region (pvm name region vm_detail : pyval) :
  _build_vm_detail pvm (PDict [("name", name); ("region", region)]) = Ret vm_detail ->
  py_get vm_detail "workspaceRegion" PNone = Ret region.
Proof.
  destruct pvm; try discriminate. cbn. intros H. inversion H. reflexivity.
Qed.

Lemma routes_records_step
  (workspace_id name region url : pyval) (m : list (pyval * pyval))
  (records : list pyval) (pvm vm_detail vm_id : pyval) :
  truthy workspace_id = true ->
  _build_vm_detail pvm (PDict [("name", name); ("region", region)]) = Ret vm_detail ->
  py_get vm_detail "vmID" PNone = Ret vm_id ->
  routes_records m records ->
  routes_records
    (if truthy vm_id
     then route_set vm_id
            (PDict [("workspace_id", workspace_id); ("region", region); ("url", url)]) m
     else m)
    (records ++ [vm_detail]).
Proof.
  intros Tw Hb Hid [Hfound Hlisted].
  pose proof (_build_vm_detail_region _ _ _ _ Hb) as Hreg.
  split.
  - intros v entry Hl.
    assert (Old : route_lookup (PStr v) m = Some entry ->
                  nonempty v = true
                  /\ exists workspace_id0 region0 url0 r,
                       entry = PDict [("workspace_id", workspace_id0);
                                      ("region", region0); ("url", url0)]
                       /\ truthy workspace_id0 = true
                       /\ In r (records ++ [vm_detail])
                       /\ py_get r "vmID" PNone = Ret (PStr v)
                       /\ py_get r "workspaceRegion" PNone = Ret region0).
    { intros Ho. destruct (Hfound v entry Ho) as [Nv (a & b & c & r & He & Ta & Hin & H1 & H2)].
      split; [exact Nv |]. exists a, b, c, r. repeat split; try assumption.
      apply in_or_app. left. exact Hin. }
    destruct (truthy vm_id) eqn:Tv; [| exact (Old Hl)].
    rewrite route_lookup_set_str in Hl.
    destruct (key_eqb (PStr v) vm_id) eqn:Ek; [| exact (Old Hl)].
    apply key_eqb_str in Ek. subst vm_id. inversion Hl; subst entry.
    split; [exact Tv |].
    exists workspace_id, region, url, vm_detail. repeat split; try assumption.
    apply in_or_app. right. left. reflexivity.
  - intros v r Nv Hin Hr.
    apply in_app_or in Hin. destruct Hin as [Hin | [<- | []]].
    + destruct (truthy vm_id); [| exact (Hlisted v r Nv Hin Hr)].
      rewrite route_lookup_set_str.
      destruct (key_eqb (PStr v) vm_id); [discriminate | exact (Hlisted v r Nv Hin Hr)].
    + rewrite Hid in Hr. inversion Hr; subst vm_id. cbn [truthy]. rewrite Nv.
      rewrite route_lookup_set_str. cbn [key_eqb]. rewrite String.eqb_refl. discriminate.
Qed.

Section RoutingInvariant.

Variable cfg : config.
Variable up : upstream.

Lemma _fetch_vms_from_workspace_self
  (workspace_id : pyval) (workspace_crn : fstring) (workspace_url : pyval) (w : world) :
  self (snd (_fetch_vms_from_workspace cfg up workspace_id workspace_crn workspace_url w))
  = self w.
Proof.
  rewrite _fetch_vms_from_workspace_run.
  destruct (token_of _) as [t | e]; [| reflexivity].
  destruct (headers_of t (Some workspace_crn)); reflexivity.
Qed.

Lemma process_workspace_routed (loc loc' : locals) (ws : pyval) (w w' : world) :
  routed loc w ->
  process_workspace cfg up loc ws w = (Ret loc', w') ->
  routed loc' w'.
Proof.
  intros Hc H. unfold process_workspace in H.
  bind_lift H workspace_id Ei.
  bind_lift H workspace_name En.
  bind_lift H workspace_region Er.
  bind_lift H workspace_url Eu.
  destruct (truthy workspace_id) eqn:Tw; cbn [negb] in H.
  2:{ apply ret_inv in H. destruct H as [<- ->]. exact Hc. }
  bind_step H fetched w1 Ef.
  assert (S1 : self w1 = self w).
  { pose proof (_fetch_vms_from_workspace_self workspace_id
                  (workspace_crn_of cfg workspace_region workspace_id) workspace_url w) as K.
    rewrite Ef in K. exact K. }
  assert (Hc1 : routed loc w1). { unfold routed. rewrite S1. exact Hc. }
  cbv zeta in H.
  destruct (error_truthy (snd fetched)).
  { apply ret_inv in H. destruct H as [<- ->]. exact Hc1. }
  bind_lift H has Eh.
  destruct (negb has).
  { apply ret_inv in H. destruct H as [<- ->]. exact Hc1. }
  bind_lift H pvms Ep.
  bind_lift H items Ei'.
  refine (for_each_preserves_world routed _ _ items loc w1 loc' w' Hc1 H).
  intros s x w0 s' w0' Hs Hb.
  destruct (process_pvm_world _ _ _ _ _ _ _ _ _ Hb) as (vd & vid & Hbd & Hid & Hl & ->).
  unfold routed. rewrite Hl.
  pose proof (routes_records_step workspace_id workspace_name workspace_region
                workspace_url (_vm_workspace (self w0)) (vm_list s) x vd vid
                Tw Hbd Hid Hs) as K.
  destruct (truthy vid); exact K.
Qed.

(** An inventory comes with the routing map of its records and with a time
    stamp read after the last listing. *)
Lemma fan_out_routed (w w' : world) (d : pyval) :
  fetch_vms_from_all_workspaces cfg up w = (Ret d, w') ->
  d = error_payload "No workspaces found"
  \/ exists wss loc,
       d = inventory_result wss loc
       /\ routes_records (_vm_workspace (self w')) (vm_list loc)
       /\ exists w4, tick w' = S (tick w4)
                     /\ sent w' = sent w4
                     /\ _vm_workspace_time (self w') = Some (clock up (tick w4)).
Proof.
  intros H. unfold fetch_vms_from_all_workspaces in H.
  bind_step H wss w1 Ew.
  destruct wss as [| ws0 wss0].
  { apply ret_inv in H. destruct H as [<- _]. left. reflexivity. }
  right.
  bind_step H c w2 Ec. unfold get_self in Ec. inversion Ec; subst c w2.
  bind_step H u w3 Eu. unfold put_self in Eu. inversion Eu; subst u w3.
  bind_step H loc w4 El.
  bind_step H now w5 En. unfold time_time in En. inversion En; subst now w5.
  bind_step H c' w6 Ec'. unfold get_self in Ec'. inversion Ec'; subst c' w6.
  bind_step H u' w7 Eu'. unfold put_self in Eu'. inversion Eu'; subst u' w7.
  apply ret_inv in H. destruct H as [<- ->].
  exists (ws0 :: wss0), loc. split; [reflexivity |].
  assert (R : routed loc w4).
  { refine (for_each_preserves_world routed _ _ (ws0 :: wss0) _ _ loc w4 _ El).
    - intros s x w0 s' w0' Hs Hb. exact (process_workspace_routed _ _ _ _ _ Hs Hb).
    - split.
      + intros v entry Hl. discriminate.
      + intros v r _ []. }
  split; [exact R |].
  exists w4. repeat split.
Qed.

End RoutingInvariant.

(** Within the TTL of the routing cache a resolution is a consultation of
    the map: no fan-out runs. *)
Lemma resolve_within_ttl (cfg : config) (up : upstream) (vm_id : string) (w : world)
  (now : Z) :
  _vm_workspace_time (self w) = Some now ->
  clock up (tick w) - now <= VM_CACHE_TTL ->
  exists w1,
    self w1 = self w /\ sent w1 = sent w
    /\ _get_workspace_for_vm cfg up vm_id w = consult_routing cfg vm_id w1.
Proof.
  intros Ht Hage. unfold _get_workspace_for_vm.
  unfold bind at 1. unfold get_self at 1. rewrite Ht. cbn [time_truthy].
  destruct (now =? 0); cbn [negb].
  - exists w. repeat split.
  - exists (after_clock w). split; [reflexivity |]. split; [reflexivity |].
    unfold bind at 1. unfold bind at 1. unfold time_time at 1. fold (after_clock w).
    destruct (clock up (tick w) - now >? VM_CACHE_TTL) eqn:G.
    + rewrite Z.gtb_ltb in G. apply Z.ltb_lt in G. lia.
    + reflexivity.
Qed.

(** X13. Right after a fan-out returned an inventory, and while the routing
    cache is within its TTL, [_get_workspace_for_vm] sends nothing and
    agrees with the inventory: a non-empty identifier carried by a record of
    [vms] resolves to a workspace with an identifier, a scope string built
    from the region of a record of that VM, and a URL; an identifier that no
    record carries resolves to the static scope in single-workspace mode and
    to not-found otherwise. *)
Theorem inventory_is_routable
  (cfg : config) (up : upstream) (w w' : world) (d : pyval) (vms : list pyval)
  (v : string) :
  fetch_vms_from_all_workspaces cfg up w = (Ret d, w') ->
  py_subscript d "vms" = Ret (PList vms) ->
  (forall now, _vm_workspace_time (self w') = Some now ->
               clock up (tick w') - now <= VM_CACHE_TTL) ->
  (nonempty v = true ->
   (exists r, In r vms /\ py_get r "vmID" PNone = Ret (PStr v)) ->
   exists workspace_id region url r,
     fst (_get_workspace_for_vm cfg up v w')
     = Ret (workspace_id, Some (workspace_crn_of cfg region workspace_id), url)
     /\ truthy workspace_id = true
     /\ In r vms
     /\ py_get r "vmID" PNone = Ret (PStr v)
     /\ py_get r "workspaceRegion" PNone = Ret region)
  /\ ((forall r, In r vms -> py_get r "vmID" PNone <> Ret (PStr v)) ->
      fst (_get_workspace_for_vm cfg up v w')
      = Ret (if single_workspace cfg then static_scope cfg else not_found))
  /\ sent (snd (_get_workspace_for_vm cfg up v w')) = sent w'.
Proof.
  intros E Hv Hage.
  destruct (fan_out_routed cfg up w w' d E)
    as [-> | (wss & loc & -> & [Hfound Hlisted] & (w4 & _ & _ & Hstamp))];
    [discriminate |].
  cbn in Hv. inversion Hv; subst vms.
  destruct (resolve_within_ttl cfg up v w' _ Hstamp (Hage _ Hstamp)) as (w1 & S1 & T1 & ->).
  split; [| split].
  - intros Nv [r [Hin Hr]].
    destruct (route_lookup (PStr v) (_vm_workspace (self w'))) as [entry |] eqn:El.
    2:{ exfalso. exact (Hlisted v r Nv Hin Hr El). }
    destruct (Hfound v entry El) as [_ (a & b & c & r' & -> & Ta & Hin' & H1 & H2)].
    exists a, b, c, r'.
    split; [| repeat split; assumption].
    unfold consult_routing, bind, get_self. rewrite S1, El. reflexivity.
  - intros Hnone.
    destruct (route_lookup (PStr v) (_vm_workspace (self w'))) as [entry |] eqn:El.
    { exfalso. destruct (Hfound v entry El) as [_ (a & b & c & r' & _ & _ & Hin' & H1 & _)].
      exact (Hnone r' Hin' H1). }
    unfold consult_routing, bind, get_self. rewrite S1, El.
    destruct (single_workspace cfg); reflexivity.
  - rewrite consult_routing_world. exact T1.
Qed.

Lemma inventory_is_routable_witness :
  (nonempty "vm-3" = true ->
   (exists r, In r [vm_record workspace_dal10 raw_vm1;
                    vm_record workspace_dal13 raw_vm3;
                    vm_record workspace_dal13 raw_vm4]
              /\ py_get r "vmID" PNone = Ret (PStr "vm-3")) ->
   exists workspace_id region url r,
     fst (_get_workspace_for_vm cfg_account up_three "vm-3"
            (snd (fetch_vms_from_all_workspaces cfg_account up_three world_three)))
     = Ret (workspace_id, Some (workspace_crn_of cfg_account region workspace_id), url)
     /\ truthy workspace_id = true
     /\ In r [vm_record workspace_dal10 raw_vm1;
              vm_record workspace_dal13 raw_vm3;
              vm_record workspace_dal13 raw_vm4]
     /\ py_get r "vmID" PNone = Ret (PStr "vm-3")
     /\ py_get r "workspaceRegion" PNone = Ret region)
  /\ ((forall r, In r [vm_record workspace_dal10 raw_vm1;
                       vm_record workspace_dal13 raw_vm3;
                       vm_record workspace_dal13 raw_vm4] ->
                 py_get r "vmID" PNone <> Ret (PStr "vm-3")) ->
      fst (_get_workspace_for_vm cfg_account up_three "vm-3"
             (snd (fetch_vms_from_all_workspaces cfg_account up_three world_three)))
      = Ret (if single_workspace cfg_account then static_scope cfg_account else not_found))
  /\ sent (snd (_get_workspace_for_vm cfg_account up_three "vm-3"
                  (snd (fetch_vms_from_all_workspaces cfg_account up_three world_three))))
     = sent (snd (fetch_vms_from_all_workspaces cfg_account up_three world_three)).
Proof.
  apply (inventory_is_routable cfg_account up_three world_three
           (snd (fetch_vms_from_all_workspaces cfg_account up_three world_three))
           inventory_three).
  - vm_compute. reflexivity.
  - reflexivity.
  - intros now H. vm_compute in H. inversion H. vm_compute. discriminate.
Defined.

(** The run of the witness, evaluated. *)
Example resolve_after_fan_out :
  fst (_get_workspace_for_vm cfg_account up_three "vm-3"
         (snd (fetch_vms_from_all_workspaces cfg_account up_three world_three)))
  = Ret (PStr "ws-3",
         Some (workspace_crn_of cfg_account (PStr "dal13") (PStr "ws-3")),
         PStr "https://dal.base")
  /\ fst (_get_workspace_for_vm cfg_account up_three "vm-9"
            (snd (fetch_vms_from_all_workspaces cfg_account up_three world_three)))
     = Ret not_found.
Proof. vm_compute. split; reflexivity. Qed.

(* ================================================================== *)
(** ** Storage and network health, item by item *)

Lemma headers_of_granted (v : pyval) (workspace_crn : option fstring) :
  truthy v = true -> exists h, headers_of (TokVal v) workspace_crn = Some h.
Proof.
  intros Tv. unfold headers_of. cbn [token_truthy]. rewrite Tv. cbn [negb].
  destruct workspace_crn as [c |]; [destruct (fstring_truthy c) |]; eexists; reflexivity.
Qed.

Lemma filter_none {A : Type} (f : A -> bool) (l : list A) :
  (forall x, In x l -> f x = false) -> filter f l = [].
Proof.
  induction l as [| x l IH]; intros H; [reflexivity |]. cbn [filter].
  rewrite (H x (or_introl eq_refl)). apply IH. intros y Hy. apply H. right. exact Hy.
Qed.

Lemma classify_volume_run (acc : list pyval) (volume : pyval) (w : world) :
  is_dict volume = true ->
  classify_volume acc volume w
  = (Ret (if unhealthy_volume volume then (acc ++ [volume_issue volume])%list else acc), w).
Proof.
  destruct volume as [| | | | | d]; try discriminate. intros _.
  unfold classify_volume, unhealthy_volume, volume_issue, volume_state, field, bind, lift.
  cbn [py_get].
  destruct (negb (existsb _ healthy_volume_states)); reflexivity.
Qed.

Lemma for_each_classify_volume (vols : list pyval) :
  forall (acc : list pyval) (w : world),
  forallb is_dict vols = true ->
  for_each vols classify_volume acc w
  = (Ret (acc ++ map volume_issue (filter unhealthy_volume vols))%list, w).
Proof.
  induction vols as [| x vols IH]; intros acc w H; cbn [for_each filter map].
  - unfold ret. rewrite app_nil_r. reflexivity.
  - cbn [forallb] in H. apply andb_prop in H. destruct H as [Hx H].
    unfold bind at 1. rewrite (classify_volume_run acc x w Hx), (IH _ w H).
    destruct (unhealthy_volume x); cbn [map]; [rewrite <- app_assoc |]; reflexivity.
Qed.

(** X14. Storage health of a VM that resolves to a workspace (token
    granted): the status code of the volume listing is not looked at.  A
    JSON object without [volumes] gives the verdict OK with no issue.  A
    list of volume objects gives, in order, one issue per volume whose state
    is none of the five healthy states (a volume without state counts); the
    verdict is OK exactly when there is none. *)
Theorem storage_health_by_volume
  (cfg : config) (up : upstream) (vm_id : string) (w w1 : world)
  (workspace_id workspace_url : pyval) (workspace_crn : option fstring)
  (status : Z) (d : list (string * pyval)) :
  _get_workspace_for_vm cfg up vm_id w
  = (Ret (workspace_id, workspace_crn, workspace_url), w1) ->
  truthy workspace_id = true ->
  token_granted (respond up (tick w1) (token_request cfg)) = true ->
  (forall h, respond up (S (tick w1))
               (GET (volumes_url workspace_url workspace_id vm_id) h 120)
             = Response status (BodyJson (PDict d))) ->
  (dict_lookup "volumes" d = None ->
   fst (get_storage_health cfg up vm_id w) = Ret (storage_result_of []))
  /\ (forall vols,
        dict_lookup "volumes" d = Some (PList vols) ->
        forallb is_dict vols = true ->
        fst (get_storage_health cfg up vm_id w)
        = Ret (storage_result_of (map volume_issue (filter unhealthy_volume vols)))
        /\ (verdict_of (map volume_issue (filter unhealthy_volume vols)) = "OK"
            <-> forall volume, In volume vols -> unhealthy_volume volume = false)).
Proof.
  intros Hres Tw Htok Ho.
  destruct (token_granted_of _ Htok) as [v [Hv Tv]].
  destruct (headers_of_granted v workspace_crn Tv) as [h Hh].
  assert (U : forall listed,
             py_get (PDict d) "volumes" (PList []) = Ret (PList listed) ->
             get_storage_health cfg up vm_id w
             = (unhealthy_volumes <- for_each listed classify_volume [] ;;
                ret (storage_result_of unhealthy_volumes))
                 (after_call (GET (volumes_url workspace_url workspace_id vm_id) h 120)
                    (after_call (token_request cfg) w1))).
  { intros listed Hl. unfold get_storage_health.
    unfold bind at 1. rewrite Hres. cbv beta iota. rewrite Tw. cbn [negb].
    unfold bind at 1. rewrite _get_headers_run, Hv. cbn [rbind]. rewrite Hh.
    unfold requests_get. unfold bind at 1. unfold bind at 1. unfold http at 1.
    cbn [tick after_call]. rewrite Ho. cbn [deliver]. unfold ret at 1.
    unfold bind at 1. unfold lift at 1. cbn [response_json snd].
    unfold bind at 1. unfold lift at 1. rewrite Hl.
    unfold bind at 1. unfold lift at 1. cbn [py_iter]. reflexivity. }
  split.
  - intros Hd. rewrite (U []); [reflexivity |]. cbn [py_get]. rewrite Hd. reflexivity.
  - intros vols Hd Hwf. split.
    + rewrite (U vols); [| cbn [py_get]; rewrite Hd; reflexivity].
      unfold bind. rewrite (for_each_classify_volume vols [] _ Hwf). reflexivity.
    + split.
      * intros Hok volume Hin.
        destruct (unhealthy_volume volume) eqn:Eu; [| reflexivity].
        assert (Hf : In volume (filter unhealthy_volume vols)).
        { apply filter_In. split; assumption. }
        destruct (filter unhealthy_volume vols); [contradiction | discriminate].
      * intros Hall.
        assert (E : filter unhealthy_volume vols = []) by (apply filter_none; exact Hall).
        rewrite E. reflexivity.
Qed.

Lemma classify_interface_run (vm_id : string) (acc : interfaces) (interface : pyval)
  (w : world) :
  wf_interface interface = true ->
  classify_interface vm_id acc interface w
  = (Ret (if own_active vm_id interface then (fst acc ++ [ip_of interface], snd acc)%list
          else if own_down vm_id interface
               then (fst acc, snd acc ++ [ip_of interface])%list
               else acc), w).
Proof.
  destruct interface as [| | | | | d]; try discriminate.
  unfold wf_interface, classify_interface, own_active, own_down, own_interface, ip_of,
    field, bind, lift.
  cbn [py_get].
  destruct (dict_lookup "pvmInstance" d) as [[| | | | | o] |]; try discriminate; intros _;
    cbn [py_get];
    match goal with
    | |- context [py_eq_str ?a vm_id] => destruct (py_eq_str a vm_id)
    end; cbn [andb];
    try reflexivity;
    match goal with
    | |- context [py_eq_str ?a "ACTIVE"] => destruct (py_eq_str a "ACTIVE")
    end; reflexivity.
Qed.

Lemma for_each_classify_interface (vm_id : string) (l : list pyval) :
  forall (acc : interfaces) (w : world),
  forallb wf_interface l = true ->
  for_each l (classify_interface vm_id) acc w
  = (Ret (fst acc ++ map ip_of (filter (own_active vm_id) l),
          snd acc ++ map ip_of (filter (own_down vm_id) l))%list, w).
Proof.
  induction l as [| x l IH]; intros acc w H; cbn [for_each filter map].
  - unfold ret. rewrite !app_nil_r. destruct acc; reflexivity.
  - cbn [forallb] in H. apply andb_prop in H. destruct H as [Hx H].
    unfold bind at 1. rewrite (classify_interface_run vm_id acc x w Hx), (IH _ w H).
    unfold own_active, own_down.
    destruct (own_interface vm_id x); cbn [andb]; [| reflexivity].
    destruct (py_eq_str (field x "status" PNone) "ACTIVE"); cbn [negb fst snd map];
      rewrite <- app_assoc; reflexivity.
Qed.

Section NetworkLoop.

Variable cfg : config.
Variable up : upstream.
Variable vm_id : string.
Variable h : headers.
Variable interfaces_of : pyval -> list pyval.

Lemma inspect_network_run (acc : interfaces) (net : pyval) (w : world) :
  is_dict net = true ->
  lists_interfaces cfg up net (interfaces_of net) ->
  forallb wf_interface (interfaces_of net) = true ->
  exists w',
    inspect_network cfg up vm_id h acc net w
    = (Ret (fst acc ++ map ip_of (filter (own_active vm_id) (interfaces_of net)),
            snd acc ++ map ip_of (filter (own_down vm_id) (interfaces_of net)))%list, w')
    /\ self w' = self w.
Proof.
  intros Hd Hl Hwf. destruct (Hl (tick w) h) as (status & dn & Hr & Hf).
  unfold inspect_network.
  unfold bind at 1. unfold lift at 1. rewrite (py_get_dict net "networkID" PNone Hd).
  unfold requests_get. unfold bind at 1. unfold bind at 1. unfold http at 1.
  rewrite Hr. cbn [deliver]. unfold ret at 1.
  unfold bind at 1. unfold lift at 1. cbn [response_json snd].
  unfold bind at 1. unfold lift at 1.
  rewrite (py_get_dict (PDict dn) "networkInterfaces" (PList []) eq_refl), Hf.
  unfold bind at 1. unfold lift at 1. cbn [py_iter].
  rewrite (for_each_classify_interface vm_id _ acc _ Hwf).
  eexists. split; reflexivity.
Qed.

Lemma for_each_inspect_network (nets : list pyval) :
  forall (acc : interfaces) (w : world),
  forallb is_dict nets = true ->
  (forall net, In net nets ->
     lists_interfaces cfg up net (interfaces_of net)
     /\ forallb wf_interface (interfaces_of net) = true) ->
  exists w',
    for_each nets (inspect_network cfg up vm_id h) acc w
    = (Ret (fst acc ++ map ip_of (filter (own_active vm_id) (flat_map interfaces_of nets)),
            snd acc ++ map ip_of (filter (own_down vm_id) (flat_map interfaces_of nets)))%list,
       w')
    /\ self w' = self w.
Proof.
  induction nets as [| net nets IH]; intros acc w Hd Hn.
  - exists w. cbn [for_each flat_map filter map]. rewrite !app_nil_r.
    destruct acc. split; reflexivity.
  - cbn [forallb] in Hd. apply andb_prop in Hd. destruct Hd as [Hd1 Hd].
    destruct (Hn net (or_introl eq_refl)) as [Hl Hwf].
    destruct (inspect_network_run acc net w Hd1 Hl Hwf) as (w1 & E1 & S1).
    destruct (IH (fst acc ++ map ip_of (filter (own_active vm_id) (interfaces_of net)),
                  snd acc ++ map ip_of (filter (own_down vm_id) (interfaces_of net)))%list
                w1 Hd (fun x Hx => Hn x (or_intror Hx))) as (w2 & E2 & S2).
    exists w2. split.
    + cbn [for_each]. unfold bind at 1. rewrite E1, E2. cbn [fst snd flat_map].
      rewrite !filter_app, !map_app, <- !app_assoc. reflexivity.
    + rewrite S2. exact S1.
Qed.

End NetworkLoop.

(** X15. Network health of a VM that resolves to a workspace, asked for by
    the tool (token granted, the VM document and the interface listings
    arrive as objects, whatever their status codes).  [interfaces_down] is,
    in order, the addresses of the interfaces that belong to this VM and
    whose status is not [ACTIVE] (an interface without status counts);
    interfaces of other VMs on the same networks never count; the verdict is
    OK exactly when there is no such interface. *)
Theorem network_health_by_interface
  (cfg : config) (up : upstream) (vm_id : string) (w w1 : world)
  (workspace_id workspace_url : pyval) (workspace_crn : option fstring)
  (status : Z) (dv : list (string * pyval)) (nets : list pyval)
  (interfaces_of : pyval -> list pyval) :
  _get_workspace_for_vm cfg up vm_id w
  = (Ret (workspace_id, workspace_crn, workspace_url), w1) ->
  truthy workspace_id = true ->
  token_granted (respond up (tick w1) (token_request cfg)) = true ->
  (forall h, respond up (S (tick w1))
               (GET (pvm_instance_url workspace_url workspace_id vm_id) h 120)
             = Response status (BodyJson (PDict dv))) ->
  field (PDict dv) "networks" (PList []) = PList nets ->
  forallb is_dict nets = true ->
  (forall net, In net nets ->
     lists_interfaces cfg up net (interfaces_of net)
     /\ forallb wf_interface (interfaces_of net) = true) ->
  let down := map ip_of (filter (own_down vm_id) (flat_map interfaces_of nets)) in
  fst (get_network_health cfg up vm_id PNone w) = Ret (network_result_of down)
  /\ (verdict_of down = "OK"
      <-> forall net interface,
            In net nets -> In interface (interfaces_of net) ->
            own_down vm_id interface = false).
Proof.
  intros Hres Tw Htok Ho Hnets Hd Hn down.
  destruct (token_granted_of _ Htok) as [v [Hv Tv]].
  destruct (headers_of_granted v workspace_crn Tv) as [h Hh].
  split.
  - unfold get_network_health.
    unfold bind at 1. rewrite Hres. cbv beta iota. rewrite Tw. cbn [negb].
    unfold bind at 1. rewrite _get_headers_run, Hv. cbn [rbind]. rewrite Hh.
    unfold bind at 1. unfold requests_get. unfold bind at 1. unfold bind at 1.
    unfold http at 1. cbn [tick after_call]. rewrite Ho. cbn [deliver].
    unfold ret at 1. unfold lift at 1. cbn [response_json snd].
    unfold bind at 1. unfold lift at 1.
    rewrite (py_get_dict (PDict dv) "networks" (PList []) eq_refl), Hnets.
    unfold bind at 1. unfold lift at 1. cbn [py_iter].
    unfold bind at 1.
    match goal with
    | |- context [for_each nets ?f ?a ?x] =>
        destruct (for_each_inspect_network cfg up vm_id h interfaces_of nets a x Hd Hn)
          as (w2 & E2 & _)
    end.
    rewrite E2. reflexivity.
  - subst down. split.
    + intros Hok net interface Hin Hi.
      destruct (own_down vm_id interface) eqn:Eo; [| reflexivity].
      assert (Hf : In interface (filter (own_down vm_id) (flat_map interfaces_of nets))).
      { apply filter_In. split; [| exact Eo]. apply in_flat_map. exists net.
        split; assumption. }
      destruct (filter (own_down vm_id) (flat_map interfaces_of nets));
        [contradiction | discriminate].
    + intros Hall.
      rewrite (filter_none (own_down vm_id) (flat_map interfaces_of nets)); [reflexivity |].
      intros x Hx. apply in_flat_map in Hx. destruct Hx as (net & Hin & Hi).
      exact (Hall net x Hin Hi).
Qed.

Lemma storage_health_by_volume_witness :
  (dict_lookup "volumes" [("volumes", PList volumes_mixed)] = None ->
   fst (get_storage_health cfg_static up_volumes_mixed "vm-1" init_world)
   = Ret (storage_result_of []))
  /\ (forall vols,
        dict_lookup "volumes" [("volumes", PList volumes_mixed)] = Some (PList vols) ->
        forallb is_dict vols = true ->
        fst (get_storage_health cfg_static up_volumes_mixed "vm-1" init_world)
        = Ret (storage_result_of (map volume_issue (filter unhealthy_volume vols)))
        /\ (verdict_of (map volume_issue (filter unhealthy_volume vols)) = "OK"
            <-> forall volume, In volume vols -> unhealthy_volume volume = false)).
Proof.
  apply (storage_health_by_volume cfg_static up_volumes_mixed "vm-1" init_world init_world
           (PStr "ws-1") (PStr "https://base") (Some [FLit (crn cfg_static)]) 200).
  - reflexivity.
  - reflexivity.
  - reflexivity.
  - intros h. reflexivity.
Defined.

(** The run of the witness, evaluated: the volume in error and the volume
    without state are reported. *)
Example storage_health_of_mixed_volumes :
  fst (get_storage_health cfg_static up_volumes_mixed "vm-1" init_world)
  = Ret (PDict [("storage_health", PDict [("status", PStr "CRITICAL")]);
                ("unhealthy_volumes",
                  PList [PDict [("name", PStr "data"); ("state", PStr "error")];
                         PDict [("name", PStr "scratch"); ("state", PStr "")]])]).
Proof. reflexivity. Qed.

Lemma network_health_by_interface_witness :
  let down :=
    map ip_of
      (filter (own_down "vm-1")
         (flat_map (fun _ => listed_interfaces "DOWN")
            [PDict [("networkID", PStr "net-1")]])) in
  fst (get_network_health cfg_static (up_vm_health "DOWN") "vm-1" PNone init_world)
  = Ret (network_result_of down)
  /\ (verdict_of down = "OK"
      <-> forall net interface,
            In net [PDict [("networkID", PStr "net-1")]] ->
            In interface (listed_interfaces "DOWN") ->
            own_down "vm-1" interface = false).
Proof.
  apply (network_health_by_interface cfg_static (up_vm_health "DOWN") "vm-1"
           init_world init_world (PStr "ws-1") (PStr "https://base")
           (Some [FLit (crn cfg_static)]) 200
           [("serverName", PStr "db"); ("status", PStr "ACTIVE");
            ("networks", PList [PDict [("networkID", PStr "net-1")]])]
           [PDict [("networkID", PStr "net-1")]]
           (fun _ => listed_interfaces "DOWN")).
  - reflexivity.
  - reflexivity.
  - reflexivity.
  - intros h. reflexivity.
  - reflexivity.
  - reflexivity.
  - intros net [<- | []]. split.
    + intros n h. exists 200, [("networkInterfaces", PList (listed_interfaces "DOWN"))].
      split; reflexivity.
    + reflexivity.
Defined.

(** The run of the witness, evaluated: the interface of [vm-2], down as
    well, is not reported. *)
Example network_health_of_vm1 :
  fst (get_network_health cfg_static (up_vm_health "DOWN") "vm-1" PNone init_world)
  = Ret (PDict [("network_health", PDict [("status", PStr "CRITICAL")]);
                ("interfaces_down", PList [PStr "10.0.0.5"])]).
Proof. reflexivity. Qed.

(* ================================================================== *)
(** ** Health of a VM the static workspace does not know *)

Section StaticHealth.

Variable cfg : config.
Variable up : upstream.
Variable vm_id : string.

Hypothesis Hsingle : single_workspace cfg = true.
Hypothesis Htok : forall n, token_granted (respond up n (token_request cfg)) = true.

(** A client that never ran a fan-out resolves every identifier to the
    static scope, without a remote call. *)
Lemma resolve_static (w : world) :
  _vm_workspace_time (self w) = None ->
  route_lookup (PStr vm_id) (_vm_workspace (self w)) = None ->
  _get_workspace_for_vm cfg up vm_id w = (Ret (static_scope cfg), w).
Proof.
  intros Ht Hr. unfold _get_workspace_for_vm.
  unfold bind at 1. unfold get_self at 1. rewrite Ht.
  unfold bind at 1. unfold ret at 1.
  unfold consult_routing, bind, get_self. rewrite Hr, Hsingle. reflexivity.
Qed.

Lemma static_scope_truthy : truthy (PStr (cloud_instance_id cfg)) = true.
Proof.
  unfold single_workspace in Hsingle. apply andb_prop in Hsingle.
  destruct Hsingle as [_ H]. exact H.
Qed.

Lemma static_headers (w : world) :
  exists h, _get_headers cfg up (Some [FLit (crn cfg)]) w
            = (Ret (Some h), after_call (token_request cfg) w).
Proof.
  destruct (token_granted_of _ (Htok (tick w))) as [v [Hv Tv]].
  destruct (headers_of_granted v (Some [FLit (crn cfg)]) Tv) as [h Hh].
  exists h. rewrite _get_headers_run, Hv. cbn [rbind]. rewrite Hh. reflexivity.
Qed.

Lemma get_network_health_no_networks (dv : list (string * pyval)) (w : world) :
  _vm_workspace_time (self w) = None ->
  route_lookup (PStr vm_id) (_vm_workspace (self w)) = None ->
  dict_lookup "networks" dv = None ->
  get_network_health cfg up vm_id (PDict dv) w
  = (Ret (network_result_of []), after_call (token_request cfg) w).
Proof.
  intros Ht Hr Hn. unfold get_network_health.
  unfold bind at 1. rewrite (resolve_static w Ht Hr). unfold static_scope. cbv beta iota.
  rewrite static_scope_truthy. cbn [negb].
  destruct (static_headers w) as [h Hh].
  unfold bind at 1. rewrite Hh.
  unfold bind at 1. unfold ret at 1.
  unfold bind at 1. unfold lift at 1. cbn [py_get]. rewrite Hn.
  reflexivity.
Qed.

Lemma get_storage_health_no_volumes (status : Z) (dvol : list (string * pyval))
  (w : world) :
  _vm_workspace_time (self w) = None ->
  route_lookup (PStr vm_id) (_vm_workspace (self w)) = None ->
  (forall n h,
     respond up n
       (GET (volumes_url (PStr (base_url cfg)) (PStr (cloud_instance_id cfg)) vm_id) h 120)
     = Response status (BodyJson (PDict dvol))) ->
  dict_lookup "volumes" dvol = None ->
  exists w', get_storage_health cfg up vm_id w = (Ret (storage_result_of []), w').
Proof.
  intros Ht Hr Ho Hn. unfold get_storage_health.
  unfold bind at 1. rewrite (resolve_static w Ht Hr). unfold static_scope. cbv beta iota.
  rewrite static_scope_truthy. cbn [negb].
  destruct (static_headers w) as [h Hh].
  unfold bind at 1. rewrite Hh.
  unfold requests_get. unfold bind at 1. unfold bind at 1. unfold http at 1.
  rewrite Ho. cbn [deliver]. unfold ret at 1.
  unfold bind at 1. unfold lift at 1. cbn [response_json snd].
  unfold bind at 1. unfold lift at 1. cbn [py_get]. rewrite Hn.
  eexists. reflexivity.
Qed.

End StaticHealth.

(** X16. [get_vm_health] does not look at status codes.  In
    single-workspace mode, on a client that never ran a fan-out, with the
    token granted: when the VM request is answered with any JSON object
    without [networks] and the volume request with any JSON object without
    [volumes] (the error documents of a VM that does not exist, say), the
    result is a health document with [overall_health], [network_health] and
    [storage_health] all OK and no issue, not an error. *)
Theorem vm_health_of_error_documents
  (cfg : config) (up : upstream) (vm_id : string) (w : world)
  (status status' : Z) (dv dvol : list (string * pyval)) :
  single_workspace cfg = true ->
  (forall n, token_granted (respond up n (token_request cfg)) = true) ->
  _vm_workspace_time (self w) = None ->
  route_lookup (PStr vm_id) (_vm_workspace (self w)) = None ->
  (forall n h,
     respond up n
       (GET (pvm_instance_url (PStr (base_url cfg)) (PStr (cloud_instance_id cfg)) vm_id)
          h 240)
     = Response status (BodyJson (PDict dv))) ->
  dict_lookup "networks" dv = None ->
  (forall n h,
     respond up n
       (GET (volumes_url (PStr (base_url cfg)) (PStr (cloud_instance_id cfg)) vm_id) h 120)
     = Response status' (BodyJson (PDict dvol))) ->
  dict_lookup "volumes" dvol = None ->
  fst (get_vm_health cfg up vm_id w) = Ret (healthy_report vm_id (PDict dv)).
Proof.
  intros Hs Htok Ht Hr Hvm Hnet Hvol Hnv.
  unfold get_vm_health.
  unfold bind at 1. rewrite (resolve_static cfg up vm_id Hs w Ht Hr).
  unfold static_scope. cbv beta iota. rewrite (static_scope_truthy cfg Hs). cbn [negb].
  destruct (static_headers cfg up Htok w) as [h Hh].
  unfold bind at 1. rewrite Hh.
  unfold try_except.
  unfold requests_get. unfold bind at 1. unfold bind at 1. unfold http at 1.
  rewrite Hvm. cbn [deliver]. unfold ret at 1.
  unfold bind at 1. unfold lift at 1. cbn [response_json snd].
  unfold bind at 1.
  match goal with
  | |- context [get_network_health cfg up vm_id (PDict dv) ?x] =>
      rewrite (get_network_health_no_networks cfg up vm_id Hs Htok dv x Ht Hr Hnet)
  end.
  match goal with
  | |- context [bind _ _ ?x] =>
      destruct (get_storage_health_no_volumes cfg up vm_id Hs Htok status' dvol x
                  Ht Hr Hvol Hnv) as [w' E]
  end.
  unfold bind at 1. rewrite E. reflexivity.
Qed.

Lemma vm_health_of_error_documents_witness :
  fst (get_vm_health cfg_static up_not_found "no-such-vm" init_world)
  = Ret (healthy_report "no-such-vm"
           (PDict [("description", PStr "pvm-instance does not exist");
                   ("error", PStr "not found")])).
Proof.
  apply (vm_health_of_error_documents cfg_static up_not_found "no-such-vm" init_world
           404 404
           [("description", PStr "pvm-instance does not exist");
            ("error", PStr "not found")]
           [("description", PStr "pvm-instance does not exist");
            ("error", PStr "not found")]).
  - reflexivity.
  - intros n. reflexivity.
  - reflexivity.
  - reflexivity.
  - intros n h. reflexivity.
  - reflexivity.
  - intros n h. reflexivity.
  - reflexivity.
Defined.

(* ================================================================== *)
(** ** The image listing and the snapshots of a routed VM *)

Lemma image_summary_wf (acc : list pyval) (image : pyval) (w : world) :
  wf_image image = true ->
  image_summary acc image w = (Ret (acc ++ [image_row image])%list, w).
Proof.
  destruct image as [| | | | | d]; try discriminate. unfold wf_image, image_summary, image_row.
  cbn [field]. unfold bind, lift, ret. cbn [py_get].
  destruct (dict_lookup "specifications" d) as [[| | | | | s] |]; try discriminate;
    intros _; reflexivity.
Qed.

Lemma image_summary_not_wf (acc : list pyval) (image : pyval) (w : world) :
  wf_image image = false ->
  exists e, image_summary acc image w = (Raise e, w).
Proof.
  unfold wf_image, image_summary. unfold bind, lift, ret.
  destruct image as [| | | | | d]; try (intros _; eexists; reflexivity).
  cbn [py_get].
  destruct (dict_lookup "specifications" d) as [[| | | | | s] |]; try discriminate;
    intros _; eexists; reflexivity.
Qed.

Lemma for_each_image_summary (images acc : list pyval) (w : world) :
  forallb wf_image images = true ->
  for_each images image_summary acc w = (Ret (acc ++ map image_row images)%list, w).
Proof.
  revert acc. induction images as [| i images IH]; intros acc H.
  - cbn. rewrite app_nil_r. reflexivity.
  - cbn [forallb] in H. apply andb_prop in H. destruct H as [Hi H].
    cbn [for_each]. unfold bind at 1. rewrite (image_summary_wf acc i w Hi).
    rewrite (IH _ H). cbn [map]. rewrite <- app_assoc. reflexivity.
Qed.

Lemma for_each_image_summary_fails (images acc : list pyval) (w : world) :
  forallb wf_image images = false ->
  exists e, for_each images image_summary acc w = (Raise e, w).
Proof.
  revert acc. induction images as [| i images IH]; intros acc H; [discriminate |].
  cbn [forallb] in H. cbn [for_each]. unfold bind at 1.
  destruct (wf_image i) eqn:Hi.
  - rewrite (image_summary_wf acc i w Hi). cbn [andb] in H. apply IH. exact H.
  - destruct (image_summary_not_wf acc i w Hi) as [e ->]. exists e. reflexivity.
Qed.

(** X17. [get_all_images_in_workspace] is all or nothing, whatever the status
    code.  In single-workspace mode with the token granted, when the request
    is answered with a JSON object whose [images] is a list: if every entry
    is an object whose [specifications] is absent or an object, the result
    has one row per entry, in order, and [total_images] is their number; if
    one entry is not, no row is returned at all, only an error document. *)
Theorem image_listing_is_all_or_nothing
  (cfg : config) (up : upstream) (w : world) (status : Z)
  (di : list (string * pyval)) (images : list pyval) :
  single_workspace cfg = true ->
  (forall n, token_granted (respond up n (token_request cfg)) = true) ->
  (forall n h,
     respond up n (GET (static_resource_url cfg [FLit "/images"]) h 120)
     = Response status (BodyJson (PDict di))) ->
  dict_lookup "images" di = Some (PList images) ->
  (forallb wf_image images = true ->
   fst (get_all_images_in_workspace cfg up w)
   = Ret (PDict [("total_images", py_len images);
                 ("images", PList (map image_row images))]))
  /\ (forallb wf_image images = false ->
      exists msg,
        fst (get_all_images_in_workspace cfg up w)
        = Ret (error_payload ("Failed to get images: " ++ msg))).
Proof.
  intros Hs Htok Himg Hl.
  assert (Hs' := Hs). unfold single_workspace in Hs'. apply andb_prop in Hs'.
  destruct Hs' as [Hc Hi].
  destruct (static_headers cfg up Htok w) as [h Hh].
  assert (U : get_all_images_in_workspace cfg up w
              = try_except
                  (image_list <- for_each images image_summary [] ;;
                   ret (PDict [("total_images", py_len image_list);
                               ("images", PList image_list)]))
                  is_Exception
                  (fun e => ret (error_payload ("Failed to get images: " ++ exn_str e)))
                  (after_call (GET (static_resource_url cfg [FLit "/images"]) h 120)
                     (after_call (token_request cfg) w))).
  { unfold get_all_images_in_workspace. rewrite Hc, Hi. cbn [negb orb].
    unfold bind at 1. rewrite Hh.
    unfold try_except.
    unfold requests_get. unfold bind at 1. unfold bind at 1. unfold http at 1.
    rewrite Himg. cbn [deliver]. unfold ret at 1.
    unfold bind at 1. unfold lift at 1. cbn [response_json snd].
    unfold bind at 1. unfold lift at 1. cbn [py_get]. rewrite Hl.
    unfold bind at 1. unfold lift at 1. cbn [py_iter]. reflexivity. }
  rewrite U. unfold try_except. split; intros H.
  - unfold bind at 1. rewrite (for_each_image_summary images [] _ H).
    cbn [app]. unfold ret, py_len. rewrite length_map. reflexivity.
  - match goal with
    | |- context [bind _ _ ?x] =>
        destruct (for_each_image_summary_fails images [] x H) as [e E]
    end.
    unfold bind at 1. rewrite E. exists (exn_str e). reflexivity.
Qed.

Lemma image_listing_is_all_or_nothing_witness :
  fst (get_all_images_in_workspace cfg_static (up_images 500 images_listed) init_world)
  = Ret (PDict [("total_images", py_len images_listed);
                ("images", PList (map image_row images_listed))]).
Proof.
  apply (image_listing_is_all_or_nothing cfg_static (up_images 500 images_listed)
           init_world 500 [("images", PList images_listed)] images_listed).
  - reflexivity.
  - intros n. reflexivity.
  - intros n h. reflexivity.
  - reflexivity.
  - reflexivity.
Defined.

(** One image whose [specifications] is [null] loses the whole listing. *)
Example image_listing_with_null_specifications :
  fst (get_all_images_in_workspace cfg_static
         (up_images 200
            (images_listed
             ++ [PDict [("imageID", PStr "img-3"); ("specifications", PNone)]]))
         init_world)
  = Ret (error_payload
           "Failed to get images: 'NoneType' object has no attribute 'get'").
Proof. reflexivity. Qed.

Lemma snapshot_summary_dict (acc : list pyval) (snapshot : pyval) (w : world) :
  is_dict snapshot = true ->
  snapshot_summary acc snapshot w = (Ret (acc ++ [snapshot_row snapshot])%list, w).
Proof.
  destruct snapshot as [| | | | | d]; try discriminate. intros _. reflexivity.
Qed.

Lemma for_each_snapshot_summary (snapshots acc : list pyval) (w : world) :
  forallb is_dict snapshots = true ->
  for_each snapshots snapshot_summary acc w
  = (Ret (acc ++ map snapshot_row snapshots)%list, w).
Proof.
  revert acc. induction snapshots as [| i snapshots IH]; intros acc H.
  - cbn. rewrite app_nil_r. reflexivity.
  - cbn [forallb] in H. apply andb_prop in H. destruct H as [Hi H].
    cbn [for_each]. unfold bind at 1. rewrite (snapshot_summary_dict acc i w Hi).
    rewrite (IH _ H). cbn [map]. rewrite <- app_assoc. reflexivity.
Qed.

(** X18. [get_vm_snapshots] follows the routing map.  For a VM the routing
    map knows, within the TTL of the map and with the token granted, two
    requests are sent: the token request and one GET to the snapshots of that
    VM at the URL and workspace of its routing entry, under the scope string
    built from the entry's region and workspace (not the configured one).
    When the answer lists objects, the result has one row per snapshot, in
    order, and [total_snapshots] is their number. *)
Theorem snapshots_follow_the_routing
  (cfg : config) (up : upstream) (vm_id : string) (w : world) (now status : Z)
  (entry ds : list (string * pyval)) (workspace_id region url : pyval)
  (snapshots : list pyval) :
  _vm_workspace_time (self w) = Some now ->
  clock up (tick w) - now <= VM_CACHE_TTL ->
  route_lookup (PStr vm_id) (_vm_workspace (self w)) = Some (PDict entry) ->
  dict_lookup "workspace_id" entry = Some workspace_id ->
  truthy workspace_id = true ->
  dict_lookup "region" entry = Some region ->
  dict_lookup "url" entry = Some url ->
  (forall n, token_granted (respond up n (token_request cfg)) = true) ->
  (forall n h,
     respond up n (GET (snapshots_url url workspace_id vm_id) h 120)
     = Response status (BodyJson (PDict ds))) ->
  dict_lookup "snapshots" ds = Some (PList snapshots) ->
  forallb is_dict snapshots = true ->
  exists h,
    dict_lookup "CRN" h = Some (workspace_crn_of cfg region workspace_id)
    /\ fst (get_vm_snapshots cfg up vm_id w)
       = Ret (PDict [("vmID", PStr vm_id);
                     ("total_snapshots", py_len snapshots);
                     ("snapshots", PList (map snapshot_row snapshots))])
    /\ sent (snd (get_vm_snapshots cfg up vm_id w))
       = (sent w ++ [token_request cfg;
                     GET (snapshots_url url workspace_id vm_id) h 120])%list.
Proof.
  intros Ht Hage Hr Hw Tw Hreg Hurl Htok Hsnap Hl Hd.
  destruct (resolve_within_ttl cfg up vm_id w now Ht Hage) as (w1 & S1 & T1 & E1).
  assert (R : _get_workspace_for_vm cfg up vm_id w
              = (Ret (workspace_id, Some (workspace_crn_of cfg region workspace_id), url),
                 w1)).
  { rewrite E1. unfold consult_routing. unfold bind at 1. unfold get_self at 1.
    rewrite S1, Hr. unfold bind, lift, ret. cbn [py_subscript py_get].
    rewrite Hw, Hreg, Hurl. reflexivity. }
  destruct (token_granted_of _ (Htok (tick w1))) as [v [Hv Tv]].
  exists (dict_set "CRN" (workspace_crn_of cfg region workspace_id)
            [("Authorization", [FLit "Bearer "; FTok (TokVal v)]);
             ("Accept", [FLit "application/json"]);
             ("Content-Type", [FLit "application/json"])]).
  split; [reflexivity |].
  assert (U : get_vm_snapshots cfg up vm_id w
              = (Ret (PDict [("vmID", PStr vm_id);
                             ("total_snapshots", py_len snapshots);
                             ("snapshots", PList (map snapshot_row snapshots))]),
                 after_call
                   (GET (snapshots_url url workspace_id vm_id)
                      (dict_set "CRN" (workspace_crn_of cfg region workspace_id)
                         [("Authorization", [FLit "Bearer "; FTok (TokVal v)]);
                          ("Accept", [FLit "application/json"]);
                          ("Content-Type", [FLit "application/json"])]) 120)
                   (after_call (token_request cfg) w1))).
  { unfold get_vm_snapshots.
    unfold bind at 1. rewrite R. cbv beta iota. rewrite Tw. cbn [negb].
    unfold bind at 1. rewrite _get_headers_run, Hv. cbn [rbind].
    unfold headers_of. cbn [token_truthy]. rewrite Tv. cbn [negb].
    change (fstring_truthy (workspace_crn_of cfg region workspace_id)) with true.
    cbv iota.
    unfold try_except.
    unfold requests_get. unfold bind at 1. unfold bind at 1. unfold http at 1.
    rewrite Hsnap. cbn [deliver]. unfold ret at 1.
    unfold bind at 1. unfold lift at 1. cbn [response_json snd].
    unfold bind at 1. unfold lift at 1. cbn [py_get]. rewrite Hl.
    unfold bind at 1. unfold lift at 1. cbn [py_iter].
    unfold bind at 1. rewrite (for_each_snapshot_summary snapshots [] _ Hd).
    cbn [app]. unfold ret, py_len. rewrite length_map. reflexivity. }
  rewrite U. cbn [fst snd after_call sent self tick].
  split; [reflexivity |]. rewrite T1, <- app_assoc. reflexivity.
Qed.

Lemma snapshots_follow_the_routing_witness :
  exists h,
    dict_lookup "CRN" h
    = Some (workspace_crn_of cfg_account (PStr "dal10") (PStr "ws-1"))
    /\ fst (get_vm_snapshots cfg_account up_snapshots "vm-1" world_routing_only)
       = Ret (PDict [("vmID", PStr "vm-1");
                     ("total_snapshots", py_len snapshots_listed);
                     ("snapshots", PList (map snapshot_row snapshots_listed))])
    /\ sent (snd (get_vm_snapshots cfg_account up_snapshots "vm-1" world_routing_only))
       = (sent world_routing_only
          ++ [token_request cfg_account;
              GET (snapshots_url (PStr "https://dal.base") (PStr "ws-1") "vm-1") h 120])%list.
Proof.
  apply (snapshots_follow_the_routing cfg_account up_snapshots "vm-1" world_routing_only
           1000 200
           [("workspace_id", PStr "ws-1"); ("region", PStr "dal10");
            ("url", PStr "https://dal.base")]
           [("snapshots", PList snapshots_listed)]
           (PStr "ws-1") (PStr "dal10") (PStr "https://dal.base") snapshots_listed).
  - reflexivity.
  - vm_compute. discriminate.
  - reflexivity.
  - reflexivity.
  - reflexivity.
  - reflexivity.
  - reflexivity.
  - intros n. reflexivity.
  - intros n h. reflexivity.
  - reflexivity.
  - reflexivity.
Defined.

(* ================================================================== *)
(** ** A failing workspace the fan-out does not skip *)

Lemma for_each_app {A S : Type} (body : S -> A -> M S) (l1 l2 : list A) (s : S)
  (w : world) :
  for_each (l1 ++ l2) body s w
  = (s' <- for_each l1 body s ;; for_each l2 body s') w.
Proof.
  revert s w. induction l1 as [| x l1 IH]; intros s w.
  - reflexivity.
  - cbn [app for_each]. unfold bind.
    destruct (body s x w) as [[s1 | e] w1]; [| reflexivity].
    specialize (IH s1 w1). unfold bind in IH. exact IH.
Qed.

Section Unskipped.

Variable cfg : config.
Variable up : upstream.
Variable answers : pyval -> outcome.

Hypothesis Htok : forall n, token_granted (respond up n (token_request cfg)) = true.

(** The turn of the outer loop for a workspace without payload raises
    [TypeError]; the client is as it was. *)
Lemma process_workspace_no_payload (ws : pyval) (loc : locals) (w : world) :
  is_dict ws = true ->
  truthy (field ws "id" PNone) = true ->
  stable_listing cfg up answers ws ->
  no_payload (answers ws) = true ->
  exists e w',
    process_workspace cfg up loc ws w = (Raise e, w')
    /\ exn_cls e = TypeError
    /\ self w' = self w.
Proof.
  intros Hd Hid Hst Hno.
  destruct ws as [| | | | | d]; try discriminate.
  unfold process_workspace.
  unfold bind at 1. unfold lift at 1. cbn [py_get].
  unfold bind at 1. unfold lift at 1. cbn [py_get].
  unfold bind at 1. unfold lift at 1. cbn [py_get].
  unfold bind at 1. unfold lift at 1. cbn [py_get].
  cbn [field] in Hid. rewrite Hid. cbn [negb].
  unfold bind at 1. rewrite _fetch_vms_from_workspace_run.
  destruct (token_granted_of _ (Htok (tick w))) as [v [Hv Tv]]. rewrite Hv.
  destruct (headers_of_granted v (Some (workspace_crn_of cfg
              match dict_lookup "region" d with Some x => x | None => PNone end
              match dict_lookup "id" d with Some x => x | None => PNone end)) Tv)
    as [h Hh].
  rewrite Hh. cbv zeta.
  unfold stable_listing in Hst. cbn [field] in Hst. rewrite Hst.
  cbn [fst snd].
  destruct (answers (PDict d)) as [msg | status [[| | | | | dd] | msg]];
    cbn [no_payload] in Hno; try (apply andb_prop in Hno; destruct Hno as [H200 Hno]);
    try discriminate.
  - cbn [listing_of fst snd error_truthy].
    destruct (nonempty msg); [discriminate |].
    do 2 eexists. split; [reflexivity |]. split; reflexivity.
  - cbn [listing_of]. rewrite H200. cbn [fst snd error_truthy].
    do 2 eexists. split; [reflexivity |]. split; reflexivity.
  - cbn [listing_of]. rewrite H200. cbn [fst snd error_truthy].
    unfold bind at 1. unfold lift at 1. cbn [py_contains].
    destruct (dict_lookup "pvmInstances" dd) as [[| | | | |] |] eqn:L; try discriminate.
    cbn [negb].
    unfold bind at 1. unfold lift at 1. cbn [py_subscript]. rewrite L.
    do 2 eexists. split; [reflexivity |]. split; reflexivity.
  - cbn [listing_of]. rewrite H200. cbn [fst snd error_truthy].
    destruct (nonempty msg); [discriminate |].
    do 2 eexists. split; [reflexivity |]. split; reflexivity.
Qed.

End Unskipped.

(** C3. The fan-out does not skip every failing workspace.  When the
    directory holds a workspace whose listing request fails without error
    text (an exception whose [str] is empty) or answers 200 without the
    payload (body [null], or [pvmInstances] [null]), and the workspaces
    before it are skipped or listed, the whole fan-out raises [TypeError]:
    no inventory is returned, not even of the workspaces that answered.  The
    routing map is left with the entries of the workspaces before it and the
    time stamp it had. *)
Theorem unskipped_workspace_fails_the_fan_out
  (cfg : config) (up : upstream) (answers : pyval -> outcome)
  (w w1 : world) (l1 : list pyval) (ws : pyval) (l2 : list pyval) :
  (forall n, token_granted (respond up n (token_request cfg)) = true) ->
  directory_ok (self w) ->
  get_all_workspaces cfg up w = (Ret (l1 ++ ws :: l2)%list, w1) ->
  (forall x, In x l1 -> stable_listing cfg up answers x) ->
  (forall x, In x l1 -> truthy (field x "id" PNone) = true ->
             classify_listing (answers x) <> None) ->
  truthy (field ws "id" PNone) = true ->
  stable_listing cfg up answers ws ->
  no_payload (answers ws) = true ->
  exists e w',
    fetch_vms_from_all_workspaces cfg up w = (Raise e, w')
    /\ exn_cls e = TypeError
    /\ _vm_workspace (self w') = snd (merge cfg (answering answers l1))
    /\ _vm_workspace_time (self w') = _vm_workspace_time (self w1).
Proof.
  intros Htok Hok Hget Hst1 Hcl1 Hid Hst Hno.
  destruct (get_all_workspaces_dicts cfg up w w1 _ Hok Hget) as [Hd _].
  rewrite forallb_app in Hd. apply andb_prop in Hd. destruct Hd as [Hd1 Hd2].
  cbn [forallb] in Hd2. apply andb_prop in Hd2. destruct Hd2 as [Hdw _].
  unfold fetch_vms_from_all_workspaces. unfold bind at 1. rewrite Hget.
  remember (l1 ++ ws :: l2)%list as wss eqn:Ewss.
  destruct wss as [| x t]; [destruct l1; discriminate |].
  rewrite Ewss.
  unfold bind at 1. unfold get_self at 1.
  unfold bind at 1. unfold put_self at 1.
  unfold bind at 1. rewrite for_each_app.
  destruct (for_each_process_workspace cfg up answers Htok l1
              (mkLocals [] health_summary0 status_summary0)
              (mkWorld (set_vm_workspace [] (self w1)) (tick w1) (sent w1))
              Hd1 Hst1 Hcl1) as [w2 [E2 S2]].
  unfold bind at 1. rewrite E2.
  cbn [for_each]. unfold bind at 1.
  destruct (process_workspace_no_payload cfg up answers Htok ws
              (fst (fold_left (add_workspace cfg) (answering answers l1)
                      (mkLocals [] health_summary0 status_summary0,
                       _vm_workspace
                         (self (mkWorld (set_vm_workspace [] (self w1)) (tick w1)
                                  (sent w1))))))
              w2 Hdw Hid Hst Hno) as (e & w3 & E3 & Ce & S3).
  rewrite E3.
  exists e, w3. split; [reflexivity |]. split; [exact Ce |].
  rewrite S3, S2. cbn [self set_vm_workspace _vm_workspace _vm_workspace_time].
  split; reflexivity.
Qed.

Lemma unskipped_workspace_fails_the_fan_out_witness :
  exists e w',
    fetch_vms_from_all_workspaces cfg_account
      (up_three_with (Response 200 (BodyJson PNone))) world_three
    = (Raise e, w')
    /\ exn_cls e = TypeError
    /\ _vm_workspace (self w')
       = snd (merge cfg_account
                (answering (answers_with (Response 200 (BodyJson PNone)))
                   [workspace_dal10]))
    /\ _vm_workspace_time (self w')
       = _vm_workspace_time (self (after_clock world_three)).
Proof.
  apply (unskipped_workspace_fails_the_fan_out cfg_account
           (up_three_with (Response 200 (BodyJson PNone)))
           (answers_with (Response 200 (BodyJson PNone)))
           world_three (after_clock world_three)
           [workspace_dal10] workspace_dal12 [workspace_dal13]).
  - intros n. reflexivity.
  - intros l H. inversion H. reflexivity.
  - reflexivity.
  - intros x [<- | []] n h. reflexivity.
  - intros x [<- | []] _. vm_compute. discriminate.
  - reflexivity.
  - intros n h. reflexivity.
  - reflexivity.
Defined.

(** Three workspaces, the second failing.  A time-out with its text or a
    503 is skipped and the VMs of the two others are returned; a time-out
    without text, a 200 with body [null] and a 200 with [pvmInstances]
    [null] end the fan-out with [TypeError]. *)
Example fan_out_with_second_workspace_failing :
  fst (fetch_vms_from_all_workspaces cfg_account
         (up_three_with (Transport "Read timed out")) world_three)
  = Ret inventory_three
  /\ fst (fetch_vms_from_all_workspaces cfg_account
            (up_three_with (Response 503 (BodyJson (PDict [])))) world_three)
     = Ret inventory_three
  /\ fst (fetch_vms_from_all_workspaces cfg_account
            (up_three_with (Transport "")) world_three)
     = Raise (mkExn TypeError "argument of type 'NoneType' is not iterable")
  /\ fst (fetch_vms_from_all_workspaces cfg_account
            (up_three_with (Response 200 (BodyJson PNone))) world_three)
     = Raise (mkExn TypeError "argument of type 'NoneType' is not iterable")
  /\ fst (fetch_vms_from_all_workspaces cfg_account
            (up_three_with
               (Response 200 (BodyJson (PDict [("pvmInstances", PNone)]))))
            world_three)
     = Raise (mkExn TypeError "'NoneType' object is not iterable").
Proof. vm_compute. repeat split; reflexivity. Qed.
